(** * osdctl assist: diagnostic collection commands

    A shallow embedding of the four alert commands of [cmd/assist]
    (pruning cronjob, cluster monitoring error budget burn, cluster
    provisioning failure, dynatrace monitoring stack down) and of the
    properties their specification states.

    Go strings are byte sequences: they are modelled by [string], whose
    characters are the 8-bit [ascii] codes, so [String.length] is Go's [len].
    Everything the commands do to the outside world (processes, files of the
    bundle directory, the terminal, the chat-completion endpoint) goes through
    a small monad that records a trace of events. *)

From Stdlib Require Import String Ascii List Arith PeanoNat ZArith Lia Bool.
From Stdlib Require Import Sorting.Mergesort Sorting.Sorted Sorting.Permutation.
From Stdlib Require Import DecimalString Decimal.
Import ListNotations.
Local Open Scope list_scope.
Local Open Scope string_scope.

(* ================================================================== *)
(** ** Go's [strings], [sort], [path/filepath] and [fmt] on byte strings *)
(* ================================================================== *)

Module GoStr.

(** A string from its byte values. *)
Definition bytes (l : list nat) : string :=
string_of_list_ascii (map ascii_of_nat l).

Definition nl : string := bytes [10].
Definition cr : string := bytes [13].
Definition tab : string := bytes [9].
Definition dquote : string := bytes [34].
Definition squote : string := bytes [39].
Definition backslash : string := bytes [92].

(** [len(s)] *)
Definition len (s : string) : nat := String.length s.

(** [s[:n]] and [s[n:]]; the source only slices within bounds. *)
Fixpoint take (n : nat) (s : string) : string :=
match n, s with
| S n', String c r => String c (take n' r)
| _, _ => EmptyString
end.

Fixpoint drop (n : nat) (s : string) : string :=
match n, s with
| S n', String _ r => drop n' r
| _, _ => s
end.

(** [strings.HasPrefix] and [strings.HasSuffix] *)
Definition HasPrefix (s p : string) : bool := String.prefix p s.

Definition HasSuffix (s p : string) : bool :=
Nat.leb (len p) (len s) && (drop (len s - len p) s =? p).

(** [strings.TrimSuffix]: [s] without the trailing [p], once. *)
Definition TrimSuffix (s p : string) : string :=
if HasSuffix s p then take (len s - len p) s else s.

(** [strings.Contains] *)
Definition Contains (s sub : string) : bool :=
match sub with
| EmptyString => true
| _ => match String.index 0 sub s with Some _ => true | None => false end
end.

(** [strings.Split(s, sep)] for a one-byte separator. *)
Fixpoint splitByte (sep : ascii) (s : string) : list string :=
match s with
| EmptyString => [EmptyString]
| String c r =>
    if Ascii.eqb c sep then EmptyString :: splitByte sep r
    else match splitByte sep r with
         | [] => [String c EmptyString]
         | h :: t => String c h :: t
         end
end.

Definition SplitLines (s : string) : list string := splitByte (ascii_of_nat 10) s.

(** [strings.Join] *)
Definition Join (l : list string) (sep : string) : string := String.concat sep l.

(** [strings.ReplaceAll(s, old, "")] for a one-byte [old]. *)
Fixpoint removeByte (b : ascii) (s : string) : string :=
match s with
| EmptyString => EmptyString
| String c r => if Ascii.eqb c b then removeByte b r else String c (removeByte b r)
end.

(** The UTF-8 encodings of the runes [unicode.IsSpace] accepts: the six ASCII
    spaces, U+0085, U+00A0, U+1680, U+2000..U+200A, U+2028, U+2029, U+202F,
    U+205F and U+3000. *)
Definition spaceRunes : list string :=
[ bytes [9]; bytes [10]; bytes [11]; bytes [12]; bytes [13]; bytes [32];
  bytes [194; 133]; bytes [194; 160]; bytes [225; 154; 128];
  bytes [226; 128; 128]; bytes [226; 128; 129]; bytes [226; 128; 130];
  bytes [226; 128; 131]; bytes [226; 128; 132]; bytes [226; 128; 133];
  bytes [226; 128; 134]; bytes [226; 128; 135]; bytes [226; 128; 136];
  bytes [226; 128; 137]; bytes [226; 128; 138]; bytes [226; 128; 168];
  bytes [226; 128; 169]; bytes [226; 128; 175]; bytes [226; 129; 159];
  bytes [227; 128; 128] ].

(** The rest of [s] after the first of [cands] that starts it. *)
Fixpoint stripPrefixOf (cands : list string) (s : string) : option string :=
match cands with
| [] => None
| c :: r => if HasPrefix s c then Some (drop (len c) s) else stripPrefixOf r s
end.

(** [s] without the first of [cands] that ends it. *)
Fixpoint stripSuffixOf (cands : list string) (s : string) : option string :=
match cands with
| [] => None
| c :: r => if HasSuffix s c then Some (take (len s - len c) s) else stripSuffixOf r s
end.

Fixpoint trimLeftN (cands : list string) (fuel : nat) (s : string) : string :=
match fuel with
| O => s
| S f => match stripPrefixOf cands s with
         | Some r => trimLeftN cands f r
         | None => s
         end
end.

Fixpoint trimRightN (cands : list string) (fuel : nat) (s : string) : string :=
match fuel with
| O => s
| S f => match stripSuffixOf cands s with
         | Some r => trimRightN cands f r
         | None => s
         end
end.

(** [strings.TrimSpace]: leading white-space runes are dropped, then trailing
    ones. Every stripped rune takes at least one byte, so [len s] rounds are
    enough. *)
Definition TrimSpace (s : string) : string :=
let l := trimLeftN spaceRunes (len s) s in
trimRightN spaceRunes (len l) l.

(** [strings.Trim(s, cutset)] for a cutset of ASCII bytes. *)
Definition Trim (s : string) (cutset : list string) : string :=
let l := trimLeftN cutset (len s) s in
trimRightN cutset (len l) l.

(** [filepath.Ext]: the suffix of the last path element from its last dot. *)
Fixpoint extFrom (s : string) : option string :=
match s with
| EmptyString => None
| String c r =>
    match extFrom r with
    | Some e => Some e
    | None =>
        if Ascii.eqb c "/"%char then Some EmptyString
        else if Ascii.eqb c "."%char then Some s
        else None
    end
end.

Definition Ext (path : string) : string :=
match extFrom path with Some e => e | None => EmptyString end.

(** [%d] of a Go integer. *)
Definition itoa (z : Z) : string := NilZero.string_of_int (Z.to_int z).

Definition itoaNat (n : nat) : string := itoa (Z.of_nat n).

(** Decimal digits, and a number padded with zeros to [w] digits. *)
Definition isDigit (c : ascii) : bool :=
let n := nat_of_ascii c in Nat.leb 48 n && Nat.leb n 57.

Fixpoint zeros (n : nat) : string :=
match n with O => EmptyString | S k => String "0"%char (zeros k) end.

(** A rule of [n] times the same character. *)
Fixpoint line (c : ascii) (n : nat) : string :=
match n with O => EmptyString | S k => String c (line c k) end.

Definition pad (w n : nat) : string :=
let d := itoaNat n in zeros (w - len d) ++ d.

End GoStr.

(** [sort.Strings]: ascending byte-wise lexicographic order. *)
Module StringOrder <: Orders.TotalLeBool.
Definition t := string.
Definition leb (x y : string) : bool := String.leb x y.
Infix "<=?" := leb (at level 70, no associativity).
Theorem leb_total : forall a1 a2, leb a1 a2 = true \/ leb a2 a1 = true.
Proof. intros a1 a2; apply String.leb_total. Qed.
End StringOrder.

Module StringSort := Sort StringOrder.

Definition sortStrings (l : list string) : list string := StringSort.sort l.

(* ================================================================== *)
(** ** The outside world: processes, bundle files, terminal, endpoint *)
(* ================================================================== *)

Module Sys.
Import GoStr.

(** Go's [error]; [None] is [nil], [Some msg] an error whose text is [msg]. *)
Notation error := (option string).

Definition errorf (msg : string) : error := Some msg.

(** [%v] of an error. *)
Definition errText (e : error) : string :=
match e with Some m => m | None => "<nil>" end.

(** The [*color.Color] values a command creates in [run]. *)
Inductive Color := Green | Yellow | Red | Plain.

(** Where the output of a child process goes: appended to a file of the bundle
    directory, dropped ([cmd.Stdout = nil]) or returned to the caller
    ([CombinedOutput]). *)
Inductive Sink :=
| ToFile (name : string)
| Discarded
| Captured.

(** The second argument of the command executor: ["/dev/null"], or
    [filepath.Join(o.outputDir, name)], which the model names by [name]. *)
Inductive Target :=
| DevNull
| InBundle (name : string).

(** One message of a conversation. The declaration of the Go type [Message] is
    not among the sources; its uses give it the fields [Role] and [Content]. *)
Record Message := mkMessage { Role : string; Content : string }.

(** The chat-completion request: the URL and headers of [http.NewRequest], and
    the fields of the JSON body before [json.Marshal]. *)
Record ChatRequest := mkChatRequest {
  reqMethod : string;
  reqURL : string;
  reqContentType : string;
  reqAuthorization : string;
  reqModel : string;
  reqMessages : list Message;
  reqTemperature : string;
  reqMaxTokens : nat
}.

(** What [client.Do] gives: an error, or a status code and a body. *)
Inductive HttpResult :=
| HttpFailed (msg : string)
| HttpResponse (status : nat) (body : string).

(** A Dynatrace log query as the builder calls of [collectComponentLogs]
    assemble it. *)
Record DTQuery := mkDTQuery {
  dtHours : nat;
  dtCluster : string;
  dtNamespaces : list string;
  dtContainers : list string;
  dtDeployments : list string;
  dtLimit : nat
}.

(** What happened, in order. *)
Inductive Event :=
| EvPrint (c : Color) (text : string)
| EvProc (prog : string) (args : list string) (sink : Sink) (output : string) (err : error)
| EvMkdirAll (err : error)
| EvLookPath (prog : string) (err : error)
| EvOpen (name : string) (err : error)
| EvWriteFile (name : string) (content : string) (err : error)
| EvAppend (name : string) (content : string) (err : error)
| EvRemove (name : string)
| EvPost (req : ChatRequest) (res : HttpResult)
| EvDtQuery (url : string) (query : string) (err : error)
| EvDtLogs (url : string) (name : string) (err : error).

(** The regular files of the bundle directory, by name. *)
Definition FS := list (string * string).

Fixpoint lookupFile (name : string) (fs : FS) : option string :=
match fs with
| [] => None
| (n, c) :: r => if n =? name then Some c else lookupFile name r
end.

Fixpoint storeFile (name content : string) (fs : FS) : FS :=
match fs with
| [] => [(name, content)]
| (n, c) :: r => if n =? name then (n, content) :: r else (n, c) :: storeFile name content r
end.

Definition appendFile (name content : string) (fs : FS) : FS :=
match lookupFile name fs with
| Some old => storeFile name (old ++ content) fs
| None => storeFile name content fs
end.

Fixpoint removeFile (name : string) (fs : FS) : FS :=
match fs with
| [] => []
| (n, c) :: r => if n =? name then r else (n, c) :: removeFile name r
end.

(** The file-system calls that the environment may refuse. *)
Inductive FsOp :=
| OpOpen (name : string)
| OpWrite (name : string)
| OpRead (name : string)
| OpList.

(** [os.Stat] of a path given on the command line. *)
Inductive StatResult :=
| StatError (msg : string)
| StatIsFile
| StatIsDir.

(** [time.Now()]: a civil time and the zone offset in seconds. *)
Record Time := mkTime {
  year : nat; month : nat; day : nat;
  hour : nat; minute : nat; second : nat;
  zoneOffset : Z
}.

(** The shapes [encoding/json] decodes into. *)
Record Pod := mkPod { podName : string; podPhase : string }.
Record Condition := mkCondition { condType : string; condStatus : string }.
Record ContainerStatus := mkContainerStatus { waitingReason : string; terminatedReason : string }.
Record JobStatus := mkJobStatus { jobName : string; jobFailed : option Z; jobSucceeded : option Z }.

(** [json.Unmarshal] and [Decoder.Decode] into the anonymous structs of the
    source; [None] is a decoding error, [inr msg] one whose text is used. *)
Record Json := mkJson {
  decodePods : string -> option (list Pod);
  decodeNames : string -> option (list string);
  decodeContainerStatuses : string -> option (list (string * list ContainerStatus));
  decodeJobStatuses : string -> option (list JobStatus);
  decodeConditions : string -> option (list (string * list Condition));
  decodeClusterInfoID : string -> option string;
  decodeErrorMessage : string -> option string;
  decodeChoices : string -> list string + string
}.

(** The Dynatrace client package [cmd/dynatrace], which is not among the
    sources: each call is answered by the environment. *)
Record Dynatrace := mkDynatrace {
  FetchClusterDetails : string -> (string * string) + string;
  GetStorageAccessToken : string + string;
  SortQuery : DTQuery -> string -> string + string;
  GetDTQueryExecution : list Event -> string -> string -> string -> string + string;
  GetLogs : list Event -> string -> string -> string -> string * error
}.

(** Everything a command reads from its surroundings. The answers of
    processes, of the file system and of the endpoint may depend on all that
    happened before. *)
Record Env := mkEnv {
  now : list Event -> Time;
  getenv : string -> string;
  flagChanged : string -> bool;
  configFile : option (string -> string);
  stat : string -> StatResult;
  lookPath : string -> error;
  mkdirAll : list Event -> error;
  proc : list Event -> string -> list string -> string * error;
  fault : list Event -> FsOp -> error;
  archiveExists : list Event -> bool;
  newRequest : string -> error;
  http : list Event -> ChatRequest -> HttpResult;
  stdin : list string;
  stdinErr : error;
  ToLower : string -> string;
  json : Json;
  dt : Dynatrace;
  embedded : string -> string
}.

(** *** The monad *)

Record Result (A : Type) := mkResult {
  val : A;
  emitted : list Event;
  files : FS
}.
Arguments mkResult {A} _ _ _.
Arguments val {A} _.
Arguments emitted {A} _.
Arguments files {A} _.

(** A computation reads the environment, the events so far and the bundle
    files; it gives a value, the events it adds and the new files. *)
Definition M (A : Type) : Type := Env -> list Event -> FS -> Result A.

Definition ret {A} (a : A) : M A := fun _ _ fs => mkResult a [] fs.

Definition bind {A B} (m : M A) (k : A -> M B) : M B :=
fun env h fs =>
  let r := m env h fs in
  let r2 := k (val r) env (h ++ emitted r)%list (files r) in
  mkResult (val r2) (emitted r ++ emitted r2)%list (files r2).

Notation "x <- m ;; k" := (bind m (fun x => k))
  (at level 61, m at next level, right associativity).
Notation "m ;; k" := (bind m (fun _ => k))
  (at level 61, right associativity).

Definition emit (e : Event) : M unit := fun _ _ fs => mkResult tt [e] fs.

Definition ask : M Env := fun env _ fs => mkResult env [] fs.

Definition history : M (list Event) := fun _ h fs => mkResult h [] fs.

(** [for _, x := range l { body x }] *)
Fixpoint forEach {A} (l : list A) (body : A -> M unit) : M unit :=
match l with
| [] => ret tt
| x :: r => body x ;; forEach r body
end.

(** [if err := m; err != nil { return err }] followed by [k]. *)
Definition check (m : M error) (k : M error) : M error :=
e <- m ;; match e with Some msg => ret (Some msg) | None => k end.

(** *** Terminal *)

(** [c.Println(msg)], [fmt.Println(msg)] and [safeColorPrintln(c, msg)]. *)
Definition println (c : Color) (msg : string) : M unit := emit (EvPrint c (msg ++ nl)).

(** [c.Printf], [fmt.Printf] and [safeColorPrintf] with the format expanded. *)
Definition printf (c : Color) (text : string) : M unit := emit (EvPrint c text).

(** *** Processes *)

(** [exec.Command(prog, args...)] run to its end. *)
Definition runProcess (prog : string) (args : list string) (sink : Sink) : M (string * error) :=
fun env h fs =>
  let r := proc env h prog args in
  mkResult r [EvProc prog args sink (fst r) (snd r)]
    match sink with
    | ToFile name => appendFile name (fst r) fs
    | _ => fs
    end.

(** *** Files of the bundle directory *)

(** [os.WriteFile(filepath.Join(o.outputDir, name), content, 0644)] *)
Definition WriteFile (name content : string) : M error :=
fun env h fs =>
  match fault env h (OpWrite name) with
  | Some msg => mkResult (Some msg) [EvWriteFile name content (Some msg)] fs
  | None => mkResult None [EvWriteFile name content None] (storeFile name content fs)
  end.

(** [os.ReadFile] *)
Definition ReadFile (name : string) : M (option string) :=
fun env h fs =>
  match fault env h (OpRead name) with
  | Some _ => mkResult None [] fs
  | None => mkResult (lookupFile name fs) [] fs
  end.

(** [os.OpenFile(path, O_CREATE|O_WRONLY|O_APPEND, 0644)] *)
Definition OpenAppend (name : string) : M error :=
fun env h fs =>
  match fault env h (OpOpen name) with
  | Some msg => mkResult (Some msg) [EvOpen name (Some msg)] fs
  | None => mkResult None [EvOpen name None] (appendFile name "" fs)
  end.

(** [os.Create]: the file is emptied. *)
Definition Create (name : string) : M error :=
fun env h fs =>
  match fault env h (OpOpen name) with
  | Some msg => mkResult (Some msg) [EvOpen name (Some msg)] fs
  | None => mkResult None [EvOpen name None] (storeFile name "" fs)
  end.

Definition Remove (name : string) : M unit :=
fun env h fs => mkResult tt [EvRemove name] (removeFile name fs).

(** The names [filepath.Walk(o.outputDir, ...)] hands to its callback for the
    entries that are not directories, or [None] when the walk ends in an
    error. *)
Definition WalkFiles : M (option (list string)) :=
fun env h fs =>
  match fault env h OpList with
  | Some _ => mkResult None [] fs
  | None => mkResult (Some (map fst fs)) [] fs
  end.

(** A name matches [prefix*suffix]. *)
Definition matchStar (pre suf name : string) : bool :=
HasPrefix name pre && HasSuffix name suf && Nat.leb (len pre + len suf) (len name).

(** [filepath.Glob(filepath.Join(o.outputDir, pre + "*" + suf))]; I/O errors
    give no match. *)
Definition Glob (pre suf : string) : M (list string) :=
fun env h fs =>
  match fault env h OpList with
  | Some _ => mkResult [] [] fs
  | None => mkResult (filter (matchStar pre suf) (map fst fs)) [] fs
  end.

(** [file.WriteString(content)] on a file opened for appending. *)
Definition WriteString (name content : string) : M error :=
fun env h fs =>
  match fault env h (OpWrite name) with
  | Some msg => mkResult (Some msg) [EvAppend name content (Some msg)] fs
  | None => mkResult None [EvAppend name content None] (appendFile name content fs)
  end.

(** [dt.GetDTQueryExecution(url, accessToken, query)]: the request token. *)
Definition DtQueryExecution (url accessToken query : string) : M (string + string) :=
fun env h fs =>
  let r := GetDTQueryExecution (dt env) h url accessToken query in
  mkResult r [EvDtQuery url query match r with inl _ => None | inr msg => Some msg end] fs.

(** [dt.GetLogs(url, accessToken, requestToken, file)]: what it fetches is
    written to the open file. *)
Definition DtGetLogs (url accessToken requestToken name : string) : M error :=
fun env h fs =>
  let r := GetLogs (dt env) h url accessToken requestToken in
  mkResult (snd r) [EvDtLogs url name (snd r)] (appendFile name (fst r) fs).

(** [os.MkdirAll(o.outputDir, 0755)] *)
Definition MkdirAll : M error :=
fun env h fs => let e := mkdirAll env h in mkResult e [EvMkdirAll e] fs.

(** [exec.LookPath(prog)] *)
Definition LookPath (prog : string) : M error :=
fun env h fs => mkResult (lookPath env prog) [EvLookPath prog (lookPath env prog)] fs.

(** [os.Stat(o.outputDir + ".tar.gz")] succeeds. *)
Definition ArchiveExists : M bool :=
fun env h fs => mkResult (archiveExists env h) [] fs.

(** *** Time *)

(** [t.Format("20060102-150405")] *)
Definition formatTimestamp (t : Time) : string :=
pad 4 (year t) ++ pad 2 (month t) ++ pad 2 (day t) ++ "-" ++
pad 2 (hour t) ++ pad 2 (minute t) ++ pad 2 (second t).

(** [t.Format(time.RFC3339)] *)
Definition formatRFC3339 (t : Time) : string :=
pad 4 (year t) ++ "-" ++ pad 2 (month t) ++ "-" ++ pad 2 (day t) ++ "T" ++
pad 2 (hour t) ++ ":" ++ pad 2 (minute t) ++ ":" ++ pad 2 (second t) ++
(if Z.eqb (zoneOffset t) 0 then "Z"
 else let zone := Z.quot (zoneOffset t) 60 in
      let a := Z.to_nat (Z.abs zone) in
      (if Z.ltb zone 0 then "-" else "+") ++ pad 2 (a / 60) ++ ":" ++ pad 2 (a mod 60)).

Definition Now : M Time := fun env h fs => mkResult (now env h) [] fs.

End Sys.

(* ================================================================== *)
(** ** What the four commands share *)
(* ================================================================== *)

Module Cmd.
Import GoStr Sys.

(** The options structs of the four commands ([pruningCronjobOptions],
    [clusterMonitoringErrorBudgetBurnOptions],
    [clusterProvisioningFailureOptions], [dynatraceMonitoringStackDownOptions])
    have the same fields; [clusterID] and [clusterInternalID] belong to the
    provisioning command only. The [commandExecutor] and [commandRunner]
    fields, which only tests replace, are taken at the defaults that the
    constructors install. *)
Record Options := mkOptions {
  outputDir : string;
  existingDir : string;
  skipCollection : bool;
  clusterID : string;
  clusterInternalID : string;
  enableLLMAnalysis : bool;
  llmAPIKey : string;
  llmBaseURL : string;
  llmModel : string
}.

Definition setOutputDir (o : Options) (d : string) : Options :=
mkOptions d (existingDir o) (skipCollection o) (clusterID o) (clusterInternalID o)
  (enableLLMAnalysis o) (llmAPIKey o) (llmBaseURL o) (llmModel o).

Definition setExisting (o : Options) : Options :=
mkOptions (existingDir o) (existingDir o) true (clusterID o) (clusterInternalID o)
  true (llmAPIKey o) (llmBaseURL o) (llmModel o).

Definition setInternalID (o : Options) (i : string) : Options :=
mkOptions (outputDir o) (existingDir o) (skipCollection o) (clusterID o) i
  (enableLLMAnalysis o) (llmAPIKey o) (llmBaseURL o) (llmModel o).

Definition setAPIKey (o : Options) (k : string) : Options :=
mkOptions (outputDir o) (existingDir o) (skipCollection o) (clusterID o) (clusterInternalID o)
  (enableLLMAnalysis o) k (llmBaseURL o) (llmModel o).

Definition setBaseURL (o : Options) (u : string) : Options :=
mkOptions (outputDir o) (existingDir o) (skipCollection o) (clusterID o) (clusterInternalID o)
  (enableLLMAnalysis o) (llmAPIKey o) u (llmModel o).

Definition setModel (o : Options) (m : string) : Options :=
mkOptions (outputDir o) (existingDir o) (skipCollection o) (clusterID o) (clusterInternalID o)
  (enableLLMAnalysis o) (llmAPIKey o) (llmBaseURL o) m.

(** The flag defaults of [NewCmd...]: every string flag empty, the model
    [gpt-4o-mini]. *)
Definition defaultOptions : Options :=
mkOptions "" "" false "" "" false "" "" "gpt-4o-mini".

(** [defaultCommandExecutor]: runs [oc name args...]; its output is dropped
    for ["/dev/null"], and appended to the output file otherwise. *)
Definition defaultCommandExecutor (name : string) (args : list string) (outputFile : Target) : M error :=
let cmdArgs := name :: args in
match outputFile with
| DevNull => r <- runProcess "oc" cmdArgs Discarded ;; ret (snd r)
| InBundle file =>
    e <- OpenAppend file ;;
    match e with
    | Some msg => ret (Some msg)
    | None => r <- runProcess "oc" cmdArgs (ToFile file) ;; ret (snd r)
    end
end.

(** [defaultCommandRunner]: runs [oc name args...] and returns its combined
    output. *)
Definition defaultCommandRunner (name : string) (args : list string) : M (string * error) :=
runProcess "oc" (name :: args) Captured.

(** [runOCCommand] and [runOCCommandWithOutput] of every command. *)
Definition runOCCommand (subcommand : string) (args : list string) (outputFile : Target) : M error :=
defaultCommandExecutor subcommand args outputFile.

Definition runOCCommandWithOutput (subcommand : string) (args : list string) : M (string * error) :=
defaultCommandRunner subcommand args.

(** [writeFile] of every command. *)
Definition writeFile (name content : string) : M error := WriteFile name content.

(** [appendToFile] *)
Definition appendToFile (name content : string) : M error :=
e <- OpenAppend name ;;
match e with
| Some msg => ret (Some msg)
| None => WriteString name content
end.

(** [createTarball]: [tar -czf <outputDir>.tar.gz <outputDir>]. *)
Definition createTarball (o : Options) : M error :=
r <- runProcess "tar" ["-czf"; outputDir o ++ ".tar.gz"; outputDir o] Discarded ;;
ret (snd r).

(** The step every collector repeats: announce, run one [oc] command into a
    file of the bundle, and print the failure or the success line. *)
Definition collectTo (yellow green red : Color) (title : string)
  (subcommand : string) (args : list string) (file : string) (failed saved : string) : M unit :=
println yellow title ;;
e <- runOCCommand subcommand args (InBundle file) ;;
match e with
| Some _ => printf red failed
| None => printf green saved
end.

(** The failure and success lines of the collectors. *)
Definition cross : string := bytes [226; 156; 151].
Definition tick : string := bytes [226; 156; 147].

Definition failedLine (what : string) : string :=
"  " ++ cross ++ " Failed to " ++ what ++ nl ++ nl.

Definition savedLine (file : string) : string :=
"  " ++ tick ++ " Saved to " ++ file ++ nl ++ nl.

(** [getClusterID] as [pruningcronjoberrorsre.go] writes it. *)
Definition getClusterID : M (string * error) :=
r <- runOCCommandWithOutput "get" ["clusterversion"; "version"; "-o"; "jsonpath={.spec.clusterID}"] ;;
match snd r with
| Some _ => ret ("N/A", None)
| None =>
    let clusterID := TrimSpace (fst r) in
    if clusterID =? "" then ret ("N/A", None) else ret (clusterID, None)
end.

(** [getClusterID] as the other three commands write it. *)
Definition getClusterID' : M (string * error) :=
r <- defaultCommandRunner "get" ["clusterversion"; "version"; "-o"; "jsonpath={.spec.clusterID}"] ;;
match snd r with
| Some _ => ret ("N/A", None)
| None =>
    if TrimSpace (fst r) =? "" then ret ("N/A", None)
    else ret (TrimSpace (fst r), None)
end.

(** [min] and [max] *)
Definition min (a b : nat) : nat := if Nat.ltb a b then a else b.
Definition max (a b : nat) : nat := if Nat.ltb b a then a else b.

(** [validateAPIKey] *)
Definition validateAPIKey (apiKey : string) : error :=
if apiKey =? "" then errorf "API key is empty"
else
  let trimmed := TrimSpace apiKey in
  if negb (trimmed =? apiKey) then
    errorf ("API key contains leading or trailing whitespace (length: " ++ itoaNat (len apiKey)
            ++ " -> " ++ itoaNat (len trimmed) ++ " after trim)")
  else if Nat.ltb (len apiKey) 10 then
    errorf ("API key appears too short (length: " ++ itoaNat (len apiKey)
            ++ "). Valid API keys are typically longer")
  else None.

(** A pod whose phase is neither [Succeeded] nor [Running]. *)
Definition isFailing (p : Pod) : bool :=
negb (podPhase p =? "Succeeded") && negb (podPhase p =? "Running").

(** The names of the failing pods and of all pods in the decoded list; both
    empty when the output does not decode. *)
Definition failingPods (env : Env) (output : string) : list string :=
match decodePods (json env) output with
| Some items => map podName (filter isFailing items)
| None => []
end.

Definition allPods (env : Env) (output : string) : list string :=
match decodePods (json env) output with
| Some items => map podName items
| None => []
end.

(** The lines of the output that a filter keeps, joined again; the
    replacement text when nothing is left. *)
Definition keepLines (keep : string -> bool) (output empty : string) : string :=
let content := Join (filter keep (SplitLines output)) nl in
if content =? "" then empty else content.

(** Write derived content to a file of the bundle and print the outcome. *)
Definition saveTo (green red : Color) (file content failed : string) : M unit :=
e <- writeFile file content ;;
match e with
| Some _ => printf red failed
| None => printf green (savedLine file)
end.

(** *** The summary file *)

(** What the callback of [filepath.Walk] keeps in [generateSummary]: the
    entries that are not directories and whose extension is [.txt], [.yaml]
    or [.json]. *)
Definition isCollected (name : string) : bool :=
let ext := Ext name in (ext =? ".txt") || (ext =? ".yaml") || (ext =? ".json").

(** The names a summary lists, when the walk gives [names]. *)
Definition listing (names : list string) : list string :=
sortStrings (filter isCollected names).

Definition listingText (files : list string) : string :=
String.concat "" (map (fun file => file ++ nl) files).

(** The lines under [Files Collected]: nothing when the walk fails. *)
Definition collectedFiles : M string :=
w <- WalkFiles ;;
match w with
| Some names => ret (listingText (listing names))
| None => ret ""
end.

(** An excerpt: the title and the content of a collected file, when it can
    be read. *)
Definition excerpt (title file : string) : M string :=
d <- ReadFile file ;;
match d with
| Some content => ret (nl ++ title ++ nl ++ content ++ nl)
| None => ret ""
end.

Fixpoint excerpts (parts : list (string * string)) : M string :=
match parts with
| [] => ret ""
| (title, file) :: r => a <- excerpt title file ;; b <- excerpts r ;; ret (a ++ b)
end.

(** The head of every summary. *)
Definition summaryHead (alert date ids : string) : string :=
alert ++ " Diagnostic Collection Summary" ++ nl ++ line "="%char 52 ++ nl
++ "Collection Date: " ++ date ++ nl ++ ids.

Definition filesCollectedTitle : string := "Files Collected:" ++ nl ++ line "-"%char 16 ++ nl.

Definition keyInformationTitle : string := nl ++ "Key Information:" ++ nl ++ line "-"%char 15 ++ nl.

(** *** The content sent to the model *)

(** One file in the diagnostic content. *)
Definition section (name body : string) : string :=
nl ++ "=== " ++ name ++ " ===" ++ nl ++ body ++ nl.

(** At most [n] bytes of [s], with the truncation line when bytes are
    dropped. *)
Definition truncated (n : nat) (s : string) : string :=
if Nat.ltb n (len s) then take n s ++ nl ++ "... (truncated)" else s.

(** The sections of the files that can be read, in order; [shape] limits the
    content of a file. *)
Fixpoint readSections (shape : string -> string -> string) (names : list string) : M string :=
match names with
| [] => ret ""
| name :: r =>
    d <- ReadFile name ;;
    rest <- readSections shape r ;;
    ret (match d with Some data => section name (shape name data) | None => "" end ++ rest)
end.

Definition whole (name data : string) : string := data.

(** [sort.Strings(files); if len(files) > 5 { files = files[:5] }] *)
Definition firstFive (files : list string) : list string := firstn 5 (sortStrings files).

(** *** The frame of [run] *)

(** The collectors in order, each ending the run when it returns an error. *)
Fixpoint checkAll (steps : list (M error)) (k : M error) : M error :=
match steps with
| [] => k
| m :: r => check m (checkAll r k)
end.

(** The collection branch of [run] in the pruning, monitoring and dynatrace
    commands: directory, [oc] on the path, login, cluster id,
    [cluster-info.txt], the collectors, the summary, the archive. *)
Definition collection (alert loginHint : string) (o : Options) (getID : M (string * error))
  (collectors : list (M error)) (generateSummary : string -> M error) : M error :=
println Green ("Collecting diagnostic information for " ++ alert ++ " alert...") ;;
printf Plain ("Output directory: " ++ outputDir o ++ nl ++ nl) ;;
mk <- MkdirAll ;;
match mk with
| Some msg => ret (errorf ("failed to create output directory: " ++ msg))
| None =>
    lp <- LookPath "oc" ;;
    match lp with
    | Some msg =>
        println Red "Error: 'oc' command not found. Please ensure OpenShift CLI is installed and configured." ;;
        ret (Some msg)
    | None =>
        login <- defaultCommandExecutor "cluster-info" [] DevNull ;;
        match login with
        | Some msg =>
            println Red ("Error: Not logged into a cluster. Please run " ++ loginHint ++ " first.") ;;
            ret (Some msg)
        | None =>
            println Green "Cluster Information:" ;;
            id <- getID ;;
            let clusterID := fst id in
            printf Plain ("Cluster ID: " ++ clusterID ++ nl ++ nl) ;;
            t <- Now ;;
            check (writeFile "cluster-info.txt"
                     ("Cluster ID: " ++ clusterID ++ nl ++ "Collection Date: " ++ formatRFC3339 t ++ nl))
              (defaultCommandExecutor "cluster-info" [] (InBundle "cluster-info.txt") ;;
               checkAll collectors
                 (check (generateSummary clusterID)
                    (println Green "Creating archive..." ;;
                     tar <- createTarball o ;;
                     match tar with
                     | Some msg => printf Plain ("Warning: Failed to create archive: " ++ msg ++ nl)
                     | None => ret tt
                     end ;;
                     ret None)))
        end
    end
end.

(** The other branch of [run], for [--analyze-existing]: the directory must
    hold a [.txt], [.yaml] or [.json] file. *)
Definition analyzeExisting (o : Options) : M error :=
println Green "Analyzing existing diagnostic artifacts..." ;;
printf Plain ("Directory: " ++ outputDir o ++ nl ++ nl) ;;
txt <- Glob "" ".txt" ;;
match txt with
| _ :: _ => ret None
| [] =>
    yamlFiles <- Glob "" ".yaml" ;;
    jsonFiles <- Glob "" ".json" ;;
    match yamlFiles, jsonFiles with
    | [], [] => ret (errorf ("directory appears to be empty or contains no diagnostic files: " ++ outputDir o))
    | _, _ => ret None
    end
end.

(** What [run] prints before the analysis in the later revisions: endpoint,
    model, and the two ends of the key. *)
Definition announceLLM (o : Options) : M unit :=
println Yellow (nl ++ "Analyzing diagnostics with LLM...") ;;
printf Plain ("Using LLM endpoint: " ++ llmBaseURL o ++ nl) ;;
printf Plain ("Using model: " ++ llmModel o ++ nl) ;;
(if Nat.ltb 0 (len (llmAPIKey o)) then
   let k := llmAPIKey o in
   let keyPreview := take (min 10 (len k)) k ++ "..." ++ drop (max 0 (len k - 10)) k in
   printf Plain ("API key preview: " ++ keyPreview ++ " (length: " ++ itoaNat (len k) ++ ")" ++ nl)
 else ret tt) ;;
println Plain "".

(** The analysis printed and saved. *)
Definition saveAnalysis (analysisFile analysis : string) : M unit :=
println Green (nl ++ "=== LLM Analysis Results ===") ;;
println Plain analysis ;;
println Plain "" ;;
e <- writeFile analysisFile analysis ;;
match e with
| Some msg => printf Plain ("Warning: Failed to save LLM analysis: " ++ msg ++ nl)
| None => printf Green (tick ++ " LLM analysis saved to " ++ analysisFile ++ nl)
end.

(** The end of every [run]: the banner, where the bundle is, and the next
    steps, which depend on whether the analysis was enabled. *)
Definition finish (o : Options) (firstSteps withLLM withoutLLM : list string) (last : M unit) : M unit :=
println Green (nl ++ line "="%char 40) ;;
println Green "Collection Complete!" ;;
println Green (line "="%char 40) ;;
printf Plain ("Diagnostic information saved to: " ++ outputDir o ++ "/" ++ nl) ;;
a <- ArchiveExists ;;
(if a then printf Plain ("Archive created: " ++ outputDir o ++ ".tar.gz" ++ nl) else ret tt) ;;
println Plain (nl ++ "Next steps:") ;;
printf Plain ("1. Review the files in " ++ outputDir o ++ "/" ++ nl) ;;
forEach (firstSteps ++ (if enableLLMAnalysis o then withLLM else withoutLLM))%list (println Plain) ;;
last ;;
println Plain "".

End Cmd.

(* ================================================================== *)
(** ** Configuration and the chat-completion endpoint *)
(* ================================================================== *)

Module Llm.
Import GoStr Sys Cmd.

(** [loadConfigValue]: the value of the key in [~/.config/osdctl], else the
    environment variable, else the default. *)
Definition loadConfigValue (configKey envVarName defaultValue : string) : M string :=
env <- ask ;;
let fromEnv :=
  if negb (envVarName =? "") && negb (getenv env envVarName =? "")
  then TrimSpace (getenv env envVarName)
  else defaultValue in
match configFile env with
| Some getString =>
    let value := getString configKey in
    if negb (value =? "") then ret (TrimSpace (Trim value [dquote; squote]))
    else ret fromEnv
| None => ret fromEnv
end.

(** The first of the variables that is set, trimmed; [None] when none is. *)
Fixpoint firstEnv (env : Env) (names : list string) : option string :=
match names with
| [] => None
| n :: r => if negb (getenv env n =? "") then Some (TrimSpace (getenv env n)) else firstEnv env r
end.

Definition apiKeyVars : list string :=
["LLM_API_KEY"; "OPENAI_API_KEY"; "ANTHROPIC_API_KEY"; "GOOGLE_API_KEY"].

Definition baseURLVars : list string :=
["LLM_BASE_URL"; "OPENAI_BASE_URL"; "ANTHROPIC_BASE_URL"; "GOOGLE_BASE_URL"].

Definition modelVars : list string :=
["LLM_MODEL"; "AI_MODEL_NAME"; "OPENAI_MODEL"; "ANTHROPIC_MODEL"; "GOOGLE_MODEL"].

(** The first branch of [complete] in the commands that take
    [--analyze-existing]: the existing directory becomes the output directory,
    else an empty [--output-dir] gets the timestamped default. *)
Definition completeOutputDir (prefix : string) (o : Options) : M (Options * error) :=
env <- ask ;;
if negb (existingDir o =? "") then
  match stat env (existingDir o) with
  | StatError msg => ret (o, errorf ("existing directory does not exist or is not accessible: " ++ msg))
  | StatIsFile => ret (o, errorf ("path is not a directory: " ++ existingDir o))
  | StatIsDir => ret (setExisting o, None)
  end
else if outputDir o =? "" then
  t <- Now ;;
  ret (setOutputDir o (prefix ++ "-diagnostics-" ++ formatTimestamp t), None)
else ret (o, None).

(** The LLM part of [complete] in those commands: flag, then configuration
    file, then environment, then default; the key is then validated. *)
Definition completeLLM (o : Options) : M (Options * error) :=
if enableLLMAnalysis o then
  env <- ask ;;
  o1 <- (if llmAPIKey o =? "" then
           configKey <- loadConfigValue "OPENAI_API_KEY" "OPENAI_API_KEY" "" ;;
           if negb (configKey =? "") then ret (setAPIKey o configKey)
           else match firstEnv env apiKeyVars with
                | Some envKey => ret (setAPIKey o envKey)
                | None => ret o
                end
         else ret (setAPIKey o (TrimSpace (llmAPIKey o)))) ;;
  o2 <- (if llmBaseURL o1 =? "" then
           configURL <- loadConfigValue "OPENAI_BASE_URL" "OPENAI_BASE_URL" "" ;;
           if negb (configURL =? "") then ret (setBaseURL o1 configURL)
           else match firstEnv env baseURLVars with
                | Some envURL =>
                    if envURL =? "" then ret (setBaseURL o1 "https://api.openai.com/v1")
                    else ret (setBaseURL o1 envURL)
                | None => ret (setBaseURL o1 "https://api.openai.com/v1")
                end
         else ret o1) ;;
  o3 <- (if negb (flagChanged env "llm-model") then
           configModel <- loadConfigValue "AI_MODEL_NAME" "AI_MODEL_NAME" "" ;;
           if negb (configModel =? "") then ret (setModel o2 configModel)
           else match firstEnv env modelVars with
                | Some envModel => ret (setModel o2 envModel)
                | None => ret o2
                end
         else ret o2) ;;
  if llmAPIKey o3 =? "" then
    let foundVars := filter (fun v => negb (getenv env v =? "")) apiKeyVars in
    match foundVars with
    | _ :: _ =>
        ret (o3, errorf ("LLM analysis enabled but API key from environment variable(s) ["
                         ++ Join foundVars " " ++ "] appears to be empty or invalid"))
    | [] =>
        ret (o3, errorf "LLM analysis enabled but no API key provided. Set --llm-api-key flag or one of these environment variables: LLM_API_KEY, OPENAI_API_KEY, ANTHROPIC_API_KEY, GOOGLE_API_KEY")
    end
  else
    match validateAPIKey (llmAPIKey o3) with
    | Some msg =>
        let keyPreview :=
          if Nat.ltb 20 (len (llmAPIKey o3)) then take 20 (llmAPIKey o3) ++ "..."
          else llmAPIKey o3 in
        ret (o3, errorf ("LLM API key validation failed: " ++ msg ++ nl
                         ++ "Key preview (first 20 chars): " ++ keyPreview ++ nl
                         ++ "Please verify your API key environment variable (LLM_API_KEY, OPENAI_API_KEY, etc.)"))
    | None => ret (o3, None)
    end
else ret (o, None).

(** [complete] of the commands that take [--analyze-existing] and no
    [--cluster]: [pruning-cronjob-error-sre] in its later revision, the
    monitoring command and the dynatrace command. *)
Definition complete (prefix : string) (o : Options) : M (Options * error) :=
r <- completeOutputDir prefix o ;;
match snd r with
| Some msg => ret (fst r, Some msg)
| None => completeLLM (fst r)
end.

(** The body of the request: model, messages, temperature 0.3 and 4000
    tokens at most, sent as JSON with the bearer key. *)
Definition chatRequest (url key model : string) (messages : list Message) : ChatRequest :=
mkChatRequest "POST" url "application/json" ("Bearer " ++ key) model messages "0.3" 4000.

(** [client.Do(req)] *)
Definition Do (req : ChatRequest) : M HttpResult :=
fun env h fs => let r := http env h req in mkResult r [EvPost req r] fs.

(** The key as the later revisions put it in the header. *)
Definition cleanKey (key : string) : string :=
removeByte (ascii_of_nat 13) (removeByte (ascii_of_nat 10) (TrimSpace key)).

(** [strings.TrimSuffix(o.llmBaseURL, "/") + "/chat/completions"] *)
Definition endpointURL (baseURL : string) : string :=
TrimSuffix baseURL "/" ++ "/chat/completions".

(** The first choice of a decoded answer. *)
Definition firstChoice (body : string) : M (string + string) :=
env <- ask ;;
match decodeChoices (json env) body with
| inr msg => ret (inr ("failed to decode response: " ++ msg))
| inl [] => ret (inr "no response from LLM")
| inl (c :: _) => ret (inl c)
end.

(** The error for an answer whose status is not 200, in [analyzeWithLLM] of
    the later revisions: the [error.message] of the body when it has one, with
    guidance for 401. *)
Definition statusError (o : Options) (status : nat) (body : string) : M string :=
env <- ask ;;
match decodeErrorMessage (json env) body with
| Some errorMsg =>
    if negb (errorMsg =? "") then
      if Nat.eqb status 401 then
        ret ("authentication failed (401): " ++ errorMsg ++ nl ++ nl ++ "Troubleshooting:" ++ nl
             ++ "1. Verify your API key is correct" ++ nl
             ++ "2. Ensure there are no extra spaces or newlines in the key" ++ nl
             ++ "3. Check your environment variables: LLM_API_KEY, OPENAI_API_KEY, etc." ++ nl
             ++ "4. Verify the API key format matches your LLM provider's requirements" ++ nl
             ++ "5. Confirm the base URL (" ++ llmBaseURL o ++ ") is correct for your LLM provider")
      else ret ("LLM API returned status " ++ itoaNat status ++ ": " ++ errorMsg)
    else ret ("LLM API returned status " ++ itoaNat status ++ ": " ++ body)
| None => ret ("LLM API returned status " ++ itoaNat status ++ ": " ++ body)
end.

(** The error for such an answer in [askFollowUpQuestion]. *)
Definition followUpStatusError (status : nat) (body : string) : M string :=
env <- ask ;;
match decodeErrorMessage (json env) body with
| Some errorMsg =>
    if negb (errorMsg =? "") then ret ("LLM API returned status " ++ itoaNat status ++ ": " ++ errorMsg)
    else ret ("LLM API returned status " ++ itoaNat status ++ ": " ++ body)
| None => ret ("LLM API returned status " ++ itoaNat status ++ ": " ++ body)
end.

(** The system prompt: the embedded file, or the fallback text when the
    embedded one is empty. *)
Definition systemPromptOf (file fallback : string) : M string :=
env <- ask ;;
if embedded env file =? "" then ret fallback else ret (embedded env file).

(** The two messages every analysis starts from. *)
Definition initialMessages (systemPrompt intro diagnosticContent : string) : list Message :=
[ mkMessage "system" systemPrompt; mkMessage "user" (intro ++ diagnosticContent) ].

(** [analyzeWithLLM] of [pruningcronjoberrorsre.go]: the base URL and the key
    are used as they are, and the body of an answer that is not 200 is the
    error text. *)
Definition analyzeWithLLMv1 (file fallback intro : string) (o : Options)
  (diagnosticContent : string) : M (string * error) :=
env <- ask ;;
systemPrompt <- systemPromptOf file fallback ;;
let url := llmBaseURL o ++ "/chat/completions" in
match newRequest env url with
| Some msg => ret ("", errorf ("failed to create request: " ++ msg))
| None =>
    resp <- Do (chatRequest url (llmAPIKey o) (llmModel o)
                  (initialMessages systemPrompt intro diagnosticContent)) ;;
    match resp with
    | HttpFailed msg => ret ("", errorf ("failed to send request: " ++ msg))
    | HttpResponse status body =>
        if negb (Nat.eqb status 200) then
          ret ("", errorf ("LLM API returned status " ++ itoaNat status ++ ": " ++ body))
        else
          c <- firstChoice body ;;
          match c with
          | inr msg => ret ("", errorf msg)
          | inl content => ret (content, None)
          end
    end
end.

(** [analyzeWithLLM] of the provisioning and dynatrace commands: the answer,
    the conversation so far (system prompt, diagnostic message, answer) and
    the error. *)
Definition analyzeWithHistory (file fallback intro : string) (o : Options)
  (diagnosticContent : string) : M (string * list Message * error) :=
env <- ask ;;
systemPrompt <- systemPromptOf file fallback ;;
let conversationHistory := initialMessages systemPrompt intro diagnosticContent in
let url := endpointURL (llmBaseURL o) in
match newRequest env url with
| Some msg => ret ("", [], errorf ("failed to create request: " ++ msg))
| None =>
    resp <- Do (chatRequest url (cleanKey (llmAPIKey o)) (llmModel o) conversationHistory) ;;
    match resp with
    | HttpFailed msg => ret ("", [], errorf ("failed to send request: " ++ msg))
    | HttpResponse status body =>
        if negb (Nat.eqb status 200) then
          msg <- statusError o status body ;;
          ret ("", [], errorf msg)
        else
          c <- firstChoice body ;;
          match c with
          | inr msg => ret ("", [], errorf msg)
          | inl assistantResponse =>
              ret (assistantResponse,
                   (conversationHistory ++ [mkMessage "assistant" assistantResponse])%list,
                   None)
          end
    end
end.

(** [analyzeWithLLM] of the monitoring command and of the later revision of
    the pruning command: the same exchange, without the conversation. *)
Definition analyzeWithLLMv2 (file fallback intro : string) (o : Options)
  (diagnosticContent : string) : M (string * error) :=
r <- analyzeWithHistory file fallback intro o diagnosticContent ;;
ret (fst (fst r), snd r).

(** [askFollowUpQuestion] of the provisioning and dynatrace commands. *)
Definition askFollowUpQuestion (o : Options) (conversationHistory : list Message)
  (question : string) : M (string * list Message * error) :=
env <- ask ;;
let conversationHistory := (conversationHistory ++ [mkMessage "user" question])%list in
let url := endpointURL (llmBaseURL o) in
match newRequest env url with
| Some msg => ret ("", conversationHistory, errorf ("failed to create request: " ++ msg))
| None =>
    resp <- Do (chatRequest url (cleanKey (llmAPIKey o)) (llmModel o) conversationHistory) ;;
    match resp with
    | HttpFailed msg => ret ("", conversationHistory, errorf ("failed to send request: " ++ msg))
    | HttpResponse status body =>
        if negb (Nat.eqb status 200) then
          msg <- followUpStatusError status body ;;
          ret ("", conversationHistory, errorf msg)
        else
          c <- firstChoice body ;;
          match c with
          | inr msg => ret ("", conversationHistory, errorf msg)
          | inl assistantResponse =>
              ret (assistantResponse,
                   (conversationHistory ++ [mkMessage "assistant" assistantResponse])%list,
                   None)
          end
    end
end.

(** A line that ends the follow-up loop. *)
Definition isExit (env : Env) (question : string) : bool :=
(ToLower env question =? "exit") || (ToLower env question =? "quit") || (ToLower env question =? "q").

(** The loop of [interactiveFollowUp] over the lines the scanner delivers:
    empty lines and failed questions leave the conversation as it is, an
    answered question extends it and is appended to the analysis file. *)
Fixpoint followUpLoop (o : Options) (analysisFile : string) (green yellow : Color)
  (lines : list string) (conversationHistory : list Message) : M error :=
printf green "Question (or 'exit' to finish): " ;;
env <- ask ;;
match lines with
| [] =>
    match stdinErr env with
    | Some msg => ret (errorf ("error reading input: " ++ msg))
    | None => ret None
    end
| line :: rest =>
    let question := TrimSpace line in
    if question =? "" then followUpLoop o analysisFile green yellow rest conversationHistory
    else if isExit env question then
      println green "Exiting interactive mode." ;; ret None
    else
      println yellow (nl ++ "Thinking...") ;;
      r <- askFollowUpQuestion o conversationHistory question ;;
      match snd r with
      | Some msg =>
          printf Plain ("Error: Failed to get response: " ++ msg ++ nl) ;;
          followUpLoop o analysisFile green yellow rest conversationHistory
      | None =>
          let response := fst (fst r) in
          println green (nl ++ "=== Response ===") ;;
          println Plain response ;;
          println Plain "" ;;
          e <- appendToFile analysisFile
                 (nl ++ nl ++ "=== Follow-up Question ===" ++ nl ++ question ++ nl ++ nl
                  ++ "=== Response ===" ++ nl ++ response ++ nl) ;;
          match e with
          | Some msg => printf Plain ("Warning: Failed to append follow-up to analysis file: " ++ msg ++ nl)
          | None => ret tt
          end ;;
          followUpLoop o analysisFile green yellow rest (snd (fst r))
      end
end.

(** [interactiveFollowUp] *)
Definition interactiveFollowUp (o : Options) (analysisFile : string)
  (conversationHistory : list Message) (green yellow : Color) : M error :=
env <- ask ;;
println yellow (nl ++ "=== Interactive Follow-up ===") ;;
println Plain "You can ask follow-up questions about the analysis. Type 'exit' or 'quit' to finish." ;;
println Plain "" ;;
followUpLoop o analysisFile green yellow (stdin env) conversationHistory.

End Llm.

(* ================================================================== *)
(** ** pruningcronjoberrorsre *)
(* ================================================================== *)

Module Pruning.
Import GoStr Sys Cmd Llm.

Definition ns : string := "openshift-sre-pruning".

(** [complete] of [pruningcronjoberrorsre.go], which has no
    [--analyze-existing]. *)
Definition complete (o : Options) : M (Options * error) :=
env <- ask ;;
o0 <- (if outputDir o =? "" then
         t <- Now ;;
         ret (setOutputDir o ("pruning-cronjob-diagnostics-" ++ formatTimestamp t))
       else ret o) ;;
if enableLLMAnalysis o0 then
  let o1 := if llmAPIKey o0 =? "" then setAPIKey o0 (getenv env "OPENAI_API_KEY") else o0 in
  let o2 := if llmBaseURL o1 =? "" then
              if getenv env "OPENAI_BASE_URL" =? "" then setBaseURL o1 "https://api.openai.com/v1"
              else setBaseURL o1 (getenv env "OPENAI_BASE_URL")
            else o1 in
  let o3 := if negb (flagChanged env "llm-model") && negb (getenv env "AI_MODEL_NAME" =? "")
            then setModel o2 (getenv env "AI_MODEL_NAME") else o2 in
  if llmAPIKey o3 =? "" then
    ret (o3, errorf "LLM analysis enabled but no API key provided. Set --llm-api-key or OPENAI_API_KEY environment variable")
  else ret (o3, None)
else ret (o0, None).

(** [complete] of the later revision of the command. *)
Definition complete' (o : Options) : M (Options * error) :=
Llm.complete "pruning-cronjob" o.

Definition collectJobs (o : Options) (yellow green red : Color) : M error :=
collectTo yellow green red "Collecting: Jobs in openshift-sre-pruning namespace"
  "get" ["job"; "-n"; ns; "-o"; "wide"] "01-jobs.txt"
  (failedLine "collect jobs") (savedLine "01-jobs.txt") ;;
collectTo yellow green red "Collecting: Jobs in openshift-sre-pruning namespace (yaml)"
  "get" ["job"; "-n"; ns; "-o"; "yaml"] "01-jobs.yaml"
  (failedLine "collect jobs yaml") (savedLine "01-jobs.yaml") ;;
ret None.

(** The logs and the description of one pod. *)
Definition collectPodDetails (yellow green red : Color) (pod : string) : M unit :=
collectTo yellow green red ("Collecting: Logs for pod " ++ pod)
  "logs" [pod; "-n"; ns; "--all-containers=true"] ("03-pod-logs-" ++ pod ++ ".txt")
  (failedLine ("collect logs for pod " ++ pod)) (savedLine ("03-pod-logs-" ++ pod ++ ".txt")) ;;
collectTo yellow green red ("Collecting: Describe output for pod " ++ pod)
  "describe" ["pod"; pod; "-n"; ns] ("04-pod-describe-" ++ pod ++ ".txt")
  (failedLine ("collect describe for pod " ++ pod)) (savedLine ("04-pod-describe-" ++ pod ++ ".txt")).

Definition collectJobDescribe (yellow green red : Color) (job : string) : M unit :=
collectTo yellow green red ("Collecting: Describe output for job " ++ job)
  "describe" ["job"; job; "-n"; ns] ("12-job-describe-" ++ job ++ ".txt")
  (failedLine ("collect describe for job " ++ job)) (savedLine ("12-job-describe-" ++ job ++ ".txt")).

Definition collectPods (o : Options) (yellow green red : Color) : M error :=
collectTo yellow green red "Collecting: Pods in openshift-sre-pruning namespace"
  "get" ["pod"; "-n"; ns; "-o"; "wide"] "02-pods.txt"
  (failedLine "collect pods") (savedLine "02-pods.txt") ;;
collectTo yellow green red "Collecting: Pods in openshift-sre-pruning namespace (yaml)"
  "get" ["pod"; "-n"; ns; "-o"; "yaml"] "02-pods.yaml"
  (failedLine "collect pods yaml") (savedLine "02-pods.yaml") ;;
env <- ask ;;
r <- runOCCommandWithOutput "get" ["pod"; "-n"; ns; "-o"; "json"] ;;
let failing := failingPods env (fst r) in
podsToProcess <-
  match failing with
  | [] =>
      println yellow "No failing pods found, collecting logs for all pods..." ;;
      println Plain "" ;;
      ret (allPods env (fst r))
  | _ :: _ =>
      println yellow "Found failing pods, collecting detailed information..." ;;
      println Plain "" ;;
      ret failing
  end ;;
forEach podsToProcess (collectPodDetails yellow green red) ;;
j <- runOCCommandWithOutput "get" ["job"; "-n"; ns; "-o"; "json"] ;;
match decodeNames (json env) (fst j) with
| Some jobs => forEach jobs (collectJobDescribe yellow green red)
| None => ret tt
end ;;
ret None.

Definition collectEvents (o : Options) (yellow green red : Color) : M error :=
collectTo yellow green red "Collecting: Events in openshift-sre-pruning namespace"
  "get" ["events"; "-n"; ns; "--sort-by=.lastTimestamp"] "05-events.txt"
  (failedLine "collect events") (savedLine "05-events.txt") ;;
ret None.

Definition collectNetworkInfo (o : Options) (yellow green red : Color) : M error :=
collectTo yellow green red "Collecting: Network type configuration"
  "get" ["Network.config.openshift.io"; "cluster"; "-o"; "json"] "06-network-config.json"
  (failedLine "collect network config") (savedLine "06-network-config.json") ;;
ret None.

Definition collectNodeExporterInfo (o : Options) (yellow green red : Color) : M error :=
println yellow "Collecting: node-exporter pod CPU usage" ;;
r <- runOCCommandWithOutput "adm" ["top"; "pod"; "-n"; "openshift-monitoring"] ;;
saveTo green red "07-node-exporter-cpu.txt"
  (keepLines (fun line => Contains line "node-exporter") (fst r) "No node-exporter pods found")
  (failedLine "collect node-exporter CPU") ;;
println yellow "Collecting: node-exporter pods with node information" ;;
r2 <- runOCCommandWithOutput "get" ["pod"; "-n"; "openshift-monitoring"; "-o"; "wide"] ;;
saveTo green red "07-node-exporter-pods.txt"
  (keepLines (fun line => Contains line "node-exporter") (fst r2) "No node-exporter pods found")
  (failedLine "collect node-exporter pods") ;;
ret None.

Definition collectImageRegistryInfo (o : Options) (yellow green red : Color) : M error :=
collectTo yellow green red "Collecting: Image registry pods status"
  "get" ["pod"; "-n"; "openshift-image-registry"; "-o"; "wide"] "08-image-registry-pods.txt"
  (failedLine "collect image registry pods") (savedLine "08-image-registry-pods.txt") ;;
println yellow "Collecting: cluster-image-registry-operator logs (forbidden errors)" ;;
env <- ask ;;
r <- runOCCommandWithOutput "logs"
       ["-n"; "openshift-image-registry"; "-l"; "name=cluster-image-registry-operator"; "--tail=1000"] ;;
saveTo green red "09-registry-operator-forbidden.txt"
  (keepLines (fun line => Contains (ToLower env line) "forbidden") (fst r) "No forbidden errors found")
  (failedLine "collect forbidden errors") ;;
collectTo yellow green red "Collecting: cluster-image-registry-operator full logs"
  "logs" ["-n"; "openshift-image-registry"; "-l"; "name=cluster-image-registry-operator"; "--tail=500"]
  "09-registry-operator-logs.txt"
  (failedLine "collect registry operator logs") (savedLine "09-registry-operator-logs.txt") ;;
ret None.

Definition collectResourceQuotas (o : Options) (yellow green red : Color) : M error :=
collectTo yellow green red "Collecting: Resource quotas in openshift-monitoring"
  "get" ["resourcequota"; "-n"; "openshift-monitoring"] "10-resource-quotas-monitoring.txt"
  (failedLine "collect resource quotas") (savedLine "10-resource-quotas-monitoring.txt") ;;
collectTo yellow green red "Collecting: Resource quotas in openshift-sre-pruning"
  "get" ["resourcequota"; "-n"; ns] "10-resource-quotas-pruning.txt"
  (failedLine "collect resource quotas") (savedLine "10-resource-quotas-pruning.txt") ;;
ret None.

Definition collectOVNInfo (o : Options) (yellow green red : Color) : M error :=
collectTo yellow green red "Collecting: OVN master pods status"
  "get" ["pod"; "-n"; "openshift-ovn-kubernetes"; "-l"; "app=ovnkube-master"; "-o"; "wide"]
  "11-ovn-master-pods.txt"
  (failedLine "collect OVN master pods") (savedLine "11-ovn-master-pods.txt") ;;
ret None.

Definition collectCronJobInfo (o : Options) (yellow green red : Color) : M error :=
collectTo yellow green red "Collecting: CronJobs in openshift-sre-pruning namespace"
  "get" ["cronjob"; "-n"; ns; "-o"; "wide"] "13-cronjobs.txt"
  (failedLine "collect cronjobs") (savedLine "13-cronjobs.txt") ;;
collectTo yellow green red "Collecting: CronJobs in openshift-sre-pruning namespace (yaml)"
  "get" ["cronjob"; "-n"; ns; "-o"; "yaml"] "13-cronjobs.yaml"
  (failedLine "collect cronjobs yaml") (savedLine "13-cronjobs.yaml") ;;
ret None.

(** A pod one of whose containers waits or was terminated for a reason that
    mentions seccomp. *)
Definition hasSeccomp (env : Env) (statuses : list ContainerStatus) : bool :=
existsb (fun cs => Contains (ToLower env (waitingReason cs ++ terminatedReason cs)) "seccomp") statuses.

Definition collectSeccompErrors (o : Options) (yellow green red : Color) : M error :=
println yellow "Collecting: Checking for seccomp errors in pod descriptions" ;;
env <- ask ;;
r <- runOCCommandWithOutput "get" ["pod"; "-n"; ns; "-o"; "json"] ;;
let seccompPods :=
  match decodeContainerStatuses (json env) (fst r) with
  | Some items => map fst (filter (fun p => hasSeccomp env (snd p)) items)
  | None => []
  end in
let content := Join seccompPods nl in
saveTo green red "14-seccomp-errors.txt"
  (if content =? "" then "No seccomp errors detected" else content)
  (failedLine "collect seccomp errors") ;;
ret None.

Definition collectNodeInfo (o : Options) (yellow green red : Color) : M error :=
collectTo yellow green red "Collecting: Node information for pruning pods"
  "get" ["pod"; "-n"; ns; "-o";
         "jsonpath={range .items[*]}{.metadata.name}{" ++ dquote ++ backslash ++ "t" ++ dquote
         ++ "}{.spec.nodeName}{" ++ dquote ++ backslash ++ "n" ++ dquote ++ "}{end}"]
  "15-pod-nodes.txt"
  (failedLine "collect node information") (savedLine "15-pod-nodes.txt") ;;
ret None.

Definition historyLine (j : JobStatus) : string :=
let failed := match jobFailed j with Some n => n | None => 0%Z end in
let succeeded := match jobSucceeded j with Some n => n | None => 0%Z end in
jobName j ++ ": " ++ itoa failed ++ " failed, " ++ itoa succeeded ++ " succeeded".

Definition collectJobHistory (o : Options) (yellow green red : Color) : M error :=
println yellow "Collecting: Recent job history" ;;
env <- ask ;;
r <- runOCCommandWithOutput "get" ["job"; "-n"; ns; "-o"; "json"] ;;
let historyLines :=
  match decodeJobStatuses (json env) (fst r) with
  | Some items => map historyLine items
  | None => []
  end in
saveTo green red "16-job-history.txt" (Join historyLines nl) (failedLine "collect job history") ;;
ret None.

Definition collectClusterVersion (o : Options) (yellow green red : Color) : M error :=
collectTo yellow green red "Collecting: Cluster version information"
  "get" ["clusterversion"; "version"; "-o"; "yaml"] "17-cluster-version.yaml"
  (failedLine "collect cluster version") (savedLine "17-cluster-version.yaml") ;;
ret None.

Definition generateSummary (o : Options) (clusterID : string) (green : Color) : M error :=
println green "Generating summary report..." ;;
t <- Now ;;
files <- collectedFiles ;;
key <- excerpts [("Jobs Status:", "01-jobs.txt"); ("Pods Status:", "02-pods.txt")] ;;
n <- runOCCommandWithOutput "get" ["Network.config.openshift.io"; "cluster"; "-o"; "jsonpath={.spec.networkType}"] ;;
let networkType := if TrimSpace (fst n) =? "" then "Unable to determine" else TrimSpace (fst n) in
writeFile "00-SUMMARY.txt"
  (summaryHead "PruningCronjobErrorSRE" (formatRFC3339 t) ("Cluster ID: " ++ clusterID ++ nl ++ nl)
   ++ filesCollectedTitle ++ files ++ keyInformationTitle ++ key
   ++ nl ++ "Network Type:" ++ nl ++ networkType ++ nl ++ nl).

Definition priorityFiles : list string :=
["00-SUMMARY.txt"; "01-jobs.txt"; "02-pods.txt"; "14-seccomp-errors.txt"; "16-job-history.txt"; "05-events.txt"].

(** A pod log in the content: at most 10000 bytes of it. *)
Definition podLog (name data : string) : string := truncated 10000 data.

(** [extractAndReadDiagnostics]: the priority files, then at most five pod
    logs and five pod descriptions in sorted order. *)
Definition extractAndReadDiagnostics (o : Options) : M (string * error) :=
priority <- readSections whole priorityFiles ;;
podLogFiles <- Glob "03-pod-logs-" ".txt" ;;
podDescribeFiles <- Glob "04-pod-describe-" ".txt" ;;
logs <- readSections podLog (firstFive podLogFiles) ;;
describes <- readSections whole (firstFive podDescribeFiles) ;;
ret (priority ++ logs ++ describes, None).

Definition promptFile : string := "prompts/pruning_cronjob_analysis.md".

Definition fallbackPrompt : string :=
"You are an expert OpenShift/Kubernetes Site Reliability Engineer (SRE) specializing in cluster maintenance and resource management. Your task is to analyze diagnostic information and assess the health of pruning cronjobs in the openshift-sre-pruning namespace on any OpenShift cluster."
++ nl ++ nl ++ "Analyze the provided diagnostic data and provide:" ++ nl
++ "1. Root cause analysis - What is likely causing any issues?" ++ nl
++ "2. Key findings - What are the most important issues identified?" ++ nl
++ "3. Recommended actions - What steps should be taken to resolve the issues?" ++ nl
++ "4. Priority - Rate the severity (Critical/High/Medium/Low/Healthy)" ++ nl ++ nl
++ "Be concise but thorough. Focus on actionable insights.".

Definition intro : string :=
"Please analyze the following pruning cronjob diagnostic information from an OpenShift cluster:" ++ nl ++ nl.

(** [analyzeWithLLM] of [pruningcronjoberrorsre.go] and of its later
    revision. *)
Definition analyzeWithLLM (o : Options) (diagnosticContent : string) : M (string * error) :=
analyzeWithLLMv1 promptFile fallbackPrompt intro o diagnosticContent.

Definition analyzeWithLLM' (o : Options) (diagnosticContent : string) : M (string * error) :=
analyzeWithLLMv2 promptFile fallbackPrompt intro o diagnosticContent.

Definition collectors (o : Options) : list (M error) :=
[ collectJobs o Yellow Green Red; collectPods o Yellow Green Red;
  collectEvents o Yellow Green Red; collectNetworkInfo o Yellow Green Red;
  collectNodeExporterInfo o Yellow Green Red; collectImageRegistryInfo o Yellow Green Red;
  collectResourceQuotas o Yellow Green Red; collectOVNInfo o Yellow Green Red;
  collectCronJobInfo o Yellow Green Red; collectSeccompErrors o Yellow Green Red;
  collectNodeInfo o Yellow Green Red; collectJobHistory o Yellow Green Red;
  collectClusterVersion o Yellow Green Red ].

Definition sop : string := "~/ops-sop/v4/alerts/PruningCronjobErrorSRE.md".

Definition finishRun (o : Options) : M unit :=
finish o ["2. Start with 00-SUMMARY.txt for an overview"]
  ["3. Review 18-llm-analysis.txt for AI-powered insights";
   "4. Check pod logs and describe output for error details";
   "5. Refer to " ++ sop ++ " for troubleshooting steps"]
  ["3. Check pod logs and describe output for error details";
   "4. Refer to " ++ sop ++ " for troubleshooting steps";
   "5. Use --analyze flag to enable LLM analysis"]
  (ret tt).

(** The analysis step of [run]: content, one exchange, the answer saved;
    every failure is a warning. *)
Definition analysis (o : Options) (analyze : Options -> string -> M (string * error)) : M unit :=
c <- extractAndReadDiagnostics o ;;
match snd c with
| Some msg => printf Plain ("Warning: Failed to extract diagnostic content: " ++ msg ++ nl)
| None =>
    a <- analyze o (fst c) ;;
    match snd a with
    | Some msg => printf Plain ("Warning: LLM analysis failed: " ++ msg ++ nl)
    | None => saveAnalysis "18-llm-analysis.txt" (fst a)
    end
end.

(** [run] of [pruningcronjoberrorsre.go]. *)
Definition run (o : Options) : M error :=
check (collection "PruningCronjobErrorSRE" "'oc login' or 'ocm backplane login'" o getClusterID
         (collectors o) (fun clusterID => generateSummary o clusterID Green))
  ((if enableLLMAnalysis o then
      println Yellow (nl ++ "Analyzing diagnostics with LLM...") ;;
      analysis o analyzeWithLLM
    else ret tt) ;;
   finishRun o ;;
   ret None).

(** [run] of the later revision, which can skip the collection. *)
Definition run' (o : Options) : M error :=
check (if skipCollection o then analyzeExisting o
       else collection "PruningCronjobErrorSRE" "'ocm backplane login'" o getClusterID
              (collectors o) (fun clusterID => generateSummary o clusterID Green))
  ((if enableLLMAnalysis o then announceLLM o ;; analysis o analyzeWithLLM' else ret tt) ;;
   finishRun o ;;
   ret None).

End Pruning.

(* ================================================================== *)
(** ** cluster-monitoring-error-budget-burn-sre *)
(* ================================================================== *)

Module Monitoring.
Import GoStr Sys Cmd Llm.

Definition complete (o : Options) : M (Options * error) :=
Llm.complete "cluster-monitoring-error-budget-burn" o.

Definition collectMonitoringOperator (o : Options) (yellow green red : Color) : M error :=
collectTo yellow green red "Collecting: Monitoring cluster operator status"
  "get" ["clusteroperator"; "monitoring"; "-o"; "yaml"] "01-monitoring-clusteroperator.yaml"
  (failedLine "collect monitoring cluster operator") (savedLine "01-monitoring-clusteroperator.yaml") ;;
collectTo yellow green red "Collecting: Monitoring cluster operator status (wide)"
  "get" ["clusteroperator"; "monitoring"; "-o"; "wide"] "01-monitoring-clusteroperator.txt"
  (failedLine "collect monitoring cluster operator (wide)") (savedLine "01-monitoring-clusteroperator.txt") ;;
ret None.

Definition collectMonitoringPods (o : Options) (yellow green red : Color) : M error :=
collectTo yellow green red "Collecting: Pods in openshift-monitoring namespace"
  "get" ["pod"; "-n"; "openshift-monitoring"; "-o"; "wide"] "02-monitoring-pods.txt"
  (failedLine "collect monitoring pods") (savedLine "02-monitoring-pods.txt") ;;
collectTo yellow green red "Collecting: Pods in openshift-monitoring namespace (yaml)"
  "get" ["pod"; "-n"; "openshift-monitoring"; "-o"; "yaml"] "02-monitoring-pods.yaml"
  (failedLine "collect monitoring pods yaml") (savedLine "02-monitoring-pods.yaml") ;;
ret None.

Definition collectMonitoringEvents (o : Options) (yellow green red : Color) : M error :=
collectTo yellow green red "Collecting: Events in openshift-monitoring namespace"
  "get" ["events"; "-n"; "openshift-monitoring"; "--sort-by=.lastTimestamp"] "03-monitoring-events.txt"
  (failedLine "collect monitoring events") (savedLine "03-monitoring-events.txt") ;;
ret None.

Definition collectPrometheusCRDs (o : Options) (yellow green red : Color) : M error :=
collectTo yellow green red
  "Collecting: Prometheus CRDs across all namespaces (checking for second monitoring stack)"
  "get" ["prometheus"; "-A"; "-o"; "wide"] "04-prometheus-crds.txt"
  (failedLine "collect Prometheus CRDs") (savedLine "04-prometheus-crds.txt") ;;
collectTo yellow green red "Collecting: Prometheus CRDs across all namespaces (yaml)"
  "get" ["prometheus"; "-A"; "-o"; "yaml"] "04-prometheus-crds.yaml"
  (failedLine "collect Prometheus CRDs yaml") (savedLine "04-prometheus-crds.yaml") ;;
ret None.

Definition collectMonitoringOperatorLogs (o : Options) (yellow green red : Color) : M error :=
collectTo yellow green red "Collecting: Cluster monitoring operator logs"
  "logs" ["-n"; "openshift-monitoring"; "-l"; "app=cluster-monitoring-operator"; "--tail=100"]
  "05-cmo-logs.txt"
  (failedLine "collect CMO logs") (savedLine "05-cmo-logs.txt") ;;
collectTo yellow green red "Collecting: Cluster monitoring operator logs (all containers)"
  "logs" ["-n"; "openshift-monitoring"; "-l"; "app=cluster-monitoring-operator";
          "--all-containers=true"; "--tail=100"]
  "05-cmo-logs-all-containers.txt"
  (failedLine "collect CMO logs (all containers)") (savedLine "05-cmo-logs-all-containers.txt") ;;
ret None.

Definition collectResourceQuotas (o : Options) (yellow green red : Color) : M error :=
collectTo yellow green red "Collecting: Resource quotas in openshift-monitoring"
  "get" ["resourcequota"; "-n"; "openshift-monitoring"] "06-resource-quotas.txt"
  (failedLine "collect resource quotas") (savedLine "06-resource-quotas.txt") ;;
ret None.

Definition collectClusterVersion (o : Options) (yellow green red : Color) : M error :=
collectTo yellow green red "Collecting: Cluster version information"
  "get" ["clusterversion"; "version"; "-o"; "yaml"] "07-cluster-version.yaml"
  (failedLine "collect cluster version") (savedLine "07-cluster-version.yaml") ;;
ret None.

Definition generateSummary (o : Options) (clusterID : string) (green : Color) : M error :=
println green "Generating summary report..." ;;
t <- Now ;;
files <- collectedFiles ;;
key <- excerpts [("Monitoring Cluster Operator Status:", "01-monitoring-clusteroperator.txt");
                 ("Prometheus CRDs (check for second monitoring stack):", "04-prometheus-crds.txt")] ;;
writeFile "00-SUMMARY.txt"
  (summaryHead "ClusterMonitoringErrorBudgetBurnSRE" (formatRFC3339 t) ("Cluster ID: " ++ clusterID ++ nl ++ nl)
   ++ filesCollectedTitle ++ files ++ keyInformationTitle ++ key).

Definition priorityFiles : list string :=
["00-SUMMARY.txt"; "01-monitoring-clusteroperator.txt"; "02-monitoring-pods.txt";
 "03-monitoring-events.txt"; "04-prometheus-crds.txt"; "05-cmo-logs.txt"; "06-resource-quotas.txt"].

Definition yamlFiles : list string :=
["01-monitoring-clusteroperator.yaml"; "02-monitoring-pods.yaml"; "04-prometheus-crds.yaml";
 "07-cluster-version.yaml"].

Definition yamlContent (name data : string) : string := truncated 15000 data.

Definition extractAndReadDiagnostics (o : Options) : M (string * error) :=
priority <- readSections whole priorityFiles ;;
yamls <- readSections yamlContent yamlFiles ;;
ret (priority ++ yamls, None).

Definition promptFile : string := "prompts/cluster_monitoring_error_budget_burn_analysis.md".

Definition fallbackPrompt : string :=
"You are an expert OpenShift/Kubernetes Site Reliability Engineer (SRE) specializing in cluster monitoring and observability. Your task is to analyze diagnostic information and assess the health of the monitoring cluster operator for the ClusterMonitoringErrorBudgetBurnSRE alert."
++ nl ++ nl ++ "Analyze the provided diagnostic data and provide:" ++ nl
++ "1. Root cause analysis - What is likely causing the error budget burn?" ++ nl
++ "2. Key findings - What are the most important issues identified?" ++ nl
++ "3. Recommended actions - What steps should be taken to resolve the issues?" ++ nl
++ "4. Priority - Rate the severity (Critical/High/Medium/Low/Healthy)" ++ nl ++ nl
++ "Be concise but thorough. Focus on actionable insights.".

Definition intro : string :=
"Please analyze the following ClusterMonitoringErrorBudgetBurnSRE diagnostic information from an OpenShift cluster:"
++ nl ++ nl.

Definition analyzeWithLLM (o : Options) (diagnosticContent : string) : M (string * error) :=
analyzeWithLLMv2 promptFile fallbackPrompt intro o diagnosticContent.

Definition collectors (o : Options) : list (M error) :=
[ collectMonitoringOperator o Yellow Green Red; collectMonitoringPods o Yellow Green Red;
  collectMonitoringEvents o Yellow Green Red; collectPrometheusCRDs o Yellow Green Red;
  collectMonitoringOperatorLogs o Yellow Green Red; collectResourceQuotas o Yellow Green Red;
  collectClusterVersion o Yellow Green Red ].

Definition sop : string := "~/ops-sop/v4/alerts/ClusterMonitoringErrorBudgetBurnSRE.md".

Definition finishRun (o : Options) : M unit :=
finish o ["2. Start with 00-SUMMARY.txt for an overview"]
  ["3. Review 08-llm-analysis.txt for AI-powered insights";
   "4. Check cluster operator status and logs for error details";
   "5. Refer to " ++ sop ++ " for troubleshooting steps"]
  ["3. Check cluster operator status and logs for error details";
   "4. Refer to " ++ sop ++ " for troubleshooting steps";
   "5. Use --analyze flag to enable LLM analysis"]
  (ret tt).

Definition analysis (o : Options) : M unit :=
c <- extractAndReadDiagnostics o ;;
match snd c with
| Some msg => printf Plain ("Warning: Failed to extract diagnostic content: " ++ msg ++ nl)
| None =>
    a <- analyzeWithLLM o (fst c) ;;
    match snd a with
    | Some msg => printf Plain ("Warning: LLM analysis failed: " ++ msg ++ nl)
    | None => saveAnalysis "08-llm-analysis.txt" (fst a)
    end
end.

Definition run (o : Options) : M error :=
check (if skipCollection o then analyzeExisting o
       else collection "ClusterMonitoringErrorBudgetBurnSRE" "'ocm backplane login'" o getClusterID'
              (collectors o) (fun clusterID => generateSummary o clusterID Green))
  ((if enableLLMAnalysis o then announceLLM o ;; analysis o else ret tt) ;;
   finishRun o ;;
   ret None).

End Monitoring.

(* ================================================================== *)
(** ** cluster-provisioning-failure *)
(* ================================================================== *)

Module Provisioning.
Import GoStr Sys Cmd Llm.

(** [resolveInternalID]: the [id] field of [ocm describe cluster <id> --json]. *)
Definition resolveInternalID (clusterID : string) : M (string * error) :=
env <- ask ;;
r <- runProcess "ocm" ["describe"; "cluster"; clusterID; "--json"] Captured ;;
match snd r with
| Some msg => ret ("", errorf ("failed to run ocm describe cluster: " ++ msg ++ " (output: " ++ fst r ++ ")"))
| None =>
    match decodeClusterInfoID (json env) (fst r) with
    | None => ret ("", errorf "failed to parse ocm output")
    | Some id =>
        if id =? "" then ret ("", errorf "internal ID not found in ocm output")
        else ret (id, None)
    end
end.

Definition complete (o : Options) : M (Options * error) :=
r <- completeOutputDir "cluster-provisioning-failure" o ;;
match snd r with
| Some msg => ret (fst r, Some msg)
| None =>
    let o1 := fst r in
    o2 <- (if negb (clusterID o1 =? "") then
             i <- resolveInternalID (clusterID o1) ;;
             match snd i with
             | Some msg =>
                 printf Plain ("Warning: Failed to resolve internal ID from cluster " ++ clusterID o1
                               ++ ": " ++ msg ++ nl) ;;
                 println Plain ("You can manually find the internal ID with: ocm describe cluster "
                                ++ clusterID o1) ;;
                 ret o1
             | None => ret (setInternalID o1 (fst i))
             end
           else ret o1) ;;
    completeLLM o2
end.

Definition getClusterID : M (string * error) := getClusterID'.

Definition collectClusterVersion (o : Options) (yellow green red : Color) : M error :=
collectTo yellow green red "Collecting: Cluster version and status"
  "get" ["clusterversion"; "-o"; "wide"] "01-clusterversion.txt"
  (failedLine "collect cluster version") (savedLine "01-clusterversion.txt") ;;
collectTo yellow green red "Collecting: Cluster version details (yaml)"
  "get" ["clusterversion"; "version"; "-o"; "yaml"] "01-clusterversion.yaml"
  (failedLine "collect cluster version yaml") (savedLine "01-clusterversion.yaml") ;;
ret None.

(** An operator one of whose conditions is [Degraded=True],
    [Available=False] or [Progressing=True]. *)
Definition isDegraded (conditions : list Condition) : bool :=
existsb (fun c =>
  ((condType c =? "Degraded") && (condStatus c =? "True"))
  || ((condType c =? "Available") && (condStatus c =? "False"))
  || ((condType c =? "Progressing") && (condStatus c =? "True"))) conditions.

Definition collectClusterOperators (o : Options) (yellow green red : Color) : M error :=
collectTo yellow green red "Collecting: Cluster operators status"
  "get" ["clusteroperators"; "-o"; "wide"] "02-clusteroperators.txt"
  (failedLine "collect cluster operators") (savedLine "02-clusteroperators.txt") ;;
collectTo yellow green red "Collecting: Cluster operators details (yaml)"
  "get" ["clusteroperators"; "-o"; "yaml"] "02-clusteroperators.yaml"
  (failedLine "collect cluster operators yaml") (savedLine "02-clusteroperators.yaml") ;;
println yellow "Collecting: Describe output for degraded/unavailable cluster operators" ;;
env <- ask ;;
r <- runOCCommandWithOutput "get" ["clusteroperators"; "-o"; "json"] ;;
let degradedOperators :=
  match decodeConditions (json env) (fst r) with
  | Some items => map fst (filter (fun co => isDegraded (snd co)) items)
  | None => []
  end in
forEach degradedOperators (fun coName =>
  collectTo yellow green red ("Collecting: Describe output for cluster operator " ++ coName)
    "describe" ["clusteroperator"; coName] ("03-clusteroperator-describe-" ++ coName ++ ".txt")
    (failedLine ("collect describe for cluster operator " ++ coName))
    (savedLine ("03-clusteroperator-describe-" ++ coName ++ ".txt"))) ;;
ret None.

Definition collectMachines (o : Options) (yellow green red : Color) : M error :=
collectTo yellow green red "Collecting: MachineSets in all namespaces"
  "get" ["machinesets"; "-A"; "-o"; "wide"] "04-machinesets.txt"
  (failedLine "collect machinesets") (savedLine "04-machinesets.txt") ;;
collectTo yellow green red "Collecting: MachineSets details (yaml)"
  "get" ["machinesets"; "-A"; "-o"; "yaml"] "04-machinesets.yaml"
  (failedLine "collect machinesets yaml") (savedLine "04-machinesets.yaml") ;;
collectTo yellow green red "Collecting: Machines in all namespaces"
  "get" ["machines"; "-A"; "-o"; "wide"] "05-machines.txt"
  (failedLine "collect machines") (savedLine "05-machines.txt") ;;
collectTo yellow green red "Collecting: Machines details (yaml)"
  "get" ["machines"; "-A"; "-o"; "yaml"] "05-machines.yaml"
  (failedLine "collect machines yaml") (savedLine "05-machines.yaml") ;;
ret None.

(** A node with a condition [Ready=True]. *)
Definition isReady (conditions : list Condition) : bool :=
existsb (fun c => (condType c =? "Ready") && (condStatus c =? "True")) conditions.

Definition collectNodes (o : Options) (yellow green red : Color) : M error :=
collectTo yellow green red "Collecting: Nodes status"
  "get" ["nodes"; "-o"; "wide"] "06-nodes.txt"
  (failedLine "collect nodes") (savedLine "06-nodes.txt") ;;
collectTo yellow green red "Collecting: Nodes details (yaml)"
  "get" ["nodes"; "-o"; "yaml"] "06-nodes.yaml"
  (failedLine "collect nodes yaml") (savedLine "06-nodes.yaml") ;;
env <- ask ;;
r <- runOCCommandWithOutput "get" ["nodes"; "-o"; "json"] ;;
let notReadyNodes :=
  match decodeConditions (json env) (fst r) with
  | Some items => map fst (filter (fun node => negb (isReady (snd node))) items)
  | None => []
  end in
forEach notReadyNodes (fun nodeName =>
  collectTo yellow green red ("Collecting: Describe output for not-ready node " ++ nodeName)
    "describe" ["node"; nodeName] ("07-node-describe-" ++ nodeName ++ ".txt")
    (failedLine ("collect describe for node " ++ nodeName))
    (savedLine ("07-node-describe-" ++ nodeName ++ ".txt"))) ;;
ret None.

Definition collectInfrastructure (o : Options) (yellow green red : Color) : M error :=
collectTo yellow green red "Collecting: Infrastructure configuration"
  "get" ["infrastructure"; "cluster"; "-o"; "yaml"] "08-infrastructure.yaml"
  (failedLine "collect infrastructure config") (savedLine "08-infrastructure.yaml") ;;
collectTo yellow green red "Collecting: DNS configuration"
  "get" ["dns"; "cluster"; "-o"; "yaml"] "08-dns.yaml"
  (failedLine "collect DNS config") (savedLine "08-dns.yaml") ;;
collectTo yellow green red "Collecting: Network configuration"
  "get" ["network"; "cluster"; "-o"; "yaml"] "08-network.yaml"
  (failedLine "collect network config") (savedLine "08-network.yaml") ;;
ret None.

Definition collectInstallConfig (o : Options) (yellow green red : Color) : M error :=
collectTo yellow green red "Collecting: Install config from cluster-config-v1 configmap"
  "get" ["configmap"; "cluster-config-v1"; "-n"; "kube-system"; "-o"; "yaml"] "09-install-config.yaml"
  (failedLine "collect install config (may not exist on all clusters)") (savedLine "09-install-config.yaml") ;;
ret None.

Definition eventNamespaces : list string :=
["openshift-cluster-version"; "openshift-machine-api"; "openshift-kube-apiserver"; "openshift-etcd";
 "openshift-authentication"; "openshift-ingress"; "kube-system"].

Definition collectEvents (o : Options) (yellow green red : Color) : M error :=
forEach eventNamespaces (fun ns =>
  collectTo yellow green red ("Collecting: Events in namespace " ++ ns)
    "get" ["events"; "-n"; ns; "--sort-by=.lastTimestamp"] ("10-events-" ++ ns ++ ".txt")
    (failedLine ("collect events in " ++ ns)) (savedLine ("10-events-" ++ ns ++ ".txt"))) ;;
collectTo yellow green red "Collecting: All cluster events"
  "get" ["events"; "-A"; "--sort-by=.lastTimestamp"] "10-events-all.txt"
  (failedLine "collect all events") (savedLine "10-events-all.txt") ;;
ret None.

(** Namespace, label and name of the operators whose logs are collected. *)
Definition operators : list (string * string * string) :=
[ ("openshift-cluster-version", "k8s-app=cluster-version-operator", "cluster-version-operator");
  ("openshift-machine-api", "k8s-app=machine-api-operator", "machine-api-operator");
  ("openshift-machine-api", "k8s-app=machine-api-controllers", "machine-api-controllers");
  ("openshift-kube-apiserver-operator", "app=kube-apiserver-operator", "kube-apiserver-operator");
  ("openshift-authentication-operator", "app=authentication-operator", "authentication-operator") ].

Definition collectOperatorLogs (o : Options) (yellow green red : Color) : M error :=
forEach operators (fun op =>
  let namespace := fst (fst op) in
  let label := snd (fst op) in
  let name := snd op in
  collectTo yellow green red ("Collecting: Logs for " ++ name ++ " in " ++ namespace ++ " namespace")
    "logs" ["-n"; namespace; "-l"; label; "--tail=500"] ("11-logs-" ++ name ++ ".txt")
    (failedLine ("collect logs for " ++ name)) (savedLine ("11-logs-" ++ name ++ ".txt"))) ;;
ret None.

Definition podNamespaces : list string :=
["openshift-cluster-version"; "openshift-machine-api"; "openshift-kube-apiserver"; "openshift-etcd";
 "openshift-authentication"; "openshift-ingress"].

Definition collectPodsInCriticalNamespaces (o : Options) (yellow green red : Color) : M error :=
forEach podNamespaces (fun ns =>
  collectTo yellow green red ("Collecting: Pods in namespace " ++ ns)
    "get" ["pods"; "-n"; ns; "-o"; "wide"] ("12-pods-" ++ ns ++ ".txt")
    (failedLine ("collect pods in " ++ ns)) (savedLine ("12-pods-" ++ ns ++ ".txt"))) ;;
ret None.

(** The note with both ids, and the note with the placeholder. *)
Definition noteWithIDs (o : Options) : string :=
"========================================" ++ nl ++ "INSTALL LOGS COLLECTION INSTRUCTIONS" ++ nl
++ "========================================" ++ nl ++ nl ++ "Cluster ID: " ++ clusterID o ++ nl
++ "Internal ID: " ++ clusterInternalID o ++ nl ++ nl ++ "For cluster provisioning failures, the cluster may not be accessible via 'oc' commands." ++ nl
++ "Collect install logs directly from OCM using the command below." ++ nl
++ nl ++ "COMMAND TO COLLECT INSTALL LOGS:" ++ nl ++ "---------------------------------" ++ nl
++ nl ++ "echo -e `ocm get /api/clusters_mgmt/v1/clusters/" ++ clusterInternalID o ++ "/resources | jq -r '.resources.install_logs_tail'` > install-logs.txt" ++ nl
++ nl ++ "QUICK START:" ++ nl ++ "------------" ++ nl ++ nl ++ "1. Run the command above to save install logs to install-logs.txt" ++ nl
++ nl ++ "2. Review the logs for error messages:" ++ nl ++ "   less install-logs.txt" ++ nl
++ nl ++ "   Look for:" ++ nl ++ "   - ERROR level messages" ++ nl
++ "   - Failed operations" ++ nl ++ "   - Timeout errors" ++ nl
++ "   - Permission/authorization errors" ++ nl ++ "   - Resource provisioning failures" ++ nl
++ "   - Network connectivity issues" ++ nl ++ nl ++ "COMMON INSTALL FAILURE PATTERNS:" ++ nl
++ "---------------------------------" ++ nl ++ nl ++ "1. AWS: IAM permission issues, instance limits, EBS volume limits" ++ nl
++ "2. Azure: Subscription limits, resource provider not registered" ++ nl
++ "3. GCP: API not enabled, service account permissions" ++ nl ++ "4. Network: VPC/subnet configuration, DNS resolution failures" ++ nl
++ "5. Resources: Insufficient quota, unavailable instance types" ++ nl
++ nl ++ "ADDITIONAL OCM COMMANDS:" ++ nl ++ "------------------------" ++ nl
++ nl ++ "# Get cluster status (using cluster ID)" ++ nl ++ "ocm describe cluster " ++ clusterID o ++ nl
++ nl ++ "# Get cluster details (JSON)" ++ nl ++ "ocm describe cluster " ++ clusterID o ++ " --json" ++ nl
++ nl ++ "# Get cluster events (using internal ID)" ++ nl ++ "ocm get /api/clusters_mgmt/v1/clusters/" ++ clusterInternalID o ++ "/events" ++ nl
++ nl ++ "# Get cluster installation status (using internal ID)" ++ nl
++ "ocm get /api/clusters_mgmt/v1/clusters/" ++ clusterInternalID o ++ " | jq '.status'" ++ nl
++ nl ++ "========================================" ++ nl.

Definition noteWithPlaceholder : string :=
"========================================" ++ nl ++ "INSTALL LOGS COLLECTION INSTRUCTIONS" ++ nl
++ "========================================" ++ nl ++ nl ++ "For cluster provisioning failures, the cluster may not be accessible via 'oc' commands." ++ nl
++ "In such cases, you can collect install logs directly from OCM." ++ nl
++ nl ++ "COMMAND TO COLLECT INSTALL LOGS:" ++ nl ++ "---------------------------------" ++ nl
++ nl ++ "echo -e `ocm get /api/clusters_mgmt/v1/clusters/${INTERNAL_ID}/resources | jq -r '.resources.install_logs_tail'` > install-logs.txt" ++ nl
++ nl ++ "STEPS:" ++ nl ++ "------" ++ nl ++ nl ++ "1. Find your cluster's INTERNAL_ID:" ++ nl
++ "   ocm list clusters" ++ nl ++ nl ++ "   Example output:" ++ nl
++ "   ID                   NAME            STATE" ++ nl ++ "   abc123def456...      my-cluster      installing" ++ nl
++ nl ++ "2. Export the INTERNAL_ID:" ++ nl ++ "   export INTERNAL_ID=abc123def456..." ++ nl
++ nl ++ "3. Collect the install logs:" ++ nl ++ "   echo -e `ocm get /api/clusters_mgmt/v1/clusters/${INTERNAL_ID}/resources | jq -r '.resources.install_logs_tail'` > install-logs.txt" ++ nl
++ nl ++ "4. Review the logs for error messages:" ++ nl ++ "   less install-logs.txt" ++ nl
++ nl ++ "   Look for:" ++ nl ++ "   - ERROR level messages" ++ nl
++ "   - Failed operations" ++ nl ++ "   - Timeout errors" ++ nl
++ "   - Permission/authorization errors" ++ nl ++ "   - Resource provisioning failures" ++ nl
++ "   - Network connectivity issues" ++ nl ++ nl ++ "COMMON INSTALL FAILURE PATTERNS:" ++ nl
++ "---------------------------------" ++ nl ++ nl ++ "1. AWS: IAM permission issues, instance limits, EBS volume limits" ++ nl
++ "2. Azure: Subscription limits, resource provider not registered" ++ nl
++ "3. GCP: API not enabled, service account permissions" ++ nl ++ "4. Network: VPC/subnet configuration, DNS resolution failures" ++ nl
++ "5. Resources: Insufficient quota, unavailable instance types" ++ nl
++ nl ++ "ADDITIONAL OCM COMMANDS:" ++ nl ++ "------------------------" ++ nl
++ nl ++ "# Get cluster status" ++ nl ++ "ocm get cluster ${INTERNAL_ID}" ++ nl
++ nl ++ "# Get cluster details (JSON)" ++ nl ++ "ocm get cluster ${INTERNAL_ID} --json" ++ nl
++ nl ++ "# Get cluster events" ++ nl ++ "ocm get /api/clusters_mgmt/v1/clusters/${INTERNAL_ID}/events" ++ nl
++ nl ++ "# Get cluster installation status" ++ nl ++ "ocm get /api/clusters_mgmt/v1/clusters/${INTERNAL_ID} | jq '.status'" ++ nl
++ nl ++ "TIP: You can re-run this command with --cluster-id flag:" ++ nl
++ "     osdctl assist cluster-provisioning-failure --cluster-id <INTERNAL_ID>" ++ nl
++ nl ++ "========================================" ++ nl.

Definition createInstallLogsNote (o : Options) (yellow green : Color) : M error :=
println yellow "Creating install logs collection note..." ;;
let note := if negb (clusterID o =? "") && negb (clusterInternalID o =? "")
            then noteWithIDs o else noteWithPlaceholder in
e <- writeFile "00-INSTALL-LOGS-COLLECTION.txt" note ;;
match e with
| Some msg => ret (errorf ("failed to write install logs note: " ++ msg))
| None => printf green (savedLine "00-INSTALL-LOGS-COLLECTION.txt") ;; ret None
end.

Definition collectInstallLogs (o : Options) (yellow green red : Color) : M error :=
if clusterInternalID o =? "" then
  println yellow "Skipping install logs collection: Internal ID not available" ;;
  ret (errorf "internal ID not available")
else
  printf yellow ("Collecting: Install logs via OCM for cluster " ++ clusterID o ++ nl) ;;
  r <- runProcess "bash"
         ["-c"; "ocm get /api/clusters_mgmt/v1/clusters/" ++ clusterInternalID o
                ++ "/resources | jq -r '.resources.install_logs_tail'"] Captured ;;
  match snd r with
  | Some msg =>
      printf red ("  " ++ cross ++ " Failed to collect install logs via OCM: " ++ msg ++ nl) ;;
      printf red ("    Output: " ++ fst r ++ nl ++ nl) ;;
      ret (errorf ("failed to run OCM command: " ++ msg))
  | None =>
      e <- writeFile "01-install-logs.txt" (fst r) ;;
      match e with
      | Some msg => printf red (failedLine "save install logs") ;; ret (Some msg)
      | None => printf green (savedLine "01-install-logs.txt") ;; ret None
      end
  end.

Definition collectClusterInfoViaOCM (o : Options) (yellow green red : Color) : M error :=
printf yellow ("Collecting: Cluster information via OCM for cluster " ++ clusterID o ++ nl) ;;
r <- runProcess "ocm" ["describe"; "cluster"; clusterID o] Captured ;;
match snd r with
| Some msg =>
    printf red ("  " ++ cross ++ " Failed to get cluster description via OCM: " ++ msg ++ nl ++ nl) ;;
    ret (errorf ("failed to run ocm describe: " ++ msg))
| None =>
    e <- writeFile "02-cluster-info-ocm.txt" (fst r) ;;
    match e with
    | Some msg => printf red (failedLine "save cluster info") ;; ret (Some msg)
    | None =>
        printf green (savedLine "02-cluster-info-ocm.txt") ;;
        println yellow "Collecting: Cluster details (JSON)" ;;
        j <- runProcess "ocm" ["describe"; "cluster"; clusterID o; "--json"] Captured ;;
        match snd j with
        | Some msg => printf red ("  " ++ cross ++ " Failed to get cluster JSON via OCM: " ++ msg ++ nl ++ nl)
        | None => saveTo green red "02-cluster-info-ocm.json" (fst j) (failedLine "save cluster JSON")
        end ;;
        (if negb (clusterInternalID o =? "") then
           println yellow "Collecting: Cluster events via OCM" ;;
           ev <- runProcess "bash"
                   ["-c"; "ocm get /api/clusters_mgmt/v1/clusters/" ++ clusterInternalID o ++ "/events"]
                   Captured ;;
           match snd ev with
           | Some msg => printf red ("  " ++ cross ++ " Failed to get cluster events via OCM: " ++ msg ++ nl ++ nl)
           | None => saveTo green red "03-cluster-events-ocm.txt" (fst ev) (failedLine "save cluster events")
           end
         else ret tt) ;;
        ret None
    end
end.

(** The last hundred lines of the install logs, cut at 5000 bytes. *)
Definition installLogsPreview (content : string) : string :=
let lines := SplitLines content in
truncated 5000 (Join (skipn (List.length lines - 100) lines) nl).

Definition generateSummaryForFailedInstall (o : Options) (green : Color) : M error :=
println green "Generating summary report..." ;;
t <- Now ;;
files <- collectedFiles ;;
logs <- ReadFile "01-install-logs.txt" ;;
info <- excerpt "Cluster Information:" "02-cluster-info-ocm.txt" ;;
writeFile "00-SUMMARY.txt"
  (summaryHead "ClusterProvisioningFailure" (formatRFC3339 t)
     ("Cluster ID: " ++ clusterID o ++ nl ++ "Internal ID: " ++ clusterInternalID o ++ nl ++ nl
      ++ "This collection focuses on install logs for a failed cluster installation." ++ nl
      ++ "The cluster is not accessible via 'oc' commands, so all information is gathered via OCM."
      ++ nl ++ nl)
   ++ filesCollectedTitle ++ files ++ keyInformationTitle
   ++ match logs with
      | Some content =>
          nl ++ "Install Logs Preview (last 100 lines):" ++ nl ++ installLogsPreview content ++ nl
      | None =>
          nl ++ "Install Logs: Not available - see 00-INSTALL-LOGS-COLLECTION.txt for manual collection instructions" ++ nl
      end
   ++ info
   ++ nl ++ "Next Steps:" ++ nl ++ "-----------" ++ nl
   ++ "1. Review install logs in 01-install-logs.txt for ERROR messages" ++ nl
   ++ "2. Look for common failure patterns:" ++ nl
   ++ "   - IAM/permission errors" ++ nl
   ++ "   - Resource quota/limit errors" ++ nl
   ++ "   - Network/connectivity errors" ++ nl
   ++ "   - Timeout errors" ++ nl
   ++ "3. Check cluster info in 02-cluster-info-ocm.txt for cluster state" ++ nl
   ++ "4. Refer to https://github.com/openshift/ops-sop/blob/master/v4/alerts/ClusterProvisioningFailure.md" ++ nl).

(** [generateSummary], which [run] does not call. *)
Definition generateSummary (o : Options) (clusterID : string) (green : Color) : M error :=
println green "Generating summary report..." ;;
t <- Now ;;
files <- collectedFiles ;;
key <- excerpts [("Cluster Version:", "01-clusterversion.txt");
                 ("Cluster Operators Status:", "02-clusteroperators.txt");
                 ("Nodes Status:", "06-nodes.txt");
                 ("Machines Status:", "05-machines.txt")] ;;
writeFile "00-SUMMARY.txt"
  (summaryHead "ClusterProvisioningFailure" (formatRFC3339 t) ("Cluster ID: " ++ clusterID ++ nl ++ nl)
   ++ filesCollectedTitle ++ files ++ keyInformationTitle ++ key).

Definition priorityFiles : list string :=
["00-SUMMARY.txt"; "01-install-logs.txt"; "02-cluster-info-ocm.txt"; "03-cluster-events-ocm.txt"].

(** The limit on a priority file: the install logs keep their first and last
    10000 bytes when they are longer than 20000, any other file its first
    15000. *)
Definition priorityContent (filename fileContent : string) : string :=
if (filename =? "01-install-logs.txt") && Nat.ltb 20000 (len fileContent) then
  take 10000 fileContent ++ nl ++ nl ++ "... (middle section truncated) ..." ++ nl ++ nl
  ++ drop (len fileContent - 10000) fileContent
else truncated 15000 fileContent.

Definition jsonContent (name data : string) : string := truncated 10000 data.

Definition extractAndReadDiagnostics (o : Options) : M (string * error) :=
priority <- readSections priorityContent priorityFiles ;;
clusterJSON <- readSections jsonContent ["02-cluster-info-ocm.json"] ;;
ret (priority ++ clusterJSON, None).

Definition promptFile : string := "prompts/cluster_provisioning_failure_analysis.md".

Definition fallbackPrompt : string :=
"You are an expert OpenShift/Kubernetes Site Reliability Engineer (SRE) specializing in cluster installation and provisioning. Your task is to analyze diagnostic information and assess cluster provisioning failures on OpenShift clusters."
++ nl ++ nl ++ "Analyze the provided diagnostic data and provide:" ++ nl
++ "1. Root cause analysis - What is likely causing the cluster provisioning failure?" ++ nl
++ "2. Key findings - What are the most important issues identified?" ++ nl
++ "3. Recommended actions - What steps should be taken to resolve the issues?" ++ nl
++ "4. Priority - Rate the severity (Critical/High/Medium/Low)" ++ nl ++ nl
++ "Focus on:" ++ nl
++ "- ClusterOperators that are degraded, unavailable, or progressing" ++ nl
++ "- Node provisioning issues" ++ nl
++ "- Machine API problems" ++ nl
++ "- Infrastructure configuration issues" ++ nl
++ "- Installation progress and any stuck components" ++ nl ++ nl
++ "Be concise but thorough. Focus on actionable insights.".

Definition intro : string :=
"Please analyze the following cluster provisioning failure diagnostic information from an OpenShift cluster:"
++ nl ++ nl.

Definition analyzeWithLLM (o : Options) (diagnosticContent : string) : M (string * list Message * error) :=
analyzeWithHistory promptFile fallbackPrompt intro o diagnosticContent.

Definition askFollowUpQuestion := Llm.askFollowUpQuestion.

Definition interactiveFollowUp (o : Options) (conversationHistory : list Message)
  (green yellow : Color) : M error :=
Llm.interactiveFollowUp o "10-llm-analysis.txt" conversationHistory green yellow.

Definition sop : string :=
"https://github.com/openshift/ops-sop/blob/master/v4/alerts/ClusterProvisioningFailure.md".

(** The collection branch of [run]: everything comes from OCM. *)
Definition collection (o : Options) : M error :=
println Green "Collecting diagnostic information for ClusterProvisioningFailure alert..." ;;
printf Plain ("Output directory: " ++ outputDir o ++ nl ++ nl) ;;
mk <- MkdirAll ;;
match mk with
| Some msg => ret (errorf ("failed to create output directory: " ++ msg))
| None =>
    println Yellow "NOTE: For cluster provisioning failures, the cluster is typically not accessible." ;;
    println Yellow "This command will collect install logs via OCM." ;;
    println Plain "" ;;
    if clusterID o =? "" then
      println Red "Error: --cluster flag is required for cluster provisioning failures." ;;
      println Plain (nl ++ "Usage:") ;;
      println Plain "  osdctl assist cluster-provisioning-failure --cluster $CLUSTER_ID" ;;
      println Plain (nl ++ "To find your cluster ID:") ;;
      println Plain "  ocm list clusters" ;;
      ret (errorf "cluster ID required")
    else
      println Green "Cluster Information:" ;;
      printf Plain ("Cluster ID: " ++ clusterID o ++ nl) ;;
      (if negb (clusterInternalID o =? "")
       then printf Plain ("Internal ID: " ++ clusterInternalID o ++ nl) else ret tt) ;;
      println Plain "" ;;
      note <- createInstallLogsNote o Yellow Green ;;
      match note with
      | Some msg => printf Plain ("Warning: Failed to create install logs note: " ++ msg ++ nl)
      | None => ret tt
      end ;;
      logs <- collectInstallLogs o Yellow Green Red ;;
      match logs with
      | Some msg =>
          printf Plain ("Warning: Failed to collect install logs: " ++ msg ++ nl) ;;
          println Yellow "See 00-INSTALL-LOGS-COLLECTION.txt for manual collection instructions."
      | None => ret tt
      end ;;
      info <- collectClusterInfoViaOCM o Yellow Green Red ;;
      match info with
      | Some msg => printf Plain ("Warning: Failed to collect cluster info via OCM: " ++ msg ++ nl)
      | None => ret tt
      end ;;
      check (generateSummaryForFailedInstall o Green)
        (println Green "Creating archive..." ;;
         tar <- createTarball o ;;
         match tar with
         | Some msg => printf Plain ("Warning: Failed to create archive: " ++ msg ++ nl)
         | None => ret tt
         end ;;
         ret None)
end.

Definition analysis (o : Options) : M unit :=
c <- extractAndReadDiagnostics o ;;
match snd c with
| Some msg => printf Plain ("Warning: Failed to extract diagnostic content: " ++ msg ++ nl)
| None =>
    a <- analyzeWithLLM o (fst c) ;;
    match snd a with
    | Some msg => printf Plain ("Warning: LLM analysis failed: " ++ msg ++ nl)
    | None =>
        saveAnalysis "10-llm-analysis.txt" (fst (fst a)) ;;
        f <- interactiveFollowUp o (snd (fst a)) Green Yellow ;;
        match f with
        | Some msg => printf Plain ("Warning: Interactive follow-up failed: " ++ msg ++ nl)
        | None => ret tt
        end
    end
end.

Definition finishRun (o : Options) : M unit :=
finish o
  ["2. Start with 00-SUMMARY.txt for an overview";
   "3. Review install logs in 01-install-logs.txt";
   "   Look for ERROR messages, permission issues, quota limits, network errors";
   "4. Check cluster info in 02-cluster-info-ocm.txt for cluster state and status"]
  ["5. Review 10-llm-analysis.txt for AI-powered insights";
   "6. Refer to " ++ sop ++ " for troubleshooting steps"]
  ["5. Refer to " ++ sop ++ " for troubleshooting steps";
   "6. Use --analyze flag to enable LLM analysis"]
  (if negb (clusterInternalID o =? "") then
     println Plain (nl ++ "To re-collect install logs manually:") ;;
     printf Plain ("  echo -e `ocm get /api/clusters_mgmt/v1/clusters/" ++ clusterInternalID o
                   ++ "/resources | jq -r '.resources.install_logs_tail'` > install-logs.txt" ++ nl)
   else ret tt).

Definition run (o : Options) : M error :=
check (if skipCollection o then analyzeExisting o else collection o)
  ((if enableLLMAnalysis o then announceLLM o ;; analysis o else ret tt) ;;
   finishRun o ;;
   ret None).

End Provisioning.

(* ================================================================== *)
(** ** dynatrace-monitoring-stack-down-sre *)
(* ================================================================== *)

Module DynatraceCmd.
Import GoStr Sys Cmd Llm.

Definition complete (o : Options) : M (Options * error) :=
Llm.complete "dynatrace-monitoring-stack-down" o.

Definition getClusterID : M (string * error) := getClusterID'.

Definition collectDeployments (o : Options) (yellow green red : Color) : M error :=
collectTo yellow green red "Collecting: Deployments in dynatrace namespace"
  "get" ["deploy"; "-n"; "dynatrace"; "-o"; "wide"] "01-deployments.txt"
  (failedLine "collect deployments") (savedLine "01-deployments.txt") ;;
collectTo yellow green red "Collecting: Deployments in dynatrace namespace (yaml)"
  "get" ["deploy"; "-n"; "dynatrace"; "-o"; "yaml"] "01-deployments.yaml"
  (failedLine "collect deployments yaml") (savedLine "01-deployments.yaml") ;;
ret None.

Definition collectStatefulSets (o : Options) (yellow green red : Color) : M error :=
collectTo yellow green red "Collecting: StatefulSets for ActiveGate in dynatrace namespace"
  "get" ["sts"; "-n"; "dynatrace"; "-l"; "app.kubernetes.io/component=activegate"; "-o"; "wide"]
  "02-statefulsets-activegate.txt"
  (failedLine "collect ActiveGate StatefulSets") (savedLine "02-statefulsets-activegate.txt") ;;
collectTo yellow green red "Collecting: StatefulSets for ActiveGate (yaml)"
  "get" ["sts"; "-n"; "dynatrace"; "-l"; "app.kubernetes.io/component=activegate"; "-o"; "yaml"]
  "02-statefulsets-activegate.yaml"
  (failedLine "collect ActiveGate StatefulSets yaml") (savedLine "02-statefulsets-activegate.yaml") ;;
ret None.

Definition collectDaemonSets (o : Options) (yellow green red : Color) : M error :=
collectTo yellow green red "Collecting: DaemonSets for OneAgent in dynatrace namespace"
  "get" ["ds"; "-n"; "dynatrace"; "-l"; "app.kubernetes.io/name=oneagent"; "-o"; "wide"]
  "03-daemonsets-oneagent.txt"
  (failedLine "collect OneAgent DaemonSets") (savedLine "03-daemonsets-oneagent.txt") ;;
collectTo yellow green red "Collecting: DaemonSets for OneAgent (yaml)"
  "get" ["ds"; "-n"; "dynatrace"; "-l"; "app.kubernetes.io/name=oneagent"; "-o"; "yaml"]
  "03-daemonsets-oneagent.yaml"
  (failedLine "collect OneAgent DaemonSets yaml") (savedLine "03-daemonsets-oneagent.yaml") ;;
ret None.

Definition collectPods (o : Options) (yellow green red : Color) : M error :=
collectTo yellow green red "Collecting: Pods in dynatrace namespace"
  "get" ["pod"; "-n"; "dynatrace"; "-o"; "wide"] "04-pods.txt"
  (failedLine "collect pods") (savedLine "04-pods.txt") ;;
collectTo yellow green red "Collecting: Pods in dynatrace namespace (yaml)"
  "get" ["pod"; "-n"; "dynatrace"; "-o"; "yaml"] "04-pods.yaml"
  (failedLine "collect pods yaml") (savedLine "04-pods.yaml") ;;
env <- ask ;;
r <- runOCCommandWithOutput "get" ["pod"; "-n"; "dynatrace"; "-o"; "json"] ;;
forEach (failingPods env (fst r)) (fun pod =>
  collectTo yellow green red ("Collecting: Describe output for pod " ++ pod)
    "describe" ["pod"; pod; "-n"; "dynatrace"] ("05-pod-describe-" ++ pod ++ ".txt")
    (failedLine ("collect describe for pod " ++ pod)) (savedLine ("05-pod-describe-" ++ pod ++ ".txt"))) ;;
ret None.

Definition collectEvents (o : Options) (yellow green red : Color) : M error :=
collectTo yellow green red "Collecting: Events in dynatrace namespace"
  "get" ["events"; "-n"; "dynatrace"; "--sort-by=.lastTimestamp"] "06-events.txt"
  (failedLine "collect events") (savedLine "06-events.txt") ;;
ret None.

(** Label, label value and name of the components, for [oc logs]. *)
Definition ocComponents : list (string * string * string) :=
[ ("app.kubernetes.io/component", "operator", "operator");
  ("app.kubernetes.io/component", "webhook", "webhook");
  ("app.kubernetes.io/component", "otel", "otel");
  ("app.kubernetes.io/component", "activegate", "activegate");
  ("app.kubernetes.io/name", "oneagent", "oneagent") ].

(** [collectComponentLogsWithOC], the fallback. *)
Definition collectComponentLogsWithOC (o : Options) (yellow green red : Color) : M error :=
forEach ocComponents (fun comp =>
  let label := fst (fst comp) in
  let labelValue := snd (fst comp) in
  let name := snd comp in
  collectTo yellow green red ("Collecting: Logs for " ++ name ++ " component (using oc logs)")
    "logs" ["-n"; "dynatrace"; "-l"; label ++ "=" ++ labelValue; "--tail=-1"] ("07-logs-" ++ name ++ ".txt")
    (failedLine ("collect logs for " ++ name)) (savedLine ("07-logs-" ++ name ++ ".txt"))) ;;
ret None.

Definition dtComponents : list string := ["operator"; "webhook"; "otel"; "activegate"; "oneagent"].

(** The query for one component: the last 24 hours of the [dynatrace]
    namespace on the management cluster, by container for [activegate] and
    [oneagent] and by deployment for the others, 10000 records at most. *)
Definition componentQuery (managementCluster comp : string) : DTQuery :=
if (comp =? "activegate") || (comp =? "oneagent")
then mkDTQuery 24 managementCluster ["dynatrace"] [comp] [] 10000
else mkDTQuery 24 managementCluster ["dynatrace"] [] ["dynatrace-" ++ comp] 10000.

(** The logs of one component fetched from Dynatrace into its file; every
    failure is printed and the next component follows. *)
Definition fetchComponentLogs (env : Env) (dynatraceURL accessToken managementCluster : string)
  (green red : Color) (comp : string) : M unit :=
let logFile := "07-logs-" ++ comp ++ ".txt" in
match SortQuery (dt env) (componentQuery managementCluster comp) "desc" with
| inr msg => printf red ("  " ++ cross ++ " Failed to build query for " ++ comp ++ ": " ++ msg ++ nl ++ nl)
| inl built =>
    q <- DtQueryExecution dynatraceURL accessToken built ;;
    match q with
    | inr msg =>
        printf red ("  " ++ cross ++ " Failed to execute Dynatrace query for " ++ comp ++ ": " ++ msg ++ nl ++ nl)
    | inl requestToken =>
        c <- Create logFile ;;
        match c with
        | Some msg =>
            printf red ("  " ++ cross ++ " Failed to create log file for " ++ comp ++ ": " ++ msg ++ nl ++ nl)
        | None =>
            e <- DtGetLogs dynatraceURL accessToken requestToken logFile ;;
            match e with
            | Some msg =>
                printf red ("  " ++ cross ++ " Failed to collect logs for " ++ comp ++ ": " ++ msg ++ nl ++ nl) ;;
                Remove logFile
            | None => printf green (savedLine logFile)
            end
        end
    end
end.

Definition collectComponentLogs (o : Options) (yellow green red : Color) : M error :=
id <- getClusterID ;;
let clusterID := fst id in
if (clusterID =? "N/A") || (clusterID =? "") then
  println yellow "Warning: Could not determine cluster ID, falling back to oc logs" ;;
  collectComponentLogsWithOC o yellow green red
else
  env <- ask ;;
  match FetchClusterDetails (dt env) clusterID with
  | inr msg =>
      printf yellow ("Warning: Could not fetch Dynatrace cluster details (" ++ msg
                     ++ "), falling back to oc logs" ++ nl) ;;
      collectComponentLogsWithOC o yellow green red
  | inl (managementCluster, dynatraceURL) =>
      match GetStorageAccessToken (dt env) with
      | inr msg =>
          printf yellow ("Warning: Could not get Dynatrace access token (" ++ msg
                         ++ "), falling back to oc logs" ++ nl) ;;
          collectComponentLogsWithOC o yellow green red
      | inl accessToken =>
          forEach dtComponents (fun comp =>
            printf yellow ("Collecting: Logs for " ++ comp ++ " component (from Dynatrace)" ++ nl) ;;
            fetchComponentLogs env dynatraceURL accessToken managementCluster green red comp) ;;
          ret None
      end
  end.

Definition creationNote : string :=
"Note: To check cluster creation timestamp, run:" ++ nl
++ "ocm get cluster $MC_CLUSTER_ID | jq .creation_timestamp" ++ nl ++ nl
++ "If the creation timestamp is about 15-20 mins and this alert is fired," ++ nl
++ "it may be because the installation is still going on." ++ nl.

Definition collectClusterCreationTimestamp (o : Options) (yellow green red : Color) : M error :=
println yellow "Collecting: Cluster creation timestamp (to check if installation is still in progress)" ;;
saveTo green red "00-cluster-creation-note.txt" creationNote (failedLine "create cluster creation note") ;;
ret None.

Definition generateSummary (o : Options) (clusterID : string) (green : Color) : M error :=
println green "Generating summary report..." ;;
t <- Now ;;
files <- collectedFiles ;;
key <- excerpts [("Deployments Status:", "01-deployments.txt");
                 ("Pods Status:", "04-pods.txt");
                 ("ActiveGate StatefulSet Status:", "02-statefulsets-activegate.txt");
                 ("OneAgent DaemonSet Status:", "03-daemonsets-oneagent.txt")] ;;
writeFile "00-SUMMARY.txt"
  (summaryHead "DynatraceMonitoringStackDownSRE" (formatRFC3339 t) ("Cluster ID: " ++ clusterID ++ nl ++ nl)
   ++ filesCollectedTitle ++ files ++ keyInformationTitle ++ key).

Definition priorityFiles : list string :=
["00-SUMMARY.txt"; "01-deployments.txt"; "02-statefulsets-activegate.txt";
 "03-daemonsets-oneagent.txt"; "04-pods.txt"; "06-events.txt"].

Definition yamlFiles : list string :=
["01-deployments.yaml"; "02-statefulsets-activegate.yaml"; "03-daemonsets-oneagent.yaml"; "04-pods.yaml"].

Definition logFiles : list string :=
["07-logs-operator.txt"; "07-logs-webhook.txt"; "07-logs-otel.txt"; "07-logs-activegate.txt";
 "07-logs-oneagent.txt"].

Definition yamlContent (name data : string) : string := truncated 15000 data.

Definition logContent (name data : string) : string := truncated 10000 data.

Definition extractAndReadDiagnostics (o : Options) : M (string * error) :=
priority <- readSections whole priorityFiles ;;
yamls <- readSections yamlContent yamlFiles ;;
podDescribeFiles <- Glob "05-pod-describe-" ".txt" ;;
describes <- readSections whole (firstFive podDescribeFiles) ;;
logs <- readSections logContent logFiles ;;
ret (priority ++ yamls ++ describes ++ logs, None).

Definition promptFile : string := "prompts/dynatrace_monitoring_stack_down_analysis.md".

Definition fallbackPrompt : string :=
"You are an expert OpenShift/Kubernetes Site Reliability Engineer (SRE) specializing in Dynatrace monitoring stack. Your task is to analyze diagnostic information and assess the health of Dynatrace components (Operator, Webhook, OneAgent, ActiveGate, OTEL) on any OpenShift cluster."
++ nl ++ nl ++ "Analyze the provided diagnostic data and provide:" ++ nl
++ "1. Root cause analysis - What is likely causing the Dynatrace stack to be down?" ++ nl
++ "2. Key findings - What are the most important issues identified?" ++ nl
++ "3. Recommended actions - What steps should be taken to resolve the issues?" ++ nl
++ "4. Priority - Rate the severity (Critical/High/Medium/Low/Healthy)" ++ nl ++ nl
++ "Be concise but thorough. Focus on actionable insights.".

Definition intro : string :=
"Please analyze the following DynatraceMonitoringStackDownSRE diagnostic information from an OpenShift cluster:"
++ nl ++ nl.

Definition analyzeWithLLM (o : Options) (diagnosticContent : string) : M (string * list Message * error) :=
analyzeWithHistory promptFile fallbackPrompt intro o diagnosticContent.

Definition askFollowUpQuestion := Llm.askFollowUpQuestion.

Definition interactiveFollowUp (o : Options) (conversationHistory : list Message)
  (green yellow : Color) : M error :=
Llm.interactiveFollowUp o "08-llm-analysis.txt" conversationHistory green yellow.

Definition collectors (o : Options) : list (M error) :=
[ collectDeployments o Yellow Green Red; collectStatefulSets o Yellow Green Red;
  collectDaemonSets o Yellow Green Red; collectPods o Yellow Green Red;
  collectEvents o Yellow Green Red; collectComponentLogs o Yellow Green Red;
  collectClusterCreationTimestamp o Yellow Green Red ].

Definition sop : string := "~/ops-sop/dynatrace/alerts/DynatraceMonitoringStackDownSRE.md".

Definition finishRun (o : Options) : M unit :=
finish o ["2. Start with 00-SUMMARY.txt for an overview"]
  ["3. Review 08-llm-analysis.txt for AI-powered insights";
   "4. Check pod logs and describe output for error details";
   "5. Refer to " ++ sop ++ " for troubleshooting steps"]
  ["3. Check pod logs and describe output for error details";
   "4. Refer to " ++ sop ++ " for troubleshooting steps";
   "5. Use --analyze flag to enable LLM analysis"]
  (ret tt).

Definition analysis (o : Options) : M unit :=
c <- extractAndReadDiagnostics o ;;
match snd c with
| Some msg => printf Plain ("Warning: Failed to extract diagnostic content: " ++ msg ++ nl)
| None =>
    a <- analyzeWithLLM o (fst c) ;;
    match snd a with
    | Some msg => printf Plain ("Warning: LLM analysis failed: " ++ msg ++ nl)
    | None =>
        saveAnalysis "08-llm-analysis.txt" (fst (fst a)) ;;
        f <- interactiveFollowUp o (snd (fst a)) Green Yellow ;;
        match f with
        | Some msg => printf Plain ("Warning: Interactive follow-up failed: " ++ msg ++ nl)
        | None => ret tt
        end
    end
end.

Definition run (o : Options) : M error :=
check (if skipCollection o then analyzeExisting o
       else collection "DynatraceMonitoringStackDownSRE" "'ocm backplane login'" o getClusterID
              (collectors o) (fun clusterID => generateSummary o clusterID Green))
  ((if enableLLMAnalysis o then announceLLM o ;; analysis o else ret tt) ;;
   finishRun o ;;
   ret None).

End DynatraceCmd.

(* ================================================================== *)
(** ** A concrete environment *)
(* ================================================================== *)

Module Demo.
Import GoStr Sys Cmd.

(** ASCII lower case, for the runs below. *)
Definition lowerByte (c : ascii) : ascii :=
let n := nat_of_ascii c in
if Nat.leb 65 n && Nat.leb n 90 then ascii_of_nat (n + 32) else c.

Fixpoint lower (s : string) : string :=
match s with
| EmptyString => EmptyString
| String c r => String (lowerByte c) (lower r)
end.

(** Two pods, one of them failed; one job; one degraded operator. *)
Definition decoders : Json :=
mkJson (fun _ => Some [mkPod "pruner-1" "Failed"; mkPod "pruner-2" "Running"])
  (fun _ => Some ["builds-pruner"])
  (fun _ => Some [("pruner-1", [mkContainerStatus "CreateContainerError" ""])])
  (fun _ => Some [mkJobStatus "builds-pruner" (Some 2%Z) None])
  (fun _ => Some [("monitoring", [mkCondition "Degraded" "True"])])
  (fun _ => Some "internal-1")
  (fun _ => None)
  (fun body => inl [body]).

Definition dynatrace : Dynatrace :=
mkDynatrace (fun _ => inl ("hive-mc", "https://dt.example"))
  (inl "token") (fun _ _ => inl "fetch logs")
  (fun _ _ _ _ => inl "request-1") (fun _ _ _ _ => ("log line", None)).

Definition clock : Time := mkTime 2026 11 2 8 42 7 0.

(** Every process prints its arguments and succeeds; no call fails; the
    endpoint answers 200 with the body [the answer]; the user asks one
    question and leaves. *)
Definition env : Env :=
mkEnv (fun _ => clock) (fun _ => "") (fun _ => false) None (fun _ => StatIsDir)
  (fun _ => None) (fun _ => None) (fun _ _ args => (Join args " ", None))
  (fun _ _ => None) (fun _ => true) (fun _ => None)
  (fun _ _ => HttpResponse 200 "the answer")
  ["why did it fail?"; "exit"] None lower decoders dynatrace (fun _ => "system prompt").

(** The same, with another process oracle, fault oracle or endpoint. *)
Definition withProc (e : Env) (p : list Event -> string -> list string -> string * error) : Env :=
mkEnv (now e) (getenv e) (flagChanged e) (configFile e) (stat e) (lookPath e) (mkdirAll e)
  p (fault e) (archiveExists e) (newRequest e) (http e) (stdin e) (stdinErr e) (ToLower e)
  (json e) (dt e) (embedded e).

Definition withFault (e : Env) (f : list Event -> FsOp -> error) : Env :=
mkEnv (now e) (getenv e) (flagChanged e) (configFile e) (stat e) (lookPath e) (mkdirAll e)
  (proc e) f (archiveExists e) (newRequest e) (http e) (stdin e) (stdinErr e) (ToLower e)
  (json e) (dt e) (embedded e).

(** The options after [--analyze --llm-api-key sk-0123456789] with the given
    base URL and output directory. *)
Definition options (dir baseURL : string) : Options :=
mkOptions dir "" false "" "" true "sk-0123456789" baseURL "gpt-4o-mini".

End Demo.

(* ================================================================== *)
(** ** The properties, as predicates on traces and results *)
(* ================================================================== *)

Module Props.
Import GoStr Sys Cmd Llm.

(** Candidates that are not empty. *)
Definition nonEmpty (cands : list string) : Prop := Forall (fun c => 1 <= len c) cands.

(** Every trace of [m] satisfies [Q]. *)
Definition Emits (Q : list Event -> Prop) {A} (m : M A) : Prop :=
forall env h fs, Q (emitted (m env h fs)).

(** Every value of [m] satisfies [R]. *)
Definition Returns {A} (R : A -> Prop) (m : M A) : Prop :=
forall env h fs, R (val (m env h fs)).

(** [m] adds no event and leaves the files as they are. *)
Definition Silent {A} (m : M A) : Prop :=
forall env h fs, emitted (m env h fs) = [] /\ files (m env h fs) = fs.

(** The arguments of [oc] start with [get], [describe], [logs],
    [cluster-info] or [adm top]. *)
Definition readOnlySubcommand (args : list string) : bool :=
match args with
| sub :: rest =>
    (sub =? "get") || (sub =? "describe") || (sub =? "logs") || (sub =? "cluster-info")
    || ((sub =? "adm") && match rest with a :: _ => a =? "top" | [] => false end)
| [] => false
end.

Definition keepsOutput (sink : Sink) : bool :=
match sink with Discarded => false | _ => true end.

(** What a collector may do: an [oc] process has a read-only subcommand and
    its output goes to a named file of the bundle or back to the collector. *)
Definition collectorEvent (e : Event) : bool :=
match e with
| EvProc prog args sink _ _ =>
    if prog =? "oc" then readOnlySubcommand args && keepsOutput sink else true
| _ => true
end.

(** What a run may do: every [oc] process has a read-only subcommand. *)
Definition readOnlyEvent (e : Event) : bool :=
match e with
| EvProc prog args _ _ _ => if prog =? "oc" then readOnlySubcommand args else true
| _ => true
end.

(** All the collector functions of the four commands. *)
Definition allCollectors (o : Options) (yellow green red : Color) : list (M error) :=
[ Pruning.collectJobs o yellow green red; Pruning.collectPods o yellow green red;
  Pruning.collectEvents o yellow green red; Pruning.collectNetworkInfo o yellow green red;
  Pruning.collectNodeExporterInfo o yellow green red; Pruning.collectImageRegistryInfo o yellow green red;
  Pruning.collectResourceQuotas o yellow green red; Pruning.collectOVNInfo o yellow green red;
  Pruning.collectCronJobInfo o yellow green red; Pruning.collectSeccompErrors o yellow green red;
  Pruning.collectNodeInfo o yellow green red; Pruning.collectJobHistory o yellow green red;
  Pruning.collectClusterVersion o yellow green red;
  Monitoring.collectMonitoringOperator o yellow green red; Monitoring.collectMonitoringPods o yellow green red;
  Monitoring.collectMonitoringEvents o yellow green red; Monitoring.collectPrometheusCRDs o yellow green red;
  Monitoring.collectMonitoringOperatorLogs o yellow green red; Monitoring.collectResourceQuotas o yellow green red;
  Monitoring.collectClusterVersion o yellow green red;
  Provisioning.collectClusterVersion o yellow green red; Provisioning.collectClusterOperators o yellow green red;
  Provisioning.collectMachines o yellow green red; Provisioning.collectNodes o yellow green red;
  Provisioning.collectInfrastructure o yellow green red; Provisioning.collectInstallConfig o yellow green red;
  Provisioning.collectEvents o yellow green red; Provisioning.collectOperatorLogs o yellow green red;
  Provisioning.collectPodsInCriticalNamespaces o yellow green red;
  Provisioning.createInstallLogsNote o yellow green; Provisioning.collectInstallLogs o yellow green red;
  Provisioning.collectClusterInfoViaOCM o yellow green red;
  DynatraceCmd.collectDeployments o yellow green red; DynatraceCmd.collectStatefulSets o yellow green red;
  DynatraceCmd.collectDaemonSets o yellow green red; DynatraceCmd.collectPods o yellow green red;
  DynatraceCmd.collectEvents o yellow green red; DynatraceCmd.collectComponentLogs o yellow green red;
  DynatraceCmd.collectComponentLogsWithOC o yellow green red;
  DynatraceCmd.collectClusterCreationTimestamp o yellow green red ].

(** The bundle files, among those whose name starts with [pre], that a trace
    opens for a collection step, in order. *)
Definition openedWith (pre : string) (evs : list Event) : list string :=
flat_map (fun e => match e with
                   | EvOpen name _ => if HasPrefix name pre then [name] else []
                   | _ => []
                   end) evs.

(** The name begins with two digits. *)
Definition numbered (name : string) : bool :=
match name with
| String a (String b _) => isDigit a && isDigit b
| _ => false
end.

(** The bundle file an event creates, opens or writes, if it does. *)
Definition written (e : Event) : option string :=
match e with
| EvOpen name _ => Some name
| EvWriteFile name _ _ => Some name
| EvAppend name _ _ => Some name
| EvProc _ _ (ToFile name) _ _ => Some name
| EvDtLogs _ name _ => Some name
| _ => None
end.

(** Every file the event writes has a numbered name. *)
Definition numberedEvent (e : Event) : bool :=
match written e with
| Some name => numbered name
| None => true
end.

(** Every file the event writes has a numbered name or is
    [cluster-info.txt]. *)
Definition bundleEvent (e : Event) : bool :=
match written e with
| Some name => numbered name || (name =? "cluster-info.txt")
| None => true
end.

(** The runs of the commands: both revisions of the pruning command, then
    the three others. *)
Definition allRuns (o : Options) : list (M error) :=
[Pruning.run o; Pruning.run' o; Monitoring.run o; Provisioning.run o; DynatraceCmd.run o].

(** [complete] of each command with the prefix of its directory name. *)
Definition allCompletes : list (string * (Options -> M (Options * error))) :=
[("pruning-cronjob", Pruning.complete); ("pruning-cronjob", Pruning.complete');
 ("cluster-monitoring-error-budget-burn", Monitoring.complete);
 ("cluster-provisioning-failure", Provisioning.complete);
 ("dynatrace-monitoring-stack-down", DynatraceCmd.complete)].

(** [followedBy bad good evs]: every event of [evs] that is [bad] is
    immediately followed by one that is [good]. *)
Fixpoint followedBy (bad good : Event -> bool) (evs : list Event) : bool :=
match evs with
| [] => true
| e :: rest =>
    (if bad e then match rest with m :: _ => good m | [] => false end else true)
    && followedBy bad good rest
end.

Definition Followed (bad good : Event -> bool) (evs : list Event) : Prop :=
followedBy bad good evs = true.

(** An [oc] process that was to fill a file of the bundle, and failed. *)
Definition failedToFile (e : Event) : bool :=
match e with
| EvProc prog _ (ToFile _) _ (Some _) => prog =? "oc"
| _ => false
end.

(** An [oc] process that failed, wherever its output went. *)
Definition failedOc (e : Event) : bool :=
match e with
| EvProc prog _ _ _ (Some _) => prog =? "oc"
| _ => false
end.

(** The failure marker of the collectors. *)
Definition failureMarker (e : Event) : bool :=
match e with
| EvPrint _ text => HasPrefix text ("  " ++ cross ++ " Failed to ")
| _ => false
end.

(** [tar] failed. *)
Definition failedArchive (e : Event) : bool :=
match e with
| EvProc prog _ _ _ (Some _) => prog =? "tar"
| _ => false
end.

(** The warning of [run] about the archive. *)
Definition archiveWarning (e : Event) : bool :=
match e with
| EvPrint _ text => HasPrefix text "Warning: Failed to create archive: "
| _ => false
end.

(** Something printed that holds the cross of the failure marker or the
    word [Warning]. *)
Definition printsMarker (e : Event) : bool :=
match e with
| EvPrint _ text => Contains text cross || Contains text "Warning"
| _ => false
end.

(** The failures that end a collection run with an error: the bundle
    directory cannot be made, [oc] is not on the path, the login check
    fails, [cluster-info.txt] or [00-SUMMARY.txt] cannot be written. *)
Definition fatalEvent (e : Event) : bool :=
match e with
| EvMkdirAll (Some _) => true
| EvLookPath prog (Some _) => prog =? "oc"
| EvProc prog args Discarded _ (Some _) =>
    (prog =? "oc") && match args with [sub] => sub =? "cluster-info" | _ => false end
| EvWriteFile name _ (Some _) => (name =? "cluster-info.txt") || (name =? "00-SUMMARY.txt")
| _ => false
end.

(** [m] returns an error only after a fatal event of its own. *)
Definition Blames (m : M error) : Prop :=
forall env h fs,
  val (m env h fs) = None \/ Exists (fun e => fatalEvent e = true) (emitted (m env h fs)).

(** The process oracle of [e], except that [oc] fails on the arguments
    [args]. *)
Definition failingOn (e : Env) (args : list string) : Env :=
Demo.withProc e (fun h prog a =>
  if (prog =? "oc") && (if list_eq_dec string_dec a args then true else false)
  then ("", Some "exit status 1") else proc e h prog a).

(** Every function that writes a summary. *)
Definition allSummaries (o : Options) (clusterID : string) (green : Color) : list (M error) :=
[ Pruning.generateSummary o clusterID green; Monitoring.generateSummary o clusterID green;
  Provisioning.generateSummaryForFailedInstall o green;
  Provisioning.generateSummary o clusterID green; DynatraceCmd.generateSummary o clusterID green ].

(** The event writes [00-SUMMARY.txt] with the lines [files] between the
    title of the list and the title of the excerpts, and [rest] after it. *)
Definition summaryWritten (files rest : string) (e : Event) : Prop :=
exists head err,
  e = EvWriteFile "00-SUMMARY.txt"
        (head ++ filesCollectedTitle ++ files ++ keyInformationTitle ++ rest) err.

(** The lines under [Files Collected] of a summary made after the events [h]
    over the files [fs]: the listing of [fs], or nothing when the directory
    cannot be walked. *)
Definition filesListed (env : Env) (h : list Event) (fs : FS) : string :=
match fault env h OpList with
| None => listingText (listing (map fst fs))
| Some _ => ""
end.

(** The file system oracle of [e], except that the bundle directory cannot be
    listed. *)
Definition unlistable (e : Env) : Env :=
Demo.withFault e (fun h op => match op with OpList => Some "permission denied" | _ => fault e h op end).

(** The requests a trace posts, with their answers. *)
Definition posts (evs : list Event) : list (ChatRequest * HttpResult) :=
flat_map (fun e => match e with EvPost req res => [(req, res)] | _ => [] end) evs.

(** The system prompt of a command: its embedded file, or the text in the
    source when that file is empty. *)
Definition promptOf (env : Env) (file fallback : string) : string :=
if embedded env file =? "" then fallback else embedded env file.

(** One exchange with the endpoint at [url]: when the request can be built,
    one POST with these messages, and as result the first choice of an answer
    with status 200, else an error; when it cannot, no POST and an error. *)
Definition OneExchange (env : Env) (h : list Event) (url key model : string)
  (messages : list Message) (r : Result (string * error)) : Prop :=
let req := mkChatRequest "POST" url "application/json" ("Bearer " ++ key) model messages "0.3" 4000 in
match newRequest env url with
| Some _ => posts (emitted r) = [] /\ snd (val r) <> None
| None =>
    posts (emitted r) = [(req, http env h req)]
    /\ match http env h req with
       | HttpFailed _ => snd (val r) <> None
       | HttpResponse status body =>
           if Nat.eqb status 200 then
             match decodeChoices (json env) body with
             | inl (c :: _) => val r = (c, None)
             | inl [] => snd (val r) = Some "no response from LLM"
             | inr _ => snd (val r) <> None
             end
           else snd (val r) <> None
       end
end.

(** The environment [e], except that no request can be built. *)
Definition unbuildable (e : Env) : Env :=
mkEnv (now e) (getenv e) (flagChanged e) (configFile e) (stat e) (lookPath e) (mkdirAll e)
  (proc e) (fault e) (archiveExists e) (fun _ => Some "invalid URL") (http e) (stdin e)
  (stdinErr e) (ToLower e) (json e) (dt e) (embedded e).

(** What [os.ReadFile] gives for a file of the bundle after the events
    [h]. *)
Definition readable (env : Env) (h : list Event) (fs : FS) (name : string) : option string :=
match fault env h (OpRead name) with
| Some _ => None
| None => lookupFile name fs
end.

(** The sections of the files among [names] that can be read, in the order
    of [names], each content limited by [shape]. *)
Definition sectionsOf (env : Env) (h : list Event) (fs : FS)
  (shape : string -> string -> string) (names : list string) : string :=
fold_right (fun name rest =>
              match readable env h fs name with
              | Some data => section name (shape name data)
              | None => ""
              end ++ rest) "" names.

(** The names of the bundle that match [pre*suf]. *)
Definition globbed (env : Env) (h : list Event) (fs : FS) (pre suf : string) : list string :=
match fault env h OpList with
| Some _ => []
| None => filter (matchStar pre suf) (map fst fs)
end.

(** The answer a response carries: the first choice of a body with status
    200. *)
Definition answerOf (env : Env) (res : HttpResult) : option string :=
match res with
| HttpFailed _ => None
| HttpResponse status body =>
    if Nat.eqb status 200 then
      match decodeChoices (json env) body with
      | inl (c :: _) => Some c
      | _ => None
      end
    else None
end.

(** The requests [ps], in order, continue the conversation [hist]: each sends
    the conversation so far followed by one question of the user, and an
    answered question and its answer join the conversation of the requests
    after it. *)
Fixpoint follows (env : Env) (hist : list Message) (ps : list (ChatRequest * HttpResult)) : Prop :=
match ps with
| [] => True
| (req, res) :: rest =>
    exists question,
      reqMessages req = (hist ++ [mkMessage "user" question])%list
      /\ follows env
           match answerOf env res with
           | Some answer =>
               (hist ++ [mkMessage "user" question; mkMessage "assistant" answer])%list
           | None => hist
           end rest
end.

(** The requests [ps] of an analysis and its follow-up: the first sends
    [initial], and when it is answered the others continue [initial] and the
    answer; when it is not, there is no other. *)
Definition conversation (env : Env) (initial : list Message)
  (ps : list (ChatRequest * HttpResult)) : Prop :=
match ps with
| [] => True
| (req, res) :: rest =>
    reqMessages req = initial
    /\ match answerOf env res with
       | Some answer => follows env (initial ++ [mkMessage "assistant" answer])%list rest
       | None => rest = []
       end
end.

End Props.


(* ================================================================== *)
(** ** Further properties of the commands, as predicates *)
(* ================================================================== *)

Module MoreProps.
Import GoStr Sys Cmd Llm Props.

(** The collectors that ask the cluster: every collector but the three of the
    provisioning command that go through OCM. *)
Definition clusterCollectors (o : Options) (yellow green red : Color) : list (M error) :=
[ Pruning.collectJobs o yellow green red; Pruning.collectPods o yellow green red;
  Pruning.collectEvents o yellow green red; Pruning.collectNetworkInfo o yellow green red;
  Pruning.collectNodeExporterInfo o yellow green red; Pruning.collectImageRegistryInfo o yellow green red;
  Pruning.collectResourceQuotas o yellow green red; Pruning.collectOVNInfo o yellow green red;
  Pruning.collectCronJobInfo o yellow green red; Pruning.collectSeccompErrors o yellow green red;
  Pruning.collectNodeInfo o yellow green red; Pruning.collectJobHistory o yellow green red;
  Pruning.collectClusterVersion o yellow green red;
  Monitoring.collectMonitoringOperator o yellow green red; Monitoring.collectMonitoringPods o yellow green red;
  Monitoring.collectMonitoringEvents o yellow green red; Monitoring.collectPrometheusCRDs o yellow green red;
  Monitoring.collectMonitoringOperatorLogs o yellow green red; Monitoring.collectResourceQuotas o yellow green red;
  Monitoring.collectClusterVersion o yellow green red;
  Provisioning.collectClusterVersion o yellow green red; Provisioning.collectClusterOperators o yellow green red;
  Provisioning.collectMachines o yellow green red; Provisioning.collectNodes o yellow green red;
  Provisioning.collectInfrastructure o yellow green red; Provisioning.collectInstallConfig o yellow green red;
  Provisioning.collectEvents o yellow green red; Provisioning.collectOperatorLogs o yellow green red;
  Provisioning.collectPodsInCriticalNamespaces o yellow green red;
  DynatraceCmd.collectDeployments o yellow green red; DynatraceCmd.collectStatefulSets o yellow green red;
  DynatraceCmd.collectDaemonSets o yellow green red; DynatraceCmd.collectPods o yellow green red;
  DynatraceCmd.collectEvents o yellow green red; DynatraceCmd.collectComponentLogs o yellow green red;
  DynatraceCmd.collectComponentLogsWithOC o yellow green red;
  DynatraceCmd.collectClusterCreationTimestamp o yellow green red ].

(** [extractAndReadDiagnostics] of the four commands. *)
Definition allExtracts (o : Options) : list (M (string * error)) :=
[ Pruning.extractAndReadDiagnostics o; Monitoring.extractAndReadDiagnostics o;
  Provisioning.extractAndReadDiagnostics o; DynatraceCmd.extractAndReadDiagnostics o ].

(** The event starts [oc]. *)
Definition startsOc (e : Event) : bool :=
match e with
| EvProc prog _ _ _ _ => prog =? "oc"
| _ => false
end.

(** What a run does when it only analyses an existing bundle: it prints,
    posts to the endpoint, and writes its analysis file. *)
Definition offlineEvent (e : Event) : bool :=
match e with
| EvPrint _ _ => true
| EvPost _ _ => true
| EvOpen name _ => HasSuffix name "-llm-analysis.txt"
| EvWriteFile name _ _ => HasSuffix name "-llm-analysis.txt"
| EvAppend name _ _ => HasSuffix name "-llm-analysis.txt"
| _ => false
end.

(** What a run does before it reaches the cluster: it prints, makes the
    bundle directory, looks for [oc] and checks the login. *)
Definition preflightEvent (e : Event) : bool :=
match e with
| EvPrint _ _ => true
| EvMkdirAll _ => true
| EvLookPath _ _ => true
| EvProc prog args Discarded _ _ =>
    (prog =? "oc") && match args with [sub] => sub =? "cluster-info" | _ => false end
| _ => false
end.

(** The runs that can be told to analyse an existing bundle. *)
Definition laterRuns (o : Options) : list (M error) :=
[Pruning.run' o; Monitoring.run o; Provisioning.run o; DynatraceCmd.run o].

(** The runs that log in to the cluster. *)
Definition clusterRuns (o : Options) : list (M error) :=
[Pruning.run o; Pruning.run' o; Monitoring.run o; DynatraceCmd.run o].

(** A name that [*.txt], [*.yaml] or [*.json] matches. *)
Definition isDiagnosticName (name : string) : bool :=
HasSuffix name ".txt" || HasSuffix name ".yaml" || HasSuffix name ".json".

(** The environment [e], except that [oc] is not on the path. *)
Definition withoutOc (e : Env) : Env :=
mkEnv (now e) (getenv e) (flagChanged e) (configFile e) (stat e)
  (fun prog => if prog =? "oc" then Some "executable file not found in $PATH" else lookPath e prog)
  (mkdirAll e) (proc e) (fault e) (archiveExists e) (newRequest e) (http e) (stdin e)
  (stdinErr e) (ToLower e) (json e) (dt e) (embedded e).

(** [complete] of the commands that take [--analyze-existing]. *)
Definition laterCompletes (o : Options) : list (M (Options * error)) :=
[Pruning.complete' o; Monitoring.complete o; Provisioning.complete o; DynatraceCmd.complete o].

(** The questions a follow-up session asks of the lines it reads: the lines
    that are not blank, trimmed, up to the first that says [exit], [quit] or
    [q]. *)
Fixpoint questions (env : Env) (lines : list string) : list string :=
match lines with
| [] => []
| l :: rest =>
    if TrimSpace l =? "" then questions env rest
    else if isExit env (TrimSpace l) then []
    else TrimSpace l :: questions env rest
end.

(** The last message of a request. *)
Definition lastMessage (p : ChatRequest * HttpResult) : Message :=
last (reqMessages (fst p)) (mkMessage "" "").

(** The event is a call of the Dynatrace API. *)
Definition dynatraceEvent (e : Event) : bool :=
match e with
| EvDtQuery _ _ _ => true
| EvDtLogs _ _ _ => true
| _ => false
end.

(** The event is an [oc logs] process. *)
Definition ocLogsEvent (e : Event) : bool :=
match e with
| EvProc prog (sub :: _) _ _ _ => (prog =? "oc") && (sub =? "logs")
| _ => false
end.

(** The component logs can come from Dynatrace: the cluster has an ID, and
    the cluster details and an access token are to be had. *)
Definition dynatraceReachable (env : Env) (clusterID : string) : bool :=
negb ((clusterID =? "N/A") || (clusterID =? ""))
&& match FetchClusterDetails (dt env) clusterID with
   | inl _ => match GetStorageAccessToken (dt env) with inl _ => true | inr _ => false end
   | inr _ => false
   end.

(** The Dynatrace client of [e] fails to download logs. *)
Definition withoutLogs (e : Env) : Env :=
mkEnv (now e) (getenv e) (flagChanged e) (configFile e) (stat e) (lookPath e)
  (mkdirAll e) (proc e) (fault e) (archiveExists e) (newRequest e) (http e) (stdin e)
  (stdinErr e) (ToLower e) (json e)
  (mkDynatrace (FetchClusterDetails (dt e)) (GetStorageAccessToken (dt e)) (SortQuery (dt e))
     (GetDTQueryExecution (dt e)) (fun _ _ _ _ => ("partial", Some "connection reset")))
  (embedded e).

(** What [complete] promises of the options it accepts: when it gives no
    error and the analysis is enabled, the API key passes [validateAPIKey] and
    the base URL is set. *)
Definition ready (r : Options * error) : Prop :=
snd r = None -> enableLLMAnalysis (fst r) = true ->
validateAPIKey (llmAPIKey (fst r)) = None /\ llmBaseURL (fst r) <> "".

End MoreProps.
(* ================================================================== *)
(** ** Facts about strings *)
(* ================================================================== *)

Module GoStrFacts.
Import GoStr Props.

Lemma length_drop (n : nat) (s : string) : len (drop n s) = len s - n.
Proof.
revert s; induction n as [|n IH]; intros [|c r]; simpl; auto.
Qed.

Lemma length_take (n : nat) (s : string) : len (take n s) = Nat.min n (len s).
Proof.
revert s; induction n as [|n IH]; intros [|c r]; simpl; auto; f_equal; apply IH.
Qed.

Lemma take_drop (n : nat) (s : string) : take n s ++ drop n s = s.
Proof.
revert s; induction n as [|n IH]; intros [|c r]; simpl; auto; f_equal; apply IH.
Qed.

Lemma length_append (a b : string) : len (a ++ b) = len a + len b.
Proof. induction a as [|c a IH]; simpl; auto. Qed.

Lemma prefix_length (p s : string) : String.prefix p s = true -> len p <= len s.
Proof.
revert s; induction p as [|c p IH]; intros [|d s]; simpl; intros H; try lia; try discriminate.
destruct (ascii_dec c d); [apply IH in H; lia | discriminate].
Qed.

Lemma prefix_empty (s : string) : String.prefix "" s = true.
Proof. destruct s; reflexivity. Qed.

Lemma HasPrefix_append (p s : string) : HasPrefix (p ++ s) p = true.
Proof.
unfold HasPrefix. induction p as [|c p IH]; simpl; [apply prefix_empty|].
destruct (ascii_dec c c); [exact IH | contradiction].
Qed.

Lemma take_all (s : string) : take (len s) s = s.
Proof. induction s as [|c r IH]; simpl; [reflexivity | f_equal; exact IH]. Qed.

Lemma spaceRunes_nonEmpty : nonEmpty spaceRunes.
Proof. unfold nonEmpty, spaceRunes; repeat constructor. Qed.

Lemma stripPrefixOf_shorter (cands : list string) (s r : string) :
  nonEmpty cands -> stripPrefixOf cands s = Some r -> len r < len s.
Proof.
induction 1 as [|c cands Hc _ IH]; simpl; [discriminate|].
destruct (HasPrefix s c) eqn:Hp; [|exact IH].
intros E; injection E as <-. rewrite length_drop.
apply prefix_length in Hp. lia.
Qed.

Lemma stripSuffixOf_shorter (cands : list string) (s r : string) :
  nonEmpty cands -> stripSuffixOf cands s = Some r -> len r < len s.
Proof.
induction 1 as [|c cands Hc _ IH]; simpl; [discriminate|].
destruct (HasSuffix s c) eqn:Hp; [|exact IH].
intros E; injection E as <-. rewrite length_take.
unfold HasSuffix in Hp. apply andb_prop in Hp as [Hl _].
apply Nat.leb_le in Hl. lia.
Qed.

Lemma trimLeftN_length (cands : list string) (fuel : nat) (s : string) :
  nonEmpty cands -> len (trimLeftN cands fuel s) <= len s.
Proof.
intros Hc; revert s; induction fuel as [|f IH]; intros s; simpl; [lia|].
destruct (stripPrefixOf cands s) as [r|] eqn:E; [|lia].
specialize (IH r). apply stripPrefixOf_shorter in E; auto. lia.
Qed.

Lemma trimRightN_length (cands : list string) (fuel : nat) (s : string) :
  nonEmpty cands -> len (trimRightN cands fuel s) <= len s.
Proof.
intros Hc; revert s; induction fuel as [|f IH]; intros s; simpl; [lia|].
destruct (stripSuffixOf cands s) as [r|] eqn:E; [|lia].
specialize (IH r). apply stripSuffixOf_shorter in E; auto. lia.
Qed.

(** With fuel left, trimming on the left changes nothing exactly when no
    candidate starts the string. *)
Lemma trimLeftN_fixed (cands : list string) (fuel : nat) (s : string) :
  nonEmpty cands ->
  (trimLeftN cands (S fuel) s = s <-> stripPrefixOf cands s = None).
Proof.
intros Hc; simpl. destruct (stripPrefixOf cands s) as [r|] eqn:E.
- split; [|discriminate]. intros H.
  pose proof (trimLeftN_length cands fuel r Hc) as Hl.
  apply stripPrefixOf_shorter in E; auto. rewrite H in Hl. lia.
- split; reflexivity.
Qed.

Lemma trimRightN_fixed (cands : list string) (fuel : nat) (s : string) :
  nonEmpty cands ->
  (trimRightN cands (S fuel) s = s <-> stripSuffixOf cands s = None).
Proof.
intros Hc; simpl. destruct (stripSuffixOf cands s) as [r|] eqn:E.
- split; [|discriminate]. intros H.
  pose proof (trimRightN_length cands fuel r Hc) as Hl.
  apply stripSuffixOf_shorter in E; auto. rewrite H in Hl. lia.
- split; reflexivity.
Qed.

Lemma stripPrefixOf_empty (cands : list string) :
  nonEmpty cands -> stripPrefixOf cands "" = None.
Proof.
induction 1 as [|c cands Hc _ IH]; simpl; auto.
destruct c; [simpl in Hc; lia | exact IH].
Qed.

Lemma stripSuffixOf_empty (cands : list string) :
  nonEmpty cands -> stripSuffixOf cands "" = None.
Proof.
induction 1 as [|c cands Hc _ IH]; simpl; auto.
unfold HasSuffix. destruct c; [simpl in Hc; lia | exact IH].
Qed.

Lemma trimLeftN_same_length (cands : list string) (fuel : nat) (s : string) :
  nonEmpty cands -> len (trimLeftN cands fuel s) = len s -> trimLeftN cands fuel s = s.
Proof.
intros Hc; destruct fuel as [|f]; simpl; auto.
destruct (stripPrefixOf cands s) as [q|] eqn:E; auto.
intros H. pose proof (trimLeftN_length cands f q Hc).
apply stripPrefixOf_shorter in E; auto. lia.
Qed.

Lemma trimRightN_same_length (cands : list string) (fuel : nat) (s : string) :
  nonEmpty cands -> len (trimRightN cands fuel s) = len s -> trimRightN cands fuel s = s.
Proof.
intros Hc; destruct fuel as [|f]; simpl; auto.
destruct (stripSuffixOf cands s) as [q|] eqn:E; auto.
intros H. pose proof (trimRightN_length cands f q Hc).
apply stripSuffixOf_shorter in E; auto. lia.
Qed.

(** Trimming both ends changes nothing exactly when no candidate starts the
    string and none ends it. *)
Lemma trim_fixed (cands : list string) (s : string) :
  nonEmpty cands ->
  (trimRightN cands (len (trimLeftN cands (len s) s)) (trimLeftN cands (len s) s) = s <->
   stripPrefixOf cands s = None /\ stripSuffixOf cands s = None).
Proof.
intros Hc. destruct s as [|c r].
- split; [intros _; split; [apply stripPrefixOf_empty | apply stripSuffixOf_empty]; exact Hc
         | intros _; reflexivity].
- set (s := String c r). change (len s) with (S (len r)). split.
  + intros H.
    pose proof (trimLeftN_length cands (S (len r)) s Hc) as H1.
    pose proof (trimRightN_length cands (len (trimLeftN cands (S (len r)) s))
                  (trimLeftN cands (S (len r)) s) Hc) as H2.
    rewrite H in H2.
    assert (Hl : trimLeftN cands (S (len r)) s = s)
      by (apply trimLeftN_same_length; [exact Hc | lia]).
    rewrite Hl in H. change (len s) with (S (len r)) in H.
    split; [apply (trimLeftN_fixed cands (len r) s Hc); exact Hl
           | apply (trimRightN_fixed cands (len r) s Hc); exact H].
  + intros [H1 H2].
    assert (Hl : trimLeftN cands (S (len r)) s = s)
      by (apply trimLeftN_fixed; auto).
    rewrite Hl. change (len s) with (S (len r)). apply trimRightN_fixed; auto.
Qed.

(** A string is its own trimmed form exactly when no white-space rune starts
    it and none ends it. *)
Lemma TrimSpace_fixed (s : string) :
  TrimSpace s = s <->
  stripPrefixOf spaceRunes s = None /\ stripSuffixOf spaceRunes s = None.
Proof. apply trim_fixed, spaceRunes_nonEmpty. Qed.

Lemma TrimSpace_length (s : string) : len (TrimSpace s) <= len s.
Proof.
unfold TrimSpace.
pose proof (trimLeftN_length spaceRunes (len s) s spaceRunes_nonEmpty).
pose proof (trimRightN_length spaceRunes (len (trimLeftN spaceRunes (len s) s))
              (trimLeftN spaceRunes (len s) s) spaceRunes_nonEmpty).
lia.
Qed.

End GoStrFacts.

(* ================================================================== *)
(** ** Facts about computations and their traces *)
(* ================================================================== *)

Module TraceFacts.
Import GoStr Sys Cmd Props.

Lemma bind_val {A B} (m : M A) (k : A -> M B) env h fs :
  val (bind m k env h fs) =
  val (k (val (m env h fs)) env (h ++ emitted (m env h fs))%list (files (m env h fs))).
Proof. reflexivity. Qed.

Lemma bind_emitted {A B} (m : M A) (k : A -> M B) env h fs :
  emitted (bind m k env h fs) =
  (emitted (m env h fs) ++
   emitted (k (val (m env h fs)) env (h ++ emitted (m env h fs)) (files (m env h fs))))%list.
Proof. reflexivity. Qed.

Lemma bind_files {A B} (m : M A) (k : A -> M B) env h fs :
  files (bind m k env h fs) =
  files (k (val (m env h fs)) env (h ++ emitted (m env h fs))%list (files (m env h fs))).
Proof. reflexivity. Qed.

Lemma emitted_bind_ex {A B} (m : M A) (k : A -> M B) env h fs :
  exists h' fs', emitted (bind m k env h fs) =
                 (emitted (m env h fs) ++ emitted (k (val (m env h fs)) env h' fs'))%list.
Proof. eexists; eexists; apply bind_emitted. Qed.

(** One step into a trace equation [E]: the trace of [m ;; k] becomes the
    trace of [m] followed by that of [k], run from some later state. *)
Ltac step_bind_in E :=
  match type of E with
  | context [emitted (@bind ?A ?B ?m ?k ?e ?h ?f)] =>
      let h' := fresh "h" in
      let fs' := fresh "fs" in
      let E' := fresh "E" in
      destruct (@emitted_bind_ex A B m k e h f) as (h' & fs' & E');
      rewrite E' in E; clear E'; cbv beta in E
  end.

Lemma Returns_ret {A} (R : A -> Prop) (a : A) : R a -> Returns R (ret a).
Proof. intros H env h fs; exact H. Qed.

Lemma Returns_bind {A B} (P : A -> Prop) (R : B -> Prop) (m : M A) (k : A -> M B) :
  Returns P m -> (forall a, P a -> Returns R (k a)) -> Returns R (bind m k).
Proof. intros Hm Hk env h fs. rewrite bind_val. apply Hk, Hm. Qed.

Lemma Returns_any {A} (m : M A) : Returns (fun _ => True) m.
Proof. intros env h fs; exact I. Qed.

Section Closed.

(** A property of traces that holds of the empty trace and of the
    concatenation of two traces that have it. *)
Variable Q : list Event -> Prop.
Hypothesis Q_nil : Q [].
Hypothesis Q_app : forall a b, Q a -> Q b -> Q (a ++ b)%list.

Lemma Emits_ret {A} (a : A) : Emits Q (ret a).
Proof. intros env h fs; exact Q_nil. Qed.

Lemma Emits_bind {A B} (m : M A) (k : A -> M B) :
  Emits Q m -> (forall a, Emits Q (k a)) -> Emits Q (bind m k).
Proof.
intros Hm Hk env h fs. rewrite bind_emitted. apply Q_app; [apply Hm | apply Hk].
Qed.

Lemma Emits_silent {A} (m : M A) : Silent m -> Emits Q m.
Proof. intros H env h fs. destruct (H env h fs) as [-> _]. exact Q_nil. Qed.

Lemma Emits_forEach {A} (l : list A) (body : A -> M unit) :
  (forall x, Emits Q (body x)) -> Emits Q (forEach l body).
Proof.
intros Hb; induction l as [|x l IH]; simpl.
- apply Emits_ret.
- apply Emits_bind; [apply Hb | intros _; exact IH].
Qed.

Lemma Emits_check (m k : M error) : Emits Q m -> Emits Q k -> Emits Q (check m k).
Proof.
intros Hm Hk. unfold check. apply Emits_bind; [exact Hm|].
intros [msg|]; [apply Emits_ret | exact Hk].
Qed.

Lemma Emits_checkAll (steps : list (M error)) (k : M error) :
  Forall (Emits Q) steps -> Emits Q k -> Emits Q (checkAll steps k).
Proof.
intros Hs Hk; induction Hs as [|m steps Hm _ IH]; simpl; [exact Hk|].
apply Emits_check; assumption.
Qed.

Lemma Emits_emit (e : Event) : Q [e] -> Emits Q (emit e).
Proof. intros H env h fs; exact H. Qed.

Lemma Emits_runProcess prog args sink :
  (forall out err, Q [EvProc prog args sink out err]) -> Emits Q (runProcess prog args sink).
Proof. intros H env h fs; apply H. Qed.

Lemma Emits_WriteFile name content :
  (forall err, Q [EvWriteFile name content err]) -> Emits Q (WriteFile name content).
Proof. intros H env h fs; unfold WriteFile; destruct (fault env h _); apply H. Qed.

Lemma Emits_WriteString name content :
  (forall err, Q [EvAppend name content err]) -> Emits Q (WriteString name content).
Proof. intros H env h fs; unfold WriteString; destruct (fault env h _); apply H. Qed.

Lemma Emits_OpenAppend name : (forall err, Q [EvOpen name err]) -> Emits Q (OpenAppend name).
Proof. intros H env h fs; unfold OpenAppend; destruct (fault env h _); apply H. Qed.

Lemma Emits_Create name : (forall err, Q [EvOpen name err]) -> Emits Q (Create name).
Proof. intros H env h fs; unfold Create; destruct (fault env h _); apply H. Qed.

Lemma Emits_Remove name : Q [EvRemove name] -> Emits Q (Remove name).
Proof. intros H env h fs; exact H. Qed.

Lemma Emits_MkdirAll : (forall err, Q [EvMkdirAll err]) -> Emits Q MkdirAll.
Proof. intros H env h fs; apply H. Qed.

Lemma Emits_LookPath prog : (forall err, Q [EvLookPath prog err]) -> Emits Q (LookPath prog).
Proof. intros H env h fs; apply H. Qed.

Lemma Emits_Do req : (forall res, Q [EvPost req res]) -> Emits Q (Llm.Do req).
Proof. intros H env h fs; apply H. Qed.

Lemma Emits_DtQueryExecution url token query :
  (forall err, Q [EvDtQuery url query err]) -> Emits Q (DtQueryExecution url token query).
Proof. intros H env h fs; apply H. Qed.

Lemma Emits_DtGetLogs url token req name :
  (forall err, Q [EvDtLogs url name err]) -> Emits Q (DtGetLogs url token req name).
Proof. intros H env h fs; apply H. Qed.

End Closed.

(** The computations that only look. *)
Lemma Silent_ret {A} (a : A) : Silent (ret a).
Proof. intros env h fs; split; reflexivity. Qed.

Lemma Silent_bind {A B} (m : M A) (k : A -> M B) :
  Silent m -> (forall a, Silent (k a)) -> Silent (bind m k).
Proof.
intros Hm Hk env h fs. rewrite bind_emitted, bind_files.
destruct (Hm env h fs) as [E1 F1]. rewrite E1, F1.
destruct (Hk (val (m env h fs)) env (h ++ [])%list fs) as [E2 F2].
rewrite E2, F2. split; reflexivity.
Qed.

Lemma Silent_ask : Silent ask.
Proof. intros env h fs; split; reflexivity. Qed.

Lemma Silent_history : Silent history.
Proof. intros env h fs; split; reflexivity. Qed.

Lemma Silent_Now : Silent Now.
Proof. intros env h fs; split; reflexivity. Qed.

Lemma Silent_ArchiveExists : Silent ArchiveExists.
Proof. intros env h fs; split; reflexivity. Qed.

Lemma Silent_ReadFile name : Silent (ReadFile name).
Proof. intros env h fs; unfold ReadFile; destruct (fault env h _); split; reflexivity. Qed.

Lemma Silent_WalkFiles : Silent WalkFiles.
Proof. intros env h fs; unfold WalkFiles; destruct (fault env h _); split; reflexivity. Qed.

Lemma Silent_Glob pre suf : Silent (Glob pre suf).
Proof. intros env h fs; unfold Glob; destruct (fault env h _); split; reflexivity. Qed.

Lemma Silent_readSections shape names : Silent (readSections shape names).
Proof.
induction names as [|n names IH]; simpl; [apply Silent_ret|].
apply Silent_bind; [apply Silent_ReadFile|]. intros d.
apply Silent_bind; [exact IH|]. intros rest. apply Silent_ret.
Qed.

Lemma Silent_excerpt title file : Silent (excerpt title file).
Proof.
unfold excerpt. apply Silent_bind; [apply Silent_ReadFile|].
intros [c|]; apply Silent_ret.
Qed.

Lemma Silent_excerpts parts : Silent (excerpts parts).
Proof.
induction parts as [|[title file] parts IH]; simpl; [apply Silent_ret|].
apply Silent_bind; [apply Silent_excerpt|]. intros a.
apply Silent_bind; [exact IH|]. intros b. apply Silent_ret.
Qed.

Lemma Silent_collectedFiles : Silent collectedFiles.
Proof.
unfold collectedFiles. apply Silent_bind; [apply Silent_WalkFiles|].
intros [names|]; apply Silent_ret.
Qed.

Lemma Silent_loadConfigValue a b c : Silent (Llm.loadConfigValue a b c).
Proof.
unfold Llm.loadConfigValue. apply Silent_bind; [apply Silent_ask|]. intros env.
destruct (configFile env); [|apply Silent_ret].
destruct (negb _); apply Silent_ret.
Qed.

Lemma Silent_firstChoice body : Silent (Llm.firstChoice body).
Proof.
unfold Llm.firstChoice. apply Silent_bind; [apply Silent_ask|]. intros env.
destruct (decodeChoices _ _) as [[|c r]|msg]; apply Silent_ret.
Qed.

Lemma Silent_statusError o status body : Silent (Llm.statusError o status body).
Proof.
unfold Llm.statusError. apply Silent_bind; [apply Silent_ask|]. intros env.
destruct (decodeErrorMessage _ _); [|apply Silent_ret].
destruct (negb _); [|apply Silent_ret]. destruct (Nat.eqb _ _); apply Silent_ret.
Qed.

Lemma Silent_followUpStatusError status body : Silent (Llm.followUpStatusError status body).
Proof.
unfold Llm.followUpStatusError. apply Silent_bind; [apply Silent_ask|]. intros env.
destruct (decodeErrorMessage _ _); [|apply Silent_ret].
destruct (negb _); apply Silent_ret.
Qed.

Lemma Silent_systemPromptOf file fallback : Silent (Llm.systemPromptOf file fallback).
Proof.
unfold Llm.systemPromptOf. apply Silent_bind; [apply Silent_ask|]. intros env.
destruct (_ =? _); apply Silent_ret.
Qed.

#[export] Hint Resolve Silent_ret Silent_ask Silent_history Silent_Now Silent_ArchiveExists
  Silent_ReadFile Silent_WalkFiles Silent_Glob Silent_readSections Silent_excerpt
  Silent_excerpts Silent_collectedFiles Silent_loadConfigValue Silent_firstChoice
  Silent_statusError Silent_followUpStatusError Silent_systemPromptOf : silent.

(** The head constant of a term. *)
Ltac head_of t :=
  lazymatch t with
  | ?f _ => head_of f
  | _ => t
  end.

Ltac single :=
  intros; constructor; [ reflexivity | constructor ].

Lemma Forall_app_intro {A} (P : A -> Prop) (a b : list A) :
  Forall P a -> Forall P b -> Forall P (a ++ b)%list.
Proof. intros Ha Hb; apply Forall_app; split; assumption. Qed.

(** Proves [Emits Q m] for a property [Q] of traces that holds of the empty
    trace ([nilp]) and of concatenations ([appp]): the combinators are taken
    apart, matches are split, other functions are unfolded; [leaf] proves [Q]
    of the one event of a primitive, and [extra] is tried first. *)
Ltac emits_gen nilp appp leaf extra :=
  repeat first
  [ progress cbv beta zeta
  | extra
  | solve [auto 2]
  | apply (Emits_silent _ nilp); solve [auto with silent]
  | match goal with
    | |- Emits _ (ret _) => apply (Emits_ret _ nilp)
    | |- Emits _ (bind _ _) => apply (Emits_bind _ appp); [ | intro ]
    | |- Emits _ (forEach _ _) => apply (Emits_forEach _ nilp appp); intro
    | |- Emits _ (check _ _) => apply (Emits_check _ nilp appp)
    | |- Emits _ (checkAll _ _) =>
        apply (Emits_checkAll _ nilp appp); [ repeat (apply Forall_cons || apply Forall_nil) | ]
    | |- Emits _ (emit _) => apply Emits_emit; leaf
    | |- Emits _ (runProcess _ _ _) => apply Emits_runProcess; leaf
    | |- Emits _ (WriteFile _ _) => apply Emits_WriteFile; leaf
    | |- Emits _ (WriteString _ _) => apply Emits_WriteString; leaf
    | |- Emits _ (OpenAppend _) => apply Emits_OpenAppend; leaf
    | |- Emits _ (Create _) => apply Emits_Create; leaf
    | |- Emits _ (Remove _) => apply Emits_Remove; leaf
    | |- Emits _ MkdirAll => apply Emits_MkdirAll; leaf
    | |- Emits _ (LookPath _) => apply Emits_LookPath; leaf
    | |- Emits _ (Llm.Do _) => apply Emits_Do; leaf
    | |- Emits _ (DtQueryExecution _ _ _) => apply Emits_DtQueryExecution; leaf
    | |- Emits _ (DtGetLogs _ _ _ _) => apply Emits_DtGetLogs; leaf
    | |- Emits _ (match ?x with _ => _ end) => destruct x
    end
  | match goal with |- Emits _ ?m => let hd := head_of m in progress unfold hd end ].

(** The same for [Q := Forall P] with a boolean [P] that computes on every
    event [m] can add. *)
Ltac emits_forall_with extra :=
  emits_gen uconstr:(@Forall_nil _ _) uconstr:(Forall_app_intro _) ltac:(single) extra.

Ltac emits_forall := emits_forall_with fail.

Section ClosedLoop.

Variable Q : list Event -> Prop.
Hypothesis Q_nil : Q [].
Hypothesis Q_app : forall a b, Q a -> Q b -> Q (a ++ b)%list.
Variable file : string.
Hypothesis Q_print : forall c s, Q [EvPrint c s].
Hypothesis Q_post : forall req res, Q [EvPost req res].
Hypothesis Q_open : forall err, Q [EvOpen file err].
Hypothesis Q_append : forall c err, Q [EvAppend file c err].

(** The follow-up loop adds prints, posts, and opens and appends of the
    analysis file. *)
Lemma Emits_followUpLoop o green yellow lines hist :
  Emits Q (Llm.followUpLoop o file green yellow lines hist).
Proof.
revert hist.
induction lines as [|line rest IH]; intros hist; simpl.
- apply (Emits_bind _ Q_app); [apply Emits_emit, Q_print | intros _].
  apply (Emits_bind _ Q_app); [apply (Emits_silent _ Q_nil), Silent_ask | intros env].
  destruct (stdinErr env); apply (Emits_ret _ Q_nil).
- apply (Emits_bind _ Q_app); [apply Emits_emit, Q_print | intros _].
  apply (Emits_bind _ Q_app); [apply (Emits_silent _ Q_nil), Silent_ask | intros env].
  destruct (_ =? _); [apply IH|].
  destruct (Llm.isExit _ _).
  { apply (Emits_bind _ Q_app); [apply Emits_emit, Q_print | intros _].
    apply (Emits_ret _ Q_nil). }
  apply (Emits_bind _ Q_app); [apply Emits_emit, Q_print | intros _].
  apply (Emits_bind _ Q_app).
  { unfold Llm.askFollowUpQuestion.
    apply (Emits_bind _ Q_app); [apply (Emits_silent _ Q_nil), Silent_ask | intros env'].
    cbv zeta. destruct (newRequest _ _); [apply (Emits_ret _ Q_nil)|].
    apply (Emits_bind _ Q_app); [apply Emits_Do; intros; apply Q_post | intros resp].
    destruct resp; [apply (Emits_ret _ Q_nil)|].
    destruct (negb _).
    - apply (Emits_bind _ Q_app);
        [apply (Emits_silent _ Q_nil), Silent_followUpStatusError | intros ?].
      apply (Emits_ret _ Q_nil).
    - apply (Emits_bind _ Q_app);
        [apply (Emits_silent _ Q_nil), Silent_firstChoice | intros [?|?]];
      apply (Emits_ret _ Q_nil). }
  intros r. destruct (snd r).
  { apply (Emits_bind _ Q_app); [apply Emits_emit, Q_print | intros _]. apply IH. }
  cbv zeta.
  apply (Emits_bind _ Q_app); [apply Emits_emit, Q_print | intros _].
  apply (Emits_bind _ Q_app); [apply Emits_emit, Q_print | intros _].
  apply (Emits_bind _ Q_app); [apply Emits_emit, Q_print | intros _].
  apply (Emits_bind _ Q_app).
  { unfold appendToFile.
    apply (Emits_bind _ Q_app); [apply Emits_OpenAppend; intros; apply Q_open | intros e].
    destruct e; [apply (Emits_ret _ Q_nil)|].
    apply Emits_WriteString; intros; apply Q_append. }
  intros e.
  apply (Emits_bind _ Q_app); [|intros _; apply IH].
  destruct e; [apply Emits_emit, Q_print | apply (Emits_ret _ Q_nil)].
Qed.

Lemma Emits_interactiveFollowUp o hist green yellow :
  Emits Q (Llm.interactiveFollowUp o file hist green yellow).
Proof.
unfold Llm.interactiveFollowUp.
apply (Emits_bind _ Q_app); [apply (Emits_silent _ Q_nil), Silent_ask | intros env].
repeat (apply (Emits_bind _ Q_app); [apply Emits_emit, Q_print | intros _]).
apply Emits_followUpLoop.
Qed.

End ClosedLoop.

(** [emits_gen] for a whole run, follow-up loop included. *)
Ltac emits_run_gen nilp appp leaf extra :=
  emits_gen nilp appp leaf
    ltac:(idtac;
          first
          [ extra
          | match goal with
            | |- Emits _ (Llm.interactiveFollowUp _ _ _ _ _) =>
                apply (Emits_interactiveFollowUp _ nilp appp); leaf
            end ]).

(** [emits_forall] for a whole run, follow-up loop included. *)
Ltac emits_run :=
  emits_run_gen uconstr:(@Forall_nil _ _) uconstr:(Forall_app_intro _) ltac:(single) fail.

End TraceFacts.

(* ================================================================== *)
(** ** The cluster id *)
(* ================================================================== *)

Module ClusterID.
Import GoStr Sys Cmd TraceFacts Props.

(** C10. [getClusterID] is total and never returns an error: whatever the
    cluster CLI answers, the result is [("N/A", nil)] when the call fails or
    its trimmed output is empty, and the trimmed output with a nil error
    otherwise; the string is never empty. Both ways the source writes the
    function agree. *)
Theorem getClusterID_never_fails :
  forall (env : Env) (h : list Event) (fs : FS),
    let answer := proc env h "oc" ["get"; "clusterversion"; "version"; "-o"; "jsonpath={.spec.clusterID}"] in
    let id := match snd answer with
              | Some _ => "N/A"
              | None => if TrimSpace (fst answer) =? "" then "N/A" else TrimSpace (fst answer)
              end in
    val (getClusterID env h fs) = (id, None)
    /\ val (getClusterID' env h fs) = (id, None)
    /\ id <> "".
Proof.
intros env h fs answer id. subst id.
unfold getClusterID, getClusterID', runOCCommandWithOutput, defaultCommandRunner.
rewrite !bind_val. cbn [runProcess val emitted files]. fold answer.
destruct (snd answer) as [msg|]; cbn [ret val].
- repeat split; discriminate.
- destruct (TrimSpace (fst answer) =? "") eqn:E; cbn [ret val].
  + repeat split; discriminate.
  + repeat split. intros H. rewrite H in E. discriminate.
Qed.

End ClusterID.

(* ================================================================== *)
(** ** The API key *)
(* ================================================================== *)

Module ApiKey.
Import GoStr GoStrFacts Sys Cmd Props.

(** C9. [validateAPIKey] accepts a key exactly when it is not empty, equals
    its own trimmed form (no white-space rune starts or ends it) and has at
    least 10 bytes; nothing else about the key is looked at, so no prefix or
    format is required; a rejected key gets an error that names the check
    that failed. *)
Theorem validateAPIKey_accepts_iff :
  forall apiKey : string,
    (validateAPIKey apiKey = None <->
     apiKey <> "" /\ TrimSpace apiKey = apiKey /\ 10 <= len apiKey)
    /\ (TrimSpace apiKey = apiKey <->
        stripPrefixOf spaceRunes apiKey = None /\ stripSuffixOf spaceRunes apiKey = None)
    /\ match validateAPIKey apiKey with
       | None => True
       | Some msg =>
           (apiKey = "" /\ msg = "API key is empty")
           \/ (apiKey <> "" /\ TrimSpace apiKey <> apiKey
               /\ HasPrefix msg "API key contains leading or trailing whitespace" = true)
           \/ (apiKey <> "" /\ TrimSpace apiKey = apiKey /\ len apiKey < 10
               /\ HasPrefix msg "API key appears too short" = true)
       end.
Proof.
intros apiKey. split; [|split; [apply TrimSpace_fixed|]].
- unfold validateAPIKey. destruct (String.eqb_spec apiKey "") as [E|E].
  + split; [discriminate | intros [H _]; contradiction].
  + destruct (String.eqb_spec (TrimSpace apiKey) apiKey) as [T|T]; cbn [negb].
    * destruct (Nat.ltb_spec (len apiKey) 10) as [L|L].
      -- split; [discriminate | intros (_ & _ & H); lia].
      -- split; [intros _; repeat split; assumption | reflexivity].
    * split; [discriminate | intros (_ & H & _); contradiction].
- unfold validateAPIKey. destruct (String.eqb_spec apiKey "") as [E|E].
  + left; split; [assumption | reflexivity].
  + destruct (String.eqb_spec (TrimSpace apiKey) apiKey) as [T|T]; cbn [negb].
    * destruct (Nat.ltb_spec (len apiKey) 10) as [L|L]; [|exact I].
      right; right. repeat split; try assumption.
    * right; left. repeat split; try assumption.
Qed.

End ApiKey.

(* ================================================================== *)
(** ** Which pods get their logs and description collected *)
(* ================================================================== *)

Module Pods.
Import GoStr GoStrFacts Sys Cmd TraceFacts Props.

Lemma openedWith_app pre a b :
  openedWith pre (a ++ b)%list = (openedWith pre a ++ openedWith pre b)%list.
Proof. apply flat_map_app. Qed.

Lemma openedWith_collectTo pre y g r title sub args file failed saved env h fs :
  openedWith pre (emitted (collectTo y g r title sub args file failed saved env h fs)) =
  if HasPrefix file pre then [file] else [].
Proof.
unfold collectTo, runOCCommand, defaultCommandExecutor, println, printf.
rewrite !bind_emitted, !bind_val. cbn [emit emitted val files].
unfold OpenAppend. destruct (fault env _ (OpOpen file)) as [msg|];
  cbn [emitted val files ret emit bind runProcess openedWith flat_map app];
  repeat match goal with
         | |- context [match snd ?x with _ => _ end] => destruct (snd x)
         end;
  unfold openedWith, HasPrefix; simpl;
  destruct (String.prefix pre file); reflexivity.
Qed.

Lemma openedWith_forEach {A} pre (body : A -> M unit) (f : A -> list string) l :
  (forall x env h fs, openedWith pre (emitted (body x env h fs)) = f x) ->
  forall env h fs, openedWith pre (emitted (forEach l body env h fs)) = flat_map f l.
Proof.
intros Hb. induction l as [|x l IH]; intros env h fs; cbn [forEach flat_map]; [reflexivity|].
rewrite bind_emitted, openedWith_app, Hb, IH. reflexivity.
Qed.

Lemma flat_map_singleton {A B} (f : A -> B) l : flat_map (fun x => [f x]) l = map f l.
Proof. induction l as [|x l IH]; simpl; [reflexivity | f_equal; exact IH]. Qed.

Lemma flat_map_nil {A B} (l : list A) : flat_map (fun _ => @nil B) l = [].
Proof. induction l as [|x l IH]; simpl; auto. Qed.

Lemma openedWith_podDetails_logs y g r pod env h fs :
  openedWith "03-pod-logs-" (emitted (Pruning.collectPodDetails y g r pod env h fs)) =
  ["03-pod-logs-" ++ pod ++ ".txt"].
Proof.
unfold Pruning.collectPodDetails. rewrite bind_emitted, openedWith_app, !openedWith_collectTo.
rewrite HasPrefix_append. reflexivity.
Qed.

Lemma openedWith_podDetails_describe y g r pod env h fs :
  openedWith "04-pod-describe-" (emitted (Pruning.collectPodDetails y g r pod env h fs)) =
  ["04-pod-describe-" ++ pod ++ ".txt"].
Proof.
unfold Pruning.collectPodDetails. rewrite bind_emitted, openedWith_app, !openedWith_collectTo.
rewrite HasPrefix_append. reflexivity.
Qed.

Lemma openedWith_jobDescribe_logs y g r job env h fs :
  openedWith "03-pod-logs-" (emitted (Pruning.collectJobDescribe y g r job env h fs)) = [].
Proof. unfold Pruning.collectJobDescribe. rewrite openedWith_collectTo. reflexivity. Qed.

Lemma openedWith_jobDescribe_describe y g r job env h fs :
  openedWith "04-pod-describe-" (emitted (Pruning.collectJobDescribe y g r job env h fs)) = [].
Proof. unfold Pruning.collectJobDescribe. rewrite openedWith_collectTo. reflexivity. Qed.

Ltac opened_targets evs targets :=
  subst evs;
  rewrite !openedWith_app, !openedWith_collectTo;
  rewrite (openedWith_forEach "03-pod-logs-" _ (fun pod => ["03-pod-logs-" ++ pod ++ ".txt"]) targets)
    by (intros; apply openedWith_podDetails_logs);
  rewrite (openedWith_forEach "04-pod-describe-" _ (fun pod => ["04-pod-describe-" ++ pod ++ ".txt"]) targets)
    by (intros; apply openedWith_podDetails_describe);
  try (rewrite (openedWith_forEach "03-pod-logs-" _ (fun _ => []))
         by (intros; apply openedWith_jobDescribe_logs);
       rewrite (openedWith_forEach "04-pod-describe-" _ (fun _ => []))
         by (intros; apply openedWith_jobDescribe_describe));
  rewrite !flat_map_singleton, ?flat_map_nil;
  cbn [openedWith flat_map app];
  change (HasPrefix "02-pods.txt" "03-pod-logs-") with false;
  change (HasPrefix "02-pods.yaml" "03-pod-logs-") with false;
  change (HasPrefix "02-pods.txt" "04-pod-describe-") with false;
  change (HasPrefix "02-pods.yaml" "04-pod-describe-") with false;
  cbn [app]; rewrite ?app_nil_r; split; reflexivity.


End Pods.

(* ================================================================== *)
(** ** The bundle directory and its files *)
(* ================================================================== *)

Module Bundle.
Import GoStr Sys Cmd TraceFacts Props.

Lemma completeLLM_outputDir o :
  Returns (fun r => outputDir (fst r) = outputDir o) (Llm.completeLLM o).
Proof.
unfold Llm.completeLLM. destruct (enableLLMAnalysis o); [|apply Returns_ret; reflexivity].
apply (Returns_bind (fun _ => True)); [apply Returns_any | intros env _].
apply (Returns_bind (fun o1 => outputDir o1 = outputDir o)).
{ destruct (llmAPIKey o =? ""); [|apply Returns_ret; reflexivity].
  apply (Returns_bind (fun _ => True)); [apply Returns_any | intros k _].
  destruct (negb _); [apply Returns_ret; reflexivity|].
  destruct (Llm.firstEnv _ _); apply Returns_ret; reflexivity. }
intros o1 H1.
apply (Returns_bind (fun o2 => outputDir o2 = outputDir o)).
{ destruct (llmBaseURL o1 =? ""); [|apply Returns_ret; assumption].
  apply (Returns_bind (fun _ => True)); [apply Returns_any | intros k _].
  destruct (negb _); [apply Returns_ret; assumption|].
  destruct (Llm.firstEnv _ _); [destruct (_ =? _)|]; apply Returns_ret; assumption. }
intros o2 H2.
apply (Returns_bind (fun o3 => outputDir o3 = outputDir o)).
{ destruct (negb (flagChanged _ _)); [|apply Returns_ret; assumption].
  apply (Returns_bind (fun _ => True)); [apply Returns_any | intros k _].
  destruct (negb _); [apply Returns_ret; assumption|].
  destruct (Llm.firstEnv _ _); apply Returns_ret; assumption. }
intros o3 H3.
destruct (llmAPIKey o3 =? "").
- cbv zeta. destruct (filter _ _); apply Returns_ret; assumption.
- destruct (validateAPIKey _); apply Returns_ret; assumption.
Qed.

Lemma completeOutputDir_default prefix o env h fs :
  outputDir o = "" -> existingDir o = "" ->
  val (Llm.completeOutputDir prefix o env h fs) =
  (setOutputDir o (prefix ++ "-diagnostics-" ++ formatTimestamp (now env h)), None).
Proof.
intros Ho He. unfold Llm.completeOutputDir. rewrite bind_val. cbn [ask val emitted files].
rewrite He, Ho. cbn [String.eqb negb]. rewrite bind_val. cbn [Now ret val emitted files].
rewrite app_nil_r. reflexivity.
Qed.

Lemma complete_default prefix o env h fs :
  outputDir o = "" -> existingDir o = "" ->
  outputDir (fst (val (Llm.complete prefix o env h fs))) =
  prefix ++ "-diagnostics-" ++ formatTimestamp (now env h).
Proof.
intros Ho He. unfold Llm.complete. rewrite bind_val.
rewrite (completeOutputDir_default prefix o env h fs Ho He). cbn [snd fst].
rewrite completeLLM_outputDir. reflexivity.
Qed.

Lemma pruning_complete_default o env h fs :
  outputDir o = "" ->
  outputDir (fst (val (Pruning.complete o env h fs))) =
  "pruning-cronjob-diagnostics-" ++ formatTimestamp (now env h).
Proof.
intros Ho. unfold Pruning.complete. rewrite bind_val. cbn [ask val emitted files].
rewrite bind_val. rewrite Ho. cbn [String.eqb]. rewrite bind_val. cbn [Now ret val emitted files].
rewrite app_nil_r.
destruct (enableLLMAnalysis _); [|reflexivity].
cbv zeta.
repeat match goal with |- context [if ?b then _ else _] => destruct b end; reflexivity.
Qed.

Lemma provisioning_complete_default o env h fs :
  outputDir o = "" -> existingDir o = "" ->
  outputDir (fst (val (Provisioning.complete o env h fs))) =
  "cluster-provisioning-failure-diagnostics-" ++ formatTimestamp (now env h).
Proof.
intros Ho He. unfold Provisioning.complete. rewrite bind_val.
rewrite (completeOutputDir_default _ o env h fs Ho He). cbn [snd fst].
cbv zeta. rewrite bind_val. rewrite completeLLM_outputDir.
destruct (negb _); [|reflexivity].
rewrite bind_val. destruct (snd _); [|reflexivity].
rewrite !bind_val. reflexivity.
Qed.

End Bundle.

(* ================================================================== *)
(** ** The summary *)
(* ================================================================== *)

Module Summary.
Import GoStr GoStrFacts Sys Cmd TraceFacts Props.

Lemma isCollected_iff n :
  isCollected n = true <-> Ext n = ".txt" \/ Ext n = ".yaml" \/ Ext n = ".json".
Proof.
unfold isCollected. cbv zeta. rewrite !orb_true_iff, !String.eqb_eq. tauto.
Qed.

Lemma listing_sorted names :
  Sorted (fun a b => String.leb a b = true) (listing names).
Proof.
unfold listing, sortStrings.
pose proof (StringSort.Sorted_sort (filter isCollected names)) as H.
induction H as [|a l Hl IH Hd]; constructor; [assumption|].
destruct Hd; constructor. assumption.
Qed.

Lemma listing_perm names : Permutation (listing names) (filter isCollected names).
Proof. symmetry. apply StringSort.Permuted_sort. Qed.

Lemma listing_in names n :
  In n (listing names) <-> In n names /\ isCollected n = true.
Proof.
rewrite <- filter_In. split; apply Permutation_in; [|symmetry]; apply listing_perm.
Qed.

Lemma collectedFiles_spec env h fs :
  val (collectedFiles env h fs) = filesListed env h fs
  /\ emitted (collectedFiles env h fs) = [] /\ files (collectedFiles env h fs) = fs.
Proof.
unfold collectedFiles, WalkFiles, filesListed. rewrite bind_val, bind_emitted, bind_files.
destruct (fault env h OpList); cbn [val emitted files ret app]; repeat split; reflexivity.
Qed.

(** Every summary starts the same way: a line on the terminal, the date, the
    list of files; [K] is the rest of the function. *)
Lemma summary_shape (P : string -> Event -> Prop) (K : Time -> string -> M error) green env h fs :
  (forall t files h', Exists (P files) (emitted (K t files env h' fs))) ->
  Exists (P (filesListed env (h ++ [EvPrint green ("Generating summary report..." ++ nl)]) fs))
    (emitted ((println green "Generating summary report..." ;;
               t <- Now ;; files <- collectedFiles ;; K t files) env h fs)).
Proof.
intros HK. rewrite !bind_emitted, ?bind_val.
cbn [println emit Now val emitted files].
apply Exists_app; right. apply Exists_app; right. rewrite !app_nil_r.
destruct (collectedFiles_spec env (h ++ [EvPrint green ("Generating summary report..." ++ nl)]) fs)
  as (Hv & He & Hf).
rewrite He, Hv, Hf. cbn [app]. apply HK.
Qed.

Lemma writeFile_summary head files rest env h fs :
  Exists (summaryWritten files rest)
    (emitted (writeFile "00-SUMMARY.txt"
                (head ++ filesCollectedTitle ++ files ++ keyInformationTitle ++ rest) env h fs)).
Proof.
unfold writeFile, WriteFile. destruct (fault env h _); cbn [emitted];
  constructor; eexists; eexists; reflexivity.
Qed.

Lemma Exists_weaken {A} (P Q : A -> Prop) l :
  (forall x, P x -> Q x) -> Exists P l -> Exists Q l.
Proof. intros H E; induction E; [left; auto | right; assumption]. Qed.

Ltac summary_body :=
  intros; rewrite ?bind_emitted;
  repeat (apply Exists_app; right);
  eapply Exists_weaken; [ | apply writeFile_summary ];
  cbv beta; intros ? ?; eauto.

Lemma summaries_written o clusterID green env h fs :
  Forall (fun summary =>
            Exists (fun e => exists rest,
                      summaryWritten
                        (filesListed env (h ++ [EvPrint green ("Generating summary report..." ++ nl)]) fs)
                        rest e)
              (emitted (summary env h fs)))
    (allSummaries o clusterID green).
Proof.
unfold allSummaries. repeat (apply Forall_cons || apply Forall_nil).
- unfold Pruning.generateSummary.
  apply (summary_shape (fun files e => exists rest, summaryWritten files rest e)). summary_body.
- unfold Monitoring.generateSummary.
  apply (summary_shape (fun files e => exists rest, summaryWritten files rest e)). summary_body.
- unfold Provisioning.generateSummaryForFailedInstall.
  apply (summary_shape (fun files e => exists rest, summaryWritten files rest e)). summary_body.
- unfold Provisioning.generateSummary.
  apply (summary_shape (fun files e => exists rest, summaryWritten files rest e)). summary_body.
- unfold DynatraceCmd.generateSummary.
  apply (summary_shape (fun files e => exists rest, summaryWritten files rest e)). summary_body.
Qed.

Lemma pruning_excerpts o clusterID green env h fs :
  Exists (fun e => exists h' tail,
            summaryWritten
              (filesListed env (h ++ [EvPrint green ("Generating summary report..." ++ nl)]) fs)
              (val (excerpts [("Jobs Status:", "01-jobs.txt"); ("Pods Status:", "02-pods.txt")] env h' fs)
               ++ tail) e)
    (emitted (Pruning.generateSummary o clusterID green env h fs)).
Proof.
unfold Pruning.generateSummary.
apply (summary_shape (fun files e => exists h' tail,
         summaryWritten files
           (val (excerpts [("Jobs Status:", "01-jobs.txt"); ("Pods Status:", "02-pods.txt")] env h' fs)
            ++ tail) e)).
intros t files h'. rewrite !bind_emitted, ?bind_val.
repeat (apply Exists_app; right).
eapply Exists_weaken; [ | apply writeFile_summary ].
cbv beta. intros e He. exists h'. eexists. exact He.
Qed.

Lemma monitoring_excerpts o clusterID green env h fs :
  Exists (fun e => exists h',
            summaryWritten
              (filesListed env (h ++ [EvPrint green ("Generating summary report..." ++ nl)]) fs)
              (val (excerpts [("Monitoring Cluster Operator Status:", "01-monitoring-clusteroperator.txt");
                              ("Prometheus CRDs (check for second monitoring stack):", "04-prometheus-crds.txt")]
                      env h' fs)) e)
    (emitted (Monitoring.generateSummary o clusterID green env h fs)).
Proof.
unfold Monitoring.generateSummary.
apply (summary_shape (fun files e => exists h',
         summaryWritten files
           (val (excerpts [("Monitoring Cluster Operator Status:", "01-monitoring-clusteroperator.txt");
                           ("Prometheus CRDs (check for second monitoring stack):", "04-prometheus-crds.txt")]
                   env h' fs)) e)).
intros t files h'. rewrite !bind_emitted, ?bind_val.
repeat (apply Exists_app; right).
eapply Exists_weaken; [ | apply writeFile_summary ].
cbv beta. intros e He. exists h'. exact He.
Qed.

Lemma append_assoc (a b c : string) : ((a ++ b) ++ c = a ++ b ++ c)%string.
Proof. induction a as [|x a IH]; cbn [append]; [reflexivity | rewrite IH; reflexivity]. Qed.

Lemma substring_middle (a b c : string) :
  substring (String.length a) (String.length b) (a ++ b ++ c) = b.
Proof.
induction a as [|x a IH]; cbn [String.length append substring]; [|exact IH].
apply prefix_correct. change (HasPrefix (b ++ c) b = true). apply HasPrefix_append.
Qed.

Lemma Contains_middle (a b c : string) : Contains (a ++ b ++ c) b = true.
Proof.
unfold Contains. destruct b as [|x b]; [reflexivity|].
destruct (index 0 (String x b) (a ++ String x b ++ c)) eqn:E; [reflexivity|].
exfalso. apply (index_correct3 0 (String.length a) _ _ E); [discriminate | apply Nat.le_0_l|].
apply substring_middle.
Qed.

(** C5, as the claim reads: the summary lists the collected files of the
    directory, whatever happens. This fails when [filepath.Walk] returns an
    error: the list is then left empty, although [09-notes.txt] is there. *)
Lemma unlistable_directory_lists_nothing :
  ~ (forall (env : Env) (fs : FS),
       Exists (fun e => exists rest, summaryWritten (listingText (listing (map fst fs))) rest e)
         (emitted (Pruning.generateSummary (Demo.options "bundle" "") "id" Green env [] fs))).
Proof.
intros H. specialize (H (unlistable Demo.env) [("09-notes.txt", "x")]).
apply Exists_exists in H. destruct H as (e & Hin & rest & head & err & He).
subst e.
assert (C : forall content err',
          In (EvWriteFile "00-SUMMARY.txt" content err')
             (emitted (Pruning.generateSummary (Demo.options "bundle" "") "id" Green
                         (unlistable Demo.env) [] [("09-notes.txt", "x")])) ->
          Contains content "09-notes.txt" = false).
{ intros content err' Hc. vm_compute in Hc.
  repeat (destruct Hc as [Hc|Hc]; [try discriminate Hc|]); [|contradiction].
  injection Hc as <- _. vm_compute. reflexivity. }
specialize (C _ _ Hin).
change (listingText (listing (map fst [("09-notes.txt", "x")]))) with ("09-notes.txt" ++ nl) in C.
assert (T : Contains (head ++ filesCollectedTitle ++ ("09-notes.txt" ++ nl) ++ keyInformationTitle ++ rest)
              "09-notes.txt" = true).
{ replace (head ++ filesCollectedTitle ++ ("09-notes.txt" ++ nl) ++ keyInformationTitle ++ rest)
    with ((head ++ filesCollectedTitle) ++ "09-notes.txt" ++ (nl ++ keyInformationTitle ++ rest))
    by (rewrite !append_assoc; reflexivity).
  apply Contains_middle. }
rewrite T in C. discriminate C.
Qed.

(** C5, amended. A file is collected exactly when its extension is [.txt],
    [.yaml] or [.json]; the listing of a directory is the sorted permutation
    of its collected names, so it holds only names that are in the directory
    when the summary is made; every summary function writes [00-SUMMARY.txt]
    with, between the title of the list and the title of the key information,
    one line for each name of the listing when the directory can be walked,
    and nothing when it cannot; and the key information of the pruning and of
    the monitoring command starts with the excerpts of their key files. *)
Theorem summary_lists_collected_files :
  forall (o : Options) (clusterID : string) (green : Color) (env : Env) (h : list Event) (fs : FS),
    let files := filesListed env (h ++ [EvPrint green ("Generating summary report..." ++ nl)]) fs in
    (forall n, isCollected n = true <-> Ext n = ".txt" \/ Ext n = ".yaml" \/ Ext n = ".json")
    /\ (forall names,
          Sorted (fun a b => String.leb a b = true) (listing names)
          /\ Permutation (listing names) (filter isCollected names))
    /\ (forall n, In n (listing (map fst fs)) <-> In n (map fst fs) /\ isCollected n = true)
    /\ Forall (fun summary =>
                 Exists (fun e => exists rest, summaryWritten files rest e)
                   (emitted (summary env h fs)))
          (allSummaries o clusterID green)
    /\ Exists (fun e => exists h' tail,
                 summaryWritten files
                   (val (excerpts [("Jobs Status:", "01-jobs.txt"); ("Pods Status:", "02-pods.txt")]
                           env h' fs) ++ tail) e)
          (emitted (Pruning.generateSummary o clusterID green env h fs))
    /\ Exists (fun e => exists h',
                 summaryWritten files
                   (val (excerpts
                           [("Monitoring Cluster Operator Status:", "01-monitoring-clusteroperator.txt");
                            ("Prometheus CRDs (check for second monitoring stack):",
                             "04-prometheus-crds.txt")]
                           env h' fs)) e)
          (emitted (Monitoring.generateSummary o clusterID green env h fs)).
Proof.
intros o clusterID green env h fs files. subst files.
split; [exact isCollected_iff|].
split; [intros names; split; [apply listing_sorted | apply listing_perm]|].
split; [intros n; apply listing_in|].
split; [apply summaries_written|].
split; [apply pruning_excerpts | apply monitoring_excerpts].
Qed.

End Summary.

(* ================================================================== *)
(** ** The analysis pass *)
(* ================================================================== *)

Module Analysis.
Import GoStr GoStrFacts Sys Cmd Llm TraceFacts Props.

Lemma systemPromptOf_spec file fallback env h fs :
  val (systemPromptOf file fallback env h fs) = promptOf env file fallback
  /\ emitted (systemPromptOf file fallback env h fs) = []
  /\ files (systemPromptOf file fallback env h fs) = fs.
Proof.
unfold systemPromptOf, promptOf. rewrite bind_val, bind_emitted, bind_files.
cbn [ask val emitted files]. destruct (_ =? _); repeat split; reflexivity.
Qed.

Lemma firstChoice_spec body env h fs :
  val (firstChoice body env h fs) =
    match decodeChoices (json env) body with
    | inr msg => inr ("failed to decode response: " ++ msg)
    | inl [] => inr "no response from LLM"
    | inl (c :: _) => inl c
    end
  /\ emitted (firstChoice body env h fs) = [].
Proof.
unfold firstChoice. rewrite bind_val, bind_emitted. cbn [ask val emitted files].
destruct (decodeChoices _ _) as [[|c l]|msg]; split; reflexivity.
Qed.

Lemma statusError_silent o status body env h fs : emitted (statusError o status body env h fs) = [].
Proof. apply Silent_statusError. Qed.

(** The first exchange of the later revisions, with the request as
    [chatRequest] builds it. *)
Lemma analyzeWithHistory_spec file fallback intro o content env h fs :
  let r := analyzeWithHistory file fallback intro o content env h fs in
  let msgs := initialMessages (promptOf env file fallback) intro content in
  let req := chatRequest (endpointURL (llmBaseURL o)) (cleanKey (llmAPIKey o)) (llmModel o) msgs in
  match newRequest env (endpointURL (llmBaseURL o)) with
  | Some _ => emitted r = [] /\ snd (val r) <> None
  | None =>
      emitted r = [EvPost req (http env h req)]
      /\ match http env h req with
         | HttpFailed _ => snd (val r) <> None
         | HttpResponse status body =>
             if Nat.eqb status 200 then
               match decodeChoices (json env) body with
               | inl (c :: _) => val r = (c, (msgs ++ [mkMessage "assistant" c])%list, None)
               | inl [] => snd (val r) = Some "no response from LLM"
               | inr _ => snd (val r) <> None
               end
             else snd (val r) <> None
         end
  end.
Proof.
cbv zeta. unfold analyzeWithHistory. cbv zeta.
rewrite !bind_val, !bind_emitted. cbn [ask val emitted files].
destruct (systemPromptOf_spec file fallback env (h ++ []) fs) as (Hv & He & Hf).
rewrite Hv, He, Hf, !app_nil_r. cbn [app].
set (req := chatRequest _ _ _ _).
destruct (newRequest env _); [split; [reflexivity | discriminate]|].
rewrite !bind_val, !bind_emitted. unfold Do. cbn [val emitted files].
destruct (http env h req) as [msg|status body].
- cbn [ret val emitted app snd fst errorf]. split; [reflexivity | discriminate].
- destruct (Nat.eqb status 200); cbn [negb].
  + rewrite !bind_val, !bind_emitted.
    match goal with |- context [firstChoice body env ?hh ?ff] =>
      destruct (firstChoice_spec body env hh ff) as (Hc & Hce) end.
    rewrite Hc, Hce.
    destruct (decodeChoices (json env) body) as [[|c l]|m];
      cbn [ret val emitted app snd fst errorf]; split; try reflexivity; discriminate.
  + rewrite !bind_val, !bind_emitted, !statusError_silent.
    cbn [ret val emitted app snd fst errorf]. split; [reflexivity | discriminate].
Qed.

Lemma analyzeWithLLMv1_spec file fallback intro o content env h fs :
  let r := analyzeWithLLMv1 file fallback intro o content env h fs in
  let msgs := initialMessages (promptOf env file fallback) intro content in
  let req := chatRequest (llmBaseURL o ++ "/chat/completions") (llmAPIKey o) (llmModel o) msgs in
  match newRequest env (llmBaseURL o ++ "/chat/completions") with
  | Some _ => emitted r = [] /\ snd (val r) <> None
  | None =>
      emitted r = [EvPost req (http env h req)]
      /\ match http env h req with
         | HttpFailed _ => snd (val r) <> None
         | HttpResponse status body =>
             if Nat.eqb status 200 then
               match decodeChoices (json env) body with
               | inl (c :: _) => val r = (c, None)
               | inl [] => snd (val r) = Some "no response from LLM"
               | inr _ => snd (val r) <> None
               end
             else snd (val r) <> None
         end
  end.
Proof.
cbv zeta. unfold analyzeWithLLMv1. cbv zeta.
rewrite !bind_val, !bind_emitted. cbn [ask val emitted files].
destruct (systemPromptOf_spec file fallback env (h ++ []) fs) as (Hv & He & Hf).
rewrite Hv, He, Hf, !app_nil_r. cbn [app].
set (req := chatRequest _ _ _ _).
destruct (newRequest env _); [split; [reflexivity | discriminate]|].
rewrite !bind_val, !bind_emitted. unfold Do. cbn [val emitted files].
destruct (http env h req) as [msg|status body].
- cbn [ret val emitted app snd fst errorf]. split; [reflexivity | discriminate].
- destruct (Nat.eqb status 200); cbn [negb].
  + rewrite !bind_val, !bind_emitted.
    match goal with |- context [firstChoice body env ?hh ?ff] =>
      destruct (firstChoice_spec body env hh ff) as (Hc & Hce) end.
    rewrite Hc, Hce.
    destruct (decodeChoices (json env) body) as [[|c l]|m];
      cbn [ret val emitted app snd fst errorf]; split; try reflexivity; discriminate.
  + cbn [ret val emitted app snd fst errorf]. split; [reflexivity | discriminate].
Qed.

Lemma analyzeWithLLMv1_exchange file fallback intro o content env h fs :
  OneExchange env h (llmBaseURL o ++ "/chat/completions") (llmAPIKey o) (llmModel o)
    [mkMessage "system" (promptOf env file fallback); mkMessage "user" (intro ++ content)]
    (analyzeWithLLMv1 file fallback intro o content env h fs).
Proof.
pose proof (analyzeWithLLMv1_spec file fallback intro o content env h fs) as S.
cbv zeta in S. unfold OneExchange. cbv zeta.
change (mkChatRequest "POST" (llmBaseURL o ++ "/chat/completions") "application/json"
          ("Bearer " ++ llmAPIKey o) (llmModel o)
          [mkMessage "system" (promptOf env file fallback); mkMessage "user" (intro ++ content)]
          "0.3" 4000)
  with (chatRequest (llmBaseURL o ++ "/chat/completions") (llmAPIKey o) (llmModel o)
          (initialMessages (promptOf env file fallback) intro content)).
set (req := chatRequest _ _ _ _) in *.
destruct (newRequest env _).
- destruct S as (Se & Sv). rewrite Se. split; [reflexivity | exact Sv].
- destruct S as (Se & Sv). rewrite Se. split; [reflexivity | exact Sv].
Qed.

Lemma analyzeWithLLMv2_exchange file fallback intro o content env h fs :
  OneExchange env h (TrimSuffix (llmBaseURL o) "/" ++ "/chat/completions")
    (cleanKey (llmAPIKey o)) (llmModel o)
    [mkMessage "system" (promptOf env file fallback); mkMessage "user" (intro ++ content)]
    (analyzeWithLLMv2 file fallback intro o content env h fs).
Proof.
pose proof (analyzeWithHistory_spec file fallback intro o content env h fs) as S.
cbv zeta in S. unfold OneExchange, analyzeWithLLMv2. cbv zeta.
rewrite bind_val, bind_emitted. cbn [ret val emitted]. rewrite app_nil_r.
change (mkChatRequest "POST" (TrimSuffix (llmBaseURL o) "/" ++ "/chat/completions")
          "application/json" ("Bearer " ++ cleanKey (llmAPIKey o)) (llmModel o)
          [mkMessage "system" (promptOf env file fallback); mkMessage "user" (intro ++ content)]
          "0.3" 4000)
  with (chatRequest (endpointURL (llmBaseURL o)) (cleanKey (llmAPIKey o)) (llmModel o)
          (initialMessages (promptOf env file fallback) intro content)).
change (TrimSuffix (llmBaseURL o) "/" ++ "/chat/completions") with (endpointURL (llmBaseURL o)).
set (req := chatRequest _ _ _ _) in *.
set (r := analyzeWithHistory file fallback intro o content env h fs) in *.
destruct (newRequest env _).
- destruct S as (Se & Sv). rewrite Se. split; [reflexivity | exact Sv].
- destruct S as (Se & Sv). rewrite Se. split; [reflexivity|].
  destruct (http env h req) as [msg|status body]; [exact Sv|].
  destruct (Nat.eqb status 200); [|exact Sv].
  destruct (decodeChoices (json env) body) as [[|c l]|m]; try exact Sv.
  rewrite Sv. reflexivity.
Qed.

(** C2, as the claim reads: every analysis pass posts exactly once, to the
    base URL followed by [/chat/completions]. This fails in the monitoring
    command for a base URL that ends in a slash: the slash is removed
    first. *)
Lemma trailing_slash_is_trimmed :
  ~ (forall (o : Options) (content : string) (env : Env) (h : list Event) (fs : FS),
       exists req res,
         posts (emitted (Monitoring.analyzeWithLLM o content env h fs)) = [(req, res)]
         /\ reqURL req = llmBaseURL o ++ "/chat/completions").
Proof.
intros H.
destruct (H (Demo.options "bundle" "https://llm.example/v1/") "content" Demo.env [] [])
  as (req & res & Hp & Hu).
vm_compute in Hp. injection Hp as <- _. vm_compute in Hu. discriminate Hu.
Qed.

(** C2, amended. The analysis pass is one exchange with the endpoint. The
    URL is the base URL followed by [/chat/completions] in
    [pruningcronjoberrorsre.go]; the monitoring command and the later
    revision of the pruning command first remove one trailing slash from the
    base URL, and clean the key. When [http.NewRequest] accepts the URL there
    is exactly one POST, whose messages are the system prompt of the command
    and one user message, the introduction followed by the diagnostic
    content; the result is the first choice of an answer with status 200,
    and an error when the request fails, the status is not 200, the body does
    not decode or has no choice. When the URL is not accepted there is no
    POST and the result is an error. *)
Theorem analysis_is_one_exchange :
  forall (o : Options) (content : string) (env : Env) (h : list Event) (fs : FS),
    OneExchange env h (llmBaseURL o ++ "/chat/completions") (llmAPIKey o) (llmModel o)
      [mkMessage "system" (promptOf env Pruning.promptFile Pruning.fallbackPrompt);
       mkMessage "user" (Pruning.intro ++ content)]
      (Pruning.analyzeWithLLM o content env h fs)
    /\ OneExchange env h (TrimSuffix (llmBaseURL o) "/" ++ "/chat/completions")
         (cleanKey (llmAPIKey o)) (llmModel o)
         [mkMessage "system" (promptOf env Monitoring.promptFile Monitoring.fallbackPrompt);
          mkMessage "user" (Monitoring.intro ++ content)]
         (Monitoring.analyzeWithLLM o content env h fs)
    /\ OneExchange env h (TrimSuffix (llmBaseURL o) "/" ++ "/chat/completions")
         (cleanKey (llmAPIKey o)) (llmModel o)
         [mkMessage "system" (promptOf env Pruning.promptFile Pruning.fallbackPrompt);
          mkMessage "user" (Pruning.intro ++ content)]
         (Pruning.analyzeWithLLM' o content env h fs).
Proof.
intros o content env h fs. split; [|split].
- apply analyzeWithLLMv1_exchange.
- apply analyzeWithLLMv2_exchange.
- apply analyzeWithLLMv2_exchange.
Qed.

End Analysis.

(* ================================================================== *)
(** ** The diagnostic content *)
(* ================================================================== *)

Module Content.
Import GoStr GoStrFacts Sys Cmd Llm TraceFacts Props.

Lemma ReadFile_spec name env h fs :
  val (ReadFile name env h fs) = readable env h fs name
  /\ emitted (ReadFile name env h fs) = [] /\ files (ReadFile name env h fs) = fs.
Proof. unfold ReadFile, readable. destruct (fault env h _); repeat split; reflexivity. Qed.

Lemma readSections_spec shape names env h fs :
  val (readSections shape names env h fs) = sectionsOf env h fs shape names
  /\ emitted (readSections shape names env h fs) = []
  /\ files (readSections shape names env h fs) = fs.
Proof.
induction names as [|name names IH]; [repeat split; reflexivity|].
cbn [readSections sectionsOf fold_right].
rewrite !bind_val, !bind_emitted, !bind_files.
destruct (ReadFile_spec name env h fs) as (Hv & He & Hf).
rewrite Hv, He, Hf, !app_nil_r.
destruct IH as (IHv & IHe & IHf). rewrite IHv, IHe, IHf.
cbn [ret val emitted files app]. repeat split; reflexivity.
Qed.

Lemma Glob_spec pre suf env h fs :
  val (Glob pre suf env h fs) = globbed env h fs pre suf
  /\ emitted (Glob pre suf env h fs) = [] /\ files (Glob pre suf env h fs) = fs.
Proof. unfold Glob, globbed. destruct (fault env h _); repeat split; reflexivity. Qed.

Lemma bind_silent_val {A B} (m : M A) (k : A -> M B) env h fs :
  Silent m -> val (bind m k env h fs) = val (k (val (m env h fs)) env h fs).
Proof.
intros Hm. rewrite bind_val. destruct (Hm env h fs) as [-> ->]. rewrite app_nil_r. reflexivity.
Qed.

Lemma readSections_val shape names env h fs :
  val (readSections shape names env h fs) = sectionsOf env h fs shape names.
Proof. apply readSections_spec. Qed.

Lemma Glob_val pre suf env h fs : val (Glob pre suf env h fs) = globbed env h fs pre suf.
Proof. apply Glob_spec. Qed.

Lemma pruning_content o env h fs :
  val (Pruning.extractAndReadDiagnostics o env h fs) =
  (sectionsOf env h fs whole Pruning.priorityFiles
   ++ sectionsOf env h fs (fun _ => truncated 10000)
        (firstFive (globbed env h fs "03-pod-logs-" ".txt"))
   ++ sectionsOf env h fs whole (firstFive (globbed env h fs "04-pod-describe-" ".txt")),
   None).
Proof.
unfold Pruning.extractAndReadDiagnostics.
repeat (rewrite bind_silent_val by auto with silent).
rewrite !readSections_val, !Glob_val. reflexivity.
Qed.

Lemma provisioning_content o env h fs :
  val (Provisioning.extractAndReadDiagnostics o env h fs) =
  (sectionsOf env h fs Provisioning.priorityContent Provisioning.priorityFiles
   ++ sectionsOf env h fs (fun _ => truncated 10000) ["02-cluster-info-ocm.json"],
   None).
Proof.
unfold Provisioning.extractAndReadDiagnostics.
repeat (rewrite bind_silent_val by auto with silent).
rewrite !readSections_val. reflexivity.
Qed.

Lemma Sorted_firstn {A} (R : A -> A -> Prop) n l : Sorted R l -> Sorted R (firstn n l).
Proof.
intros H; revert n; induction H as [|a l Hl IH Hd]; intros [|n]; cbn [firstn]; try constructor.
- apply IH.
- destruct Hd; destruct n; cbn [firstn]; constructor; assumption.
Qed.

Lemma firstFive_short l : length (firstFive l) <= 5.
Proof. unfold firstFive. apply firstn_le_length. Qed.

Lemma firstFive_sorted l : Sorted (fun a b => String.leb a b = true) (firstFive l).
Proof.
unfold firstFive, sortStrings. apply Sorted_firstn.
pose proof (StringSort.Sorted_sort l) as H.
induction H as [|a l' Hl IH Hd]; constructor; [assumption|].
destruct Hd; constructor; assumption.
Qed.

Lemma In_firstn {A} (x : A) n l : In x (firstn n l) -> In x l.
Proof.
revert l; induction n as [|n IH]; intros [|a l]; cbn [firstn In]; try tauto.
intros [H|H]; [left; exact H | right; apply IH; exact H].
Qed.

Lemma firstFive_incl l name : In name (firstFive l) -> In name l.
Proof.
unfold firstFive, sortStrings. intros H. apply In_firstn in H.
apply (Permutation_in _ (Permutation_sym (StringSort.Permuted_sort l))). exact H.
Qed.

Lemma truncated_long n data :
  n < len data ->
  truncated n data = take n data ++ nl ++ "... (truncated)" /\ len (take n data) = n.
Proof.
intros H. unfold truncated. apply Nat.ltb_lt in H as H'. rewrite H'.
split; [reflexivity|]. rewrite length_take. lia.
Qed.

Lemma truncated_short n data : len data <= n -> truncated n data = data.
Proof.
intros H. unfold truncated. destruct (Nat.ltb_spec n (len data)); [lia | reflexivity].
Qed.

Lemma both_ends (n m : nat) data :
  n <= m -> m < len data ->
  len (take n data) = n /\ len (drop (len data - n) data) = n.
Proof. intros Hn Hm. rewrite length_take, length_drop. lia. Qed.

Lemma install_logs_long data :
  20000 < len data ->
  Provisioning.priorityContent "01-install-logs.txt" data =
    take 10000 data ++ nl ++ nl ++ "... (middle section truncated) ..." ++ nl ++ nl
    ++ drop (len data - 10000) data
  /\ len (take 10000 data) = 10000 /\ len (drop (len data - 10000) data) = 10000.
Proof.
intros H. unfold Provisioning.priorityContent. apply Nat.ltb_lt in H as H'.
rewrite H'. change ("01-install-logs.txt" =? "01-install-logs.txt") with true. cbn [andb].
split; [reflexivity|]. apply (both_ends 10000 20000); [|exact H].
apply Nat.leb_le. vm_compute. reflexivity.
Qed.

Lemma firstFive_prefix l :
  exists rest,
    Permutation (firstFive l ++ rest) l
    /\ Sorted (fun a b => String.leb a b = true) (firstFive l ++ rest).
Proof.
exists (skipn 5 (sortStrings l)). unfold firstFive. rewrite firstn_skipn. split.
- symmetry. apply StringSort.Permuted_sort.
- unfold sortStrings. pose proof (StringSort.Sorted_sort l) as H.
  induction H as [|a l' Hl IH Hd]; constructor; [assumption|].
  destruct Hd; constructor; assumption.
Qed.


End Content.

(* ================================================================== *)
(** ** The follow-up loop *)
(* ================================================================== *)

Module FollowUp.
Import GoStr GoStrFacts Sys Cmd Llm TraceFacts Props Analysis.

Lemma posts_app a b : posts (a ++ b) = (posts a ++ posts b)%list.
Proof. apply flat_map_app. Qed.

Lemma followUpStatusError_silent status body env h fs :
  emitted (followUpStatusError status body env h fs) = [].
Proof. apply Silent_followUpStatusError. Qed.

(** One question: no request and an error, or one request with the
    conversation and the question, whose answer decides the result. *)
Lemma askFollowUpQuestion_spec o hist q env h fs :
  let r := askFollowUpQuestion o hist q env h fs in
  let req := chatRequest (endpointURL (llmBaseURL o)) (cleanKey (llmAPIKey o)) (llmModel o)
               (hist ++ [mkMessage "user" q]) in
  (emitted r = [] /\ snd (val r) <> None)
  \/ (emitted r = [EvPost req (http env h req)]
      /\ match answerOf env (http env h req) with
         | Some a =>
             val r = (a, (hist ++ [mkMessage "user" q; mkMessage "assistant" a])%list, None)
         | None => snd (val r) <> None
         end).
Proof.
cbv zeta. unfold askFollowUpQuestion. cbv zeta.
rewrite !bind_val, !bind_emitted. cbn [ask val emitted files]. rewrite !app_nil_r. cbn [app].
destruct (newRequest env _); [left; split; [reflexivity | discriminate]|].
right. rewrite !bind_val, !bind_emitted. unfold Do. cbn [val emitted files].
unfold answerOf.
destruct (http env h _) as [msg|status body].
- cbn [ret val emitted app snd fst errorf]. split; [reflexivity | discriminate].
- destruct (Nat.eqb status 200); cbn [negb].
  + rewrite !bind_val, !bind_emitted.
    match goal with |- context [firstChoice body env ?hh ?ff] =>
      destruct (firstChoice_spec body env hh ff) as (Hc & Hce) end.
    rewrite Hc, Hce.
    destruct (decodeChoices (json env) body) as [[|c l]|m];
      cbn [ret val emitted app snd fst errorf]; split; try reflexivity; try discriminate.
    rewrite <- app_assoc. reflexivity.
  + rewrite !bind_val, !bind_emitted, !followUpStatusError_silent.
    cbn [ret val emitted app snd fst errorf]. split; [reflexivity | discriminate].
Qed.

Lemma posts_appendToFile name content env h fs : posts (emitted (appendToFile name content env h fs)) = [].
Proof.
unfold appendToFile, OpenAppend, WriteString. rewrite bind_emitted.
destruct (fault env h (OpOpen name)); cbn [val emitted files ret app posts flat_map]; [reflexivity|].
destruct (fault env _ (OpWrite name)); reflexivity.
Qed.

Lemma followUpLoop_follows o file green yellow lines :
  forall hist env h fs,
    follows env hist (posts (emitted (followUpLoop o file green yellow lines hist env h fs))).
Proof.
induction lines as [|line rest IH]; intros hist env h fs; cbn [followUpLoop].
- rewrite !bind_emitted. cbn [printf emit ask val emitted files].
  destruct (stdinErr env); exact I.
- rewrite !bind_emitted, ?bind_val. cbn [printf emit ask val emitted files].
  rewrite !posts_app. cbn [posts flat_map app]. cbv zeta.
  destruct (TrimSpace line =? ""); [apply IH|].
  destruct (isExit env (TrimSpace line)); [exact I|].
  rewrite !bind_emitted, ?bind_val. cbn [println emit val emitted files].
  rewrite !posts_app. cbn [posts flat_map app].
  match goal with |- context [askFollowUpQuestion o hist (TrimSpace line) env ?hh ?ff] =>
    pose proof (askFollowUpQuestion_spec o hist (TrimSpace line) env hh ff) as S;
    set (r := askFollowUpQuestion o hist (TrimSpace line) env hh ff) in *
  end.
  cbv zeta in S. destruct S as [(Se & Sv)|(Se & Sv)].
  + rewrite Se. cbn [posts flat_map app].
    destruct (snd (val r)) as [msg|]; [|contradiction].
    rewrite !bind_emitted. rewrite !posts_app. cbn [printf emit val emitted posts flat_map app].
    apply IH.
  + rewrite Se. cbn [posts flat_map app follows reqMessages chatRequest].
    exists (TrimSpace line). split; [reflexivity|].
    destruct (answerOf env _) as [a|].
    * rewrite Sv. cbn [snd fst].
      rewrite !bind_emitted. rewrite !posts_app, posts_appendToFile.
      cbn [printf println emit val emitted posts flat_map app].
      match goal with |- context [emitted (match ?e with _ => _ end ?x ?y ?z)] =>
        destruct e; cbn [printf emit ret emitted posts flat_map app] end; apply IH.
    * destruct (snd (val r)) as [msg|]; [|contradiction].
      rewrite !bind_emitted. rewrite !posts_app. cbn [printf emit val emitted posts flat_map app].
      apply IH.
Qed.

(** The first exchange, as a question of the conversation. *)
Lemma analyzeWithHistory_first file fallback intro o content env h fs :
  let r := analyzeWithHistory file fallback intro o content env h fs in
  let msgs := initialMessages (promptOf env file fallback) intro content in
  let req := chatRequest (endpointURL (llmBaseURL o)) (cleanKey (llmAPIKey o)) (llmModel o) msgs in
  (emitted r = [] /\ snd (val r) <> None)
  \/ (emitted r = [EvPost req (http env h req)]
      /\ match answerOf env (http env h req) with
         | Some a => val r = (a, (msgs ++ [mkMessage "assistant" a])%list, None)
         | None => snd (val r) <> None
         end).
Proof.
pose proof (analyzeWithHistory_spec file fallback intro o content env h fs) as S.
cbv zeta in *. set (req := chatRequest _ _ _ _) in *.
destruct (newRequest env _); [left; exact S | right].
destruct S as (Se & Sv). split; [exact Se|]. unfold answerOf.
destruct (http env h req) as [msg|status body]; [exact Sv|].
destruct (Nat.eqb status 200); [|exact Sv].
destruct (decodeChoices (json env) body) as [[|c l]|m]; try exact Sv.
rewrite Sv. discriminate.
Qed.

Lemma interactiveFollowUp_follows o file hist green yellow env h fs :
  follows env hist (posts (emitted (interactiveFollowUp o file hist green yellow env h fs))).
Proof.
unfold interactiveFollowUp. rewrite !bind_emitted, ?bind_val.
cbn [println emit ask val emitted files]. rewrite !posts_app. cbn [posts flat_map app].
apply followUpLoop_follows.
Qed.

Lemma posts_saveAnalysis file analysis env h fs :
  posts (emitted (saveAnalysis file analysis env h fs)) = [].
Proof.
unfold saveAnalysis, writeFile, WriteFile. rewrite !bind_emitted, ?bind_val.
cbn [println emit val emitted files]. rewrite !posts_app. cbn [posts flat_map app].
destruct (fault env _ _); reflexivity.
Qed.

(** The requests of an analysis step that starts a conversation. *)
Lemma analysis_conversation file fallback intro o
  (extract : M (string * error)) (analysisFile : string) (K : error -> M unit) env h fs :
  Silent extract ->
  (forall e env h fs, posts (emitted (K e env h fs)) = []) ->
  conversation env
    (initialMessages (promptOf env file fallback) intro (fst (val (extract env h fs))))
    (posts (emitted
       ((c <- extract ;;
         match snd c with
         | Some msg => printf Plain ("Warning: Failed to extract diagnostic content: " ++ msg ++ nl)
         | None =>
             a <- analyzeWithHistory file fallback intro o (fst c) ;;
             match snd a with
             | Some msg => printf Plain ("Warning: LLM analysis failed: " ++ msg ++ nl)
             | None =>
                 saveAnalysis analysisFile (fst (fst a)) ;;
                 f <- interactiveFollowUp o analysisFile (snd (fst a)) Green Yellow ;;
                 K f
             end
         end) env h fs))).
Proof.
intros Hs HK. rewrite bind_emitted, ?bind_val.
destruct (Hs env h fs) as [He Hf]. rewrite He, Hf, app_nil_r. cbn [app].
set (c := val (extract env h fs)).
destruct (snd c) as [msg|]; [exact I|].
rewrite bind_emitted, ?bind_val.
pose proof (analyzeWithHistory_first file fallback intro o (fst c) env h fs) as S.
set (r := analyzeWithHistory file fallback intro o (fst c) env h fs) in *.
cbv zeta in S. destruct S as [(Se & Sv)|(Se & Sv)].
- rewrite Se. cbn [app]. destruct (snd (val r)); [exact I | contradiction].
- rewrite Se, posts_app. cbn [posts flat_map app conversation reqMessages chatRequest].
  split; [reflexivity|].
  destruct (answerOf env _) as [a|].
  + rewrite Sv. cbn [snd fst].
    rewrite !bind_emitted, !posts_app, posts_saveAnalysis, HK, app_nil_r. cbn [app].
    apply interactiveFollowUp_follows.
  + destruct (snd (val r)); [reflexivity | contradiction].
Qed.

Lemma Silent_provisioning_extract o : Silent (Provisioning.extractAndReadDiagnostics o).
Proof.
unfold Provisioning.extractAndReadDiagnostics.
repeat (apply Silent_bind; [auto with silent | intro]). apply Silent_ret.
Qed.

Lemma Silent_dynatrace_extract o : Silent (DynatraceCmd.extractAndReadDiagnostics o).
Proof.
unfold DynatraceCmd.extractAndReadDiagnostics.
repeat (apply Silent_bind; [auto with silent | intro]). apply Silent_ret.
Qed.

Lemma provisioning_conversation o env h fs :
  conversation env
    (initialMessages (promptOf env Provisioning.promptFile Provisioning.fallbackPrompt)
       Provisioning.intro (fst (val (Provisioning.extractAndReadDiagnostics o env h fs))))
    (posts (emitted (Provisioning.analysis o env h fs))).
Proof.
unfold Provisioning.analysis, Provisioning.analyzeWithLLM, Provisioning.interactiveFollowUp.
apply (analysis_conversation _ _ _ o (Provisioning.extractAndReadDiagnostics o) "10-llm-analysis.txt"
         (fun f => match f with
                   | Some msg => printf Plain ("Warning: Interactive follow-up failed: " ++ msg ++ nl)
                   | None => ret tt
                   end)).
- apply Silent_provisioning_extract.
- intros [msg|] ? ? ?; reflexivity.
Qed.

Lemma dynatrace_conversation o env h fs :
  conversation env
    (initialMessages (promptOf env DynatraceCmd.promptFile DynatraceCmd.fallbackPrompt)
       DynatraceCmd.intro (fst (val (DynatraceCmd.extractAndReadDiagnostics o env h fs))))
    (posts (emitted (DynatraceCmd.analysis o env h fs))).
Proof.
unfold DynatraceCmd.analysis, DynatraceCmd.analyzeWithLLM, DynatraceCmd.interactiveFollowUp.
apply (analysis_conversation _ _ _ o (DynatraceCmd.extractAndReadDiagnostics o) "08-llm-analysis.txt"
         (fun f => match f with
                   | Some msg => printf Plain ("Warning: Interactive follow-up failed: " ++ msg ++ nl)
                   | None => ret tt
                   end)).
- apply Silent_dynatrace_extract.
- intros [msg|] ? ? ?; reflexivity.
Qed.

(** C1. A question that is answered sends one request whose messages are the
    whole conversation so far followed by the question, and returns the
    conversation extended by exactly two messages, the question of the user
    and the answer of the model. In the loop every request continues the
    conversation in that way, questions that fail leaving it as it is; and in
    the provisioning and dynatrace commands the conversation starts from the
    system prompt, the diagnostic message and the first analysis. *)
Theorem followUp_extends_transcript :
  forall (o : Options) (hist : list Message) (question : string)
         (env : Env) (h : list Event) (fs : FS),
    snd (val (askFollowUpQuestion o hist question env h fs)) = None ->
    (exists res answer,
       emitted (askFollowUpQuestion o hist question env h fs) =
         [EvPost (chatRequest (endpointURL (llmBaseURL o)) (cleanKey (llmAPIKey o)) (llmModel o)
                    (hist ++ [mkMessage "user" question])) res]
       /\ answerOf env res = Some answer
       /\ val (askFollowUpQuestion o hist question env h fs) =
            (answer,
             (hist ++ [mkMessage "user" question; mkMessage "assistant" answer])%list,
             None))
    /\ (forall file green yellow lines hist' env' h' fs',
          follows env' hist'
            (posts (emitted (followUpLoop o file green yellow lines hist' env' h' fs'))))
    /\ (forall env' h' fs',
          conversation env'
            (initialMessages (promptOf env' Provisioning.promptFile Provisioning.fallbackPrompt)
               Provisioning.intro
               (fst (val (Provisioning.extractAndReadDiagnostics o env' h' fs'))))
            (posts (emitted (Provisioning.analysis o env' h' fs'))))
    /\ (forall env' h' fs',
          conversation env'
            (initialMessages (promptOf env' DynatraceCmd.promptFile DynatraceCmd.fallbackPrompt)
               DynatraceCmd.intro
               (fst (val (DynatraceCmd.extractAndReadDiagnostics o env' h' fs'))))
            (posts (emitted (DynatraceCmd.analysis o env' h' fs')))).
Proof.
intros o hist question env h fs Hok.
split; [|split; [|split]].
- destruct (askFollowUpQuestion_spec o hist question env h fs) as [(_ & Hv)|(He & Hv)];
    [contradiction|].
  destruct (answerOf env _) as [a|] eqn:Ha; [|contradiction].
  eexists; exists a. split; [exact He|]. split; [exact Ha | exact Hv].
- intros. apply followUpLoop_follows.
- intros. apply provisioning_conversation.
- intros. apply dynatrace_conversation.
Qed.

(** One question after a first analysis, answered by [the answer]. *)
Lemma followUp_extends_transcript_witness :
  exists res answer,
    emitted (askFollowUpQuestion (Demo.options "bundle" "https://llm.example/v1/")
               [mkMessage "system" "prompt"; mkMessage "user" "diagnostics";
                mkMessage "assistant" "analysis"]
               "why did it fail?" Demo.env [] []) =
      [EvPost (chatRequest "https://llm.example/v1/chat/completions" "sk-0123456789" "gpt-4o-mini"
                 [mkMessage "system" "prompt"; mkMessage "user" "diagnostics";
                  mkMessage "assistant" "analysis"; mkMessage "user" "why did it fail?"]) res]
    /\ answerOf Demo.env res = Some answer
    /\ val (askFollowUpQuestion (Demo.options "bundle" "https://llm.example/v1/")
              [mkMessage "system" "prompt"; mkMessage "user" "diagnostics";
               mkMessage "assistant" "analysis"]
              "why did it fail?" Demo.env [] []) =
         (answer,
          [mkMessage "system" "prompt"; mkMessage "user" "diagnostics";
           mkMessage "assistant" "analysis"; mkMessage "user" "why did it fail?";
           mkMessage "assistant" answer],
          None).
Proof.
exact (proj1 (followUp_extends_transcript (Demo.options "bundle" "https://llm.example/v1/")
                [mkMessage "system" "prompt"; mkMessage "user" "diagnostics";
                 mkMessage "assistant" "analysis"]
                "why did it fail?" Demo.env [] [] eq_refl)).
Defined.

End FollowUp.

(* ================================================================== *)
(** ** Keys, URLs and lines *)
(* ================================================================== *)

Module Strings.
Import GoStr GoStrFacts Sys Cmd Llm TraceFacts Props MoreProps.
Lemma removeByte_absent b s : ~ In b (list_ascii_of_string (removeByte b s)).
Proof.
induction s as [|c r IH]; cbn [removeByte list_ascii_of_string]; [intros []|].
destruct (Ascii.eqb_spec c b) as [E|E]; [exact IH|].
cbn [list_ascii_of_string In]. intros [H|H]; [contradiction | exact (IH H)].
Qed.

Lemma removeByte_subset b s c :
  In c (list_ascii_of_string (removeByte b s)) -> In c (list_ascii_of_string s).
Proof.
induction s as [|d r IH]; cbn [removeByte list_ascii_of_string]; [intros []|].
destruct (Ascii.eqb d b); cbn [list_ascii_of_string In]; intros H.
- right; exact (IH H).
- destruct H as [H|H]; [left; exact H | right; exact (IH H)].
Qed.

Lemma removeByte_same b s : ~ In b (list_ascii_of_string s) -> removeByte b s = s.
Proof.
induction s as [|c r IH]; cbn [removeByte list_ascii_of_string In]; [reflexivity|].
intros H. destruct (Ascii.eqb_spec c b) as [E|E]; [exfalso; apply H; left; exact E|].
f_equal. apply IH. intros H'. apply H. right; exact H'.
Qed.

(** X1. The key that goes into the [Authorization] header has no line feed
    and no carriage return, whatever the configured key is; a key without
    surrounding white space and without line breaks is sent as it is. *)
Theorem cleanKey_has_no_line_break :
  forall key : string,
    ~ In (ascii_of_nat 10) (list_ascii_of_string (cleanKey key))
    /\ ~ In (ascii_of_nat 13) (list_ascii_of_string (cleanKey key))
    /\ (TrimSpace key = key ->
        ~ In (ascii_of_nat 10) (list_ascii_of_string key) ->
        ~ In (ascii_of_nat 13) (list_ascii_of_string key) ->
        cleanKey key = key).
Proof.
intros key. unfold cleanKey. split; [|split].
- intros H. apply removeByte_subset in H. exact (removeByte_absent _ _ H).
- apply removeByte_absent.
- intros Ht Hn Hr. rewrite Ht. rewrite (removeByte_same _ _ Hn). apply removeByte_same. exact Hr.
Qed.

Lemma take_append (a b : string) : take (len a) (a ++ b) = a.
Proof. induction a as [|c a IH]; cbn [len String.length take append]; [destruct b; reflexivity|]. f_equal. exact IH. Qed.

Lemma drop_append (a b : string) : drop (len a) (a ++ b) = b.
Proof. induction a as [|c a IH]; cbn [len String.length drop append]; [destruct b; reflexivity | exact IH]. Qed.

(** X2. A base URL with and without a trailing slash gives the same
    endpoint: one trailing slash is dropped before [/chat/completions] is
    added, and a base URL without one is used whole. *)
Theorem endpointURL_drops_one_slash :
  forall baseURL : string,
    endpointURL (baseURL ++ "/") = baseURL ++ "/chat/completions"
    /\ (HasSuffix baseURL "/" = false -> endpointURL baseURL = baseURL ++ "/chat/completions").
Proof.
intros b. unfold endpointURL, TrimSuffix. split.
- assert (L : len (b ++ "/") - len "/" = len b).
  { rewrite length_append. cbn [len String.length]. lia. }
  assert (H : HasSuffix (b ++ "/") "/" = true).
  { unfold HasSuffix. rewrite L, drop_append. rewrite length_append. cbn [len String.length].
    apply andb_true_iff. split; [apply Nat.leb_le; lia | reflexivity]. }
  rewrite H, L, take_append. reflexivity.
- intros H. rewrite H. reflexivity.
Qed.

Lemma splitByte_nonempty sep s : splitByte sep s <> [].
Proof.
destruct s as [|c r]; cbn [splitByte]; [discriminate|].
destruct (Ascii.eqb c sep); [discriminate|]. destruct (splitByte sep r); discriminate.
Qed.

Lemma Join_SplitLines s : Join (SplitLines s) nl = s.
Proof.
unfold Join, SplitLines. induction s as [|c r IH]; [reflexivity|].
cbn [splitByte].
pose proof (splitByte_nonempty (ascii_of_nat 10) r) as N.
destruct (splitByte (ascii_of_nat 10) r) as [|x t]; [contradiction|].
destruct (Ascii.eqb_spec c (ascii_of_nat 10)) as [E|E].
- change (String.concat nl ("" :: x :: t)) with ("" ++ nl ++ String.concat nl (x :: t)).
  rewrite IH. subst c. reflexivity.
- destruct t as [|y t].
  + cbn [String.concat] in *. rewrite IH. reflexivity.
  + change (String.concat nl (String c x :: y :: t)) with (String c x ++ nl ++ String.concat nl (y :: t)).
    change (String.concat nl (x :: y :: t)) with (x ++ nl ++ String.concat nl (y :: t)) in IH.
    cbn [append]. rewrite IH. reflexivity.
Qed.

Lemma truncated_length n s : len (truncated n s) <= n + 16.
Proof.
unfold truncated. destruct (Nat.ltb_spec n (len s)) as [H|H]; [|lia].
rewrite !length_append, length_take. cbn [len String.length nl bytes map string_of_list_ascii]. lia.
Qed.

(** X3. Splitting a text into lines and joining them gives the text back;
    so the preview of install logs of at most 100 lines is the whole text,
    cut at 5000 bytes, and no preview is longer than 5000 bytes and the
    truncation mark. *)
Theorem installLogsPreview_bounds :
  forall content : string,
    Join (SplitLines content) nl = content
    /\ (List.length (SplitLines content) <= 100 ->
        Provisioning.installLogsPreview content = truncated 5000 content)
    /\ len (Provisioning.installLogsPreview content) <= 5000 + 16.
Proof.
intros content. split; [apply Join_SplitLines|]. split.
- intros H. unfold Provisioning.installLogsPreview. cbv zeta.
  replace (List.length (SplitLines content) - 100) with 0 by lia.
  cbn [skipn]. rewrite Join_SplitLines. reflexivity.
- apply truncated_length.
Qed.

Lemma splitByte_free sep s :
  Forall (fun l => ~ In sep (list_ascii_of_string l)) (splitByte sep s).
Proof.
induction s as [|c s IH]; cbn [splitByte].
- constructor; [intros [] | constructor].
- destruct (Ascii.eqb c sep) eqn:E.
  + constructor; [intros [] | exact IH].
  + destruct (splitByte sep s) as [|x t].
    * constructor; [|constructor]. cbn. intros [H|[]]. subst c. rewrite Ascii.eqb_refl in E. discriminate.
    * inversion IH as [|? ? Hx Ht]; subst. constructor; [|exact Ht].
      cbn [list_ascii_of_string In]. intros [H|H]; [|exact (Hx H)].
      subst c. rewrite Ascii.eqb_refl in E. discriminate.
Qed.

Lemma splitByte_append sep x rest :
  ~ In sep (list_ascii_of_string x) ->
  splitByte sep (x ++ String sep rest) = x :: splitByte sep rest.
Proof.
induction x as [|c x IH]; cbn [append splitByte list_ascii_of_string In]; intros H.
- rewrite Ascii.eqb_refl. reflexivity.
- destruct (Ascii.eqb c sep) eqn:E.
  + apply Ascii.eqb_eq in E. exfalso. apply H. left. exact E.
  + rewrite IH by (intros X; apply H; right; exact X). reflexivity.
Qed.

Lemma splitByte_whole sep x :
  ~ In sep (list_ascii_of_string x) -> splitByte sep x = [x].
Proof.
induction x as [|c x IH]; cbn [splitByte list_ascii_of_string In]; intros H; [reflexivity|].
destruct (Ascii.eqb c sep) eqn:E.
- apply Ascii.eqb_eq in E. exfalso. apply H. left. exact E.
- rewrite IH by (intros X; apply H; right; exact X). reflexivity.
Qed.

Lemma splitByte_concat sep l :
  l <> [] -> Forall (fun x => ~ In sep (list_ascii_of_string x)) l ->
  splitByte sep (String.concat (String sep "") l) = l.
Proof.
induction l as [|x l IH]; intros Hne Hf; [congruence|].
inversion Hf as [|? ? Hx Hl]; subst.
destruct l as [|y l].
- apply splitByte_whole. exact Hx.
- change (String.concat (String sep "") (x :: y :: l))
    with (x ++ String sep (String.concat (String sep "") (y :: l))).
  rewrite splitByte_append by exact Hx. f_equal. apply IH; [discriminate | exact Hl].
Qed.

Lemma concat_empty sep l :
  Forall (fun x => x <> "") l -> String.concat sep l = "" -> l = [].
Proof.
destruct l as [|x l]; [reflexivity|]. intros Hf H. inversion Hf as [|? ? Hx _]; subst.
exfalso. destruct l; cbn [String.concat] in H; [exact (Hx H)|].
destruct x; [apply Hx; reflexivity | discriminate H].
Qed.

(** X4. The filtered files ([07-node-exporter-cpu.txt],
    [07-node-exporter-pods.txt], [09-registry-operator-forbidden.txt]): for a
    filter that rejects the empty line, the content written is the
    placeholder when no line of the output matches, and otherwise its lines
    are exactly the matching lines of the output, in their order; with a
    placeholder that is not empty the content is never empty. *)
Theorem keepLines_keeps_matching_lines :
  forall (keep : string -> bool) (output empty : string),
    keep "" = false ->
    let kept := filter keep (SplitLines output) in
    (kept = [] -> keepLines keep output empty = empty)
    /\ (kept <> [] -> SplitLines (keepLines keep output empty) = kept)
    /\ (empty <> "" -> keepLines keep output empty <> "").
Proof.
intros keep output empty K kept. unfold keepLines. fold kept. cbv zeta.
assert (F : Forall (fun x => x <> "") kept).
{ apply Forall_forall. intros x Hx E. subst x. apply filter_In in Hx. destruct Hx as [_ Hx].
  rewrite K in Hx. discriminate. }
split; [|split].
- intros E. rewrite E. reflexivity.
- intros Hne. destruct (Join kept nl =? "") eqn:E.
  + apply String.eqb_eq in E. apply concat_empty in E; [contradiction | exact F].
  + unfold SplitLines, Join. apply splitByte_concat; [exact Hne|].
    apply Forall_forall. intros x Hx. apply filter_In in Hx. destruct Hx as [Hx _].
    pose proof (splitByte_free (ascii_of_nat 10) output) as S. rewrite Forall_forall in S.
    apply S. exact Hx.
- intros He. destruct (Join kept nl =? "") eqn:E; [exact He|]. apply String.eqb_neq. exact E.
Qed.

(** The lines of an [oc adm top pod] output that mention [node-exporter]. *)
Lemma keepLines_keeps_matching_lines_witness :
  SplitLines (keepLines (fun line => Contains line "node-exporter")
                ("NAME CPU" ++ nl ++ "node-exporter-1 3m" ++ nl ++ "alertmanager 1m" ++ nl
                 ++ "node-exporter-2 5m" ++ nl)
                "No node-exporter pods found")
  = ["node-exporter-1 3m"; "node-exporter-2 5m"].
Proof.
refine (proj1 (proj2 (keepLines_keeps_matching_lines (fun line => Contains line "node-exporter")
          ("NAME CPU" ++ nl ++ "node-exporter-1 3m" ++ nl ++ "alertmanager 1m" ++ nl
           ++ "node-exporter-2 5m" ++ nl)
          "No node-exporter pods found" _)) _).
- reflexivity.
- vm_compute. discriminate.
Defined.

End Strings.

(* ================================================================== *)
(** ** The files of the bundle *)
(* ================================================================== *)

Module Files.
Import GoStr GoStrFacts Sys Cmd Llm TraceFacts Props MoreProps.

Lemma lookupFile_storeFile name content fs :
  lookupFile name (storeFile name content fs) = Some content.
Proof.
induction fs as [|[n c] fs IH]; cbn [storeFile lookupFile].
- rewrite String.eqb_refl. reflexivity.
- destruct (n =? name) eqn:E; cbn [lookupFile]; rewrite E; [reflexivity | exact IH].
Qed.

Lemma lookupFile_storeFile_other name other content fs :
  other <> name -> lookupFile other (storeFile name content fs) = lookupFile other fs.
Proof.
intros H. induction fs as [|[n c] fs IH]; cbn [storeFile lookupFile].
- destruct (String.eqb_spec name other); [congruence | reflexivity].
- destruct (String.eqb_spec n name) as [E|E]; cbn [lookupFile].
  + subst n. destruct (String.eqb_spec name other); [congruence | reflexivity].
  + destruct (n =? other); [reflexivity | exact IH].
Qed.

Lemma lookupFile_appendFile name content fs :
  lookupFile name (appendFile name content fs) =
  Some (match lookupFile name fs with Some old => old ++ content | None => content end).
Proof. unfold appendFile. destruct (lookupFile name fs); apply lookupFile_storeFile. Qed.

Lemma lookupFile_appendFile_other name other content fs :
  other <> name -> lookupFile other (appendFile name content fs) = lookupFile other fs.
Proof. intros H. unfold appendFile. destruct (lookupFile name fs); apply lookupFile_storeFile_other; exact H. Qed.

Lemma append_empty (s : string) : s ++ "" = s.
Proof. induction s as [|c s IH]; cbn [append]; [reflexivity | rewrite IH; reflexivity]. Qed.

Lemma lookupFile_absent name fs : ~ In name (map fst fs) -> lookupFile name fs = None.
Proof.
induction fs as [|[k c] r IH]; cbn [lookupFile map fst In]; [reflexivity|].
intros H. destruct (k =? name) eqn:E.
- apply String.eqb_eq in E. exfalso. apply H. left. exact E.
- apply IH. intros X. apply H. right. exact X.
Qed.

Lemma lookupFile_removeFile name fs :
  NoDup (map fst fs) -> lookupFile name (removeFile name fs) = None.
Proof.
induction fs as [|[k c] r IH]; cbn [removeFile lookupFile map fst]; [reflexivity|].
intros H. inversion H as [|? ? Hk Hr]; subst.
destruct (k =? name) eqn:E.
- apply String.eqb_eq in E. subst k. apply lookupFile_absent. exact Hk.
- cbn [lookupFile]. rewrite E. apply IH. exact Hr.
Qed.

Lemma lookupFile_removeFile_other name other fs :
  other <> name -> lookupFile other (removeFile name fs) = lookupFile other fs.
Proof.
intros H. induction fs as [|[k c] r IH]; cbn [removeFile lookupFile]; [reflexivity|].
destruct (k =? name) eqn:E.
- apply String.eqb_eq in E. subst k.
  destruct (name =? other) eqn:E2; [apply String.eqb_eq in E2; congruence | reflexivity].
- cbn [lookupFile]. rewrite IH. reflexivity.
Qed.

Lemma storeFile_In name content fs x :
  In x (map fst (storeFile name content fs)) -> x = name \/ In x (map fst fs).
Proof.
induction fs as [|[k c] r IH]; cbn [storeFile map fst In].
- intros [H|[]]; left; symmetry; exact H.
- destruct (k =? name) eqn:E; cbn [map fst In].
  + intros [H|H]; right; [left | right]; assumption.
  + intros [H|H]; [right; left; exact H|]. destruct (IH H) as [X|X]; [left | right; right]; assumption.
Qed.

Lemma storeFile_NoDup name content fs :
  NoDup (map fst fs) -> NoDup (map fst (storeFile name content fs)).
Proof.
induction fs as [|[k c] r IH]; cbn [storeFile map fst]; intros H.
- constructor; [intros [] | constructor].
- inversion H as [|? ? Hk Hr]; subst.
  destruct (k =? name) eqn:E; cbn [map fst].
  + constructor; assumption.
  + constructor; [|apply IH; exact Hr].
    intros X. apply storeFile_In in X. destruct X as [X|X]; [|contradiction].
    subst k. rewrite String.eqb_refl in E. discriminate.
Qed.

Lemma appendFile_NoDup name content fs :
  NoDup (map fst fs) -> NoDup (map fst (appendFile name content fs)).
Proof. unfold appendFile. destruct (lookupFile name fs); apply storeFile_NoDup. Qed.

Lemma executor_spec sub args file env h fs :
  let r := defaultCommandExecutor sub args (InBundle file) env h fs in
  let out := proc env (h ++ [EvOpen file None])%list "oc" (sub :: args) in
  match fault env h (OpOpen file) with
  | Some msg => val r = Some msg /\ emitted r = [EvOpen file (Some msg)] /\ files r = fs
  | None =>
      val r = snd out
      /\ emitted r = [EvOpen file None; EvProc "oc" (sub :: args) (ToFile file) (fst out) (snd out)]
      /\ files r = appendFile file (fst out) (appendFile file "" fs)
  end.
Proof.
cbv zeta. unfold defaultCommandExecutor, OpenAppend.
rewrite bind_val, bind_emitted, bind_files.
destruct (fault env h (OpOpen file)) as [msg|]; cbn [val emitted files ret List.app].
- repeat split; reflexivity.
- rewrite bind_val, bind_emitted, bind_files. cbn [runProcess val emitted files ret List.app].
  repeat split; reflexivity.
Qed.

(** X5. A collection step touches one file only: every other file of the
    bundle keeps its content, what the file held before stays at its start
    (the file is opened for appending), and when [oc] was started its output
    is what was added. *)
Theorem collectTo_appends :
  forall (yellow green red : Color) (title sub : string) (args : list string)
         (file failed saved : string) (env : Env) (h : list Event) (fs : FS),
    let r := collectTo yellow green red title sub args file failed saved env h fs in
    (forall other, other <> file -> lookupFile other (files r) = lookupFile other fs)
    /\ (forall old, lookupFile file fs = Some old ->
          exists added, lookupFile file (files r) = Some (old ++ added))
    /\ (forall output err,
          In (EvProc "oc" (sub :: args) (ToFile file) output err) (emitted r) ->
          lookupFile file (files r) =
          Some (match lookupFile file fs with Some old => old ++ output | None => output end)).
Proof.
intros yellow green red title sub args file failed saved env h fs r. subst r.
unfold collectTo, runOCCommand, println.
rewrite ?bind_files, ?bind_val, ?bind_emitted. cbn [emit val emitted files].
pose proof (executor_spec sub args file env (h ++ [EvPrint yellow (title ++ nl)]) fs) as S.
cbv zeta in S.
set (x := defaultCommandExecutor sub args (InBundle file) env _ fs) in *.
set (out := proc env _ "oc" (sub :: args)) in *.
assert (F : forall (e : error) hh ff, files (match e with
                                   | Some _ => printf red failed
                                   | None => printf green saved
                                   end env hh ff) = ff
                            /\ exists c t, emitted (match e with
                                                    | Some _ => printf red failed
                                                    | None => printf green saved
                                                    end env hh ff) = [EvPrint c t])
  by (intros [?|] ? ?; split; try reflexivity; eexists; eexists; reflexivity).
destruct (F (val x) (((h ++ [EvPrint yellow (title ++ nl)]) ++ emitted x)%list) (files x))
  as (Ff & c & t & Fe).
rewrite Ff, Fe. clear F Ff Fe.
destruct (fault env _ (OpOpen file)) as [msg|]; destruct S as (Sv & Se & Sf); rewrite Se, Sf.
- split; [reflexivity|]. split.
  + intros old H. exists "". rewrite append_empty. exact H.
  + intros output err H. cbn [List.app In] in H.
    repeat (destruct H as [H|H]; [discriminate H|]). contradiction.
- split; [|split].
  + intros other H. rewrite !lookupFile_appendFile_other by exact H. reflexivity.
  + intros old H. exists (fst out). rewrite !lookupFile_appendFile, H, append_empty. reflexivity.
  + intros output err H.
    assert (O : output = fst out).
    { cbn [List.app In] in H.
      repeat (destruct H as [H|H]; [try discriminate H; try (injection H as <- _; reflexivity)|]).
      contradiction. }
    subst output.
    rewrite !lookupFile_appendFile. destruct (lookupFile file fs); [rewrite append_empty|]; reflexivity.
Qed.

End Files.

(* ================================================================== *)
(** ** What the collectors describe, and what they return *)
(* ================================================================== *)

Module Targets.
Import GoStr GoStrFacts Sys Cmd Llm TraceFacts Props MoreProps Pods Content.

Lemma isDegraded_iff conditions :
  Provisioning.isDegraded conditions = true <->
  exists c, In c conditions
            /\ ((condType c = "Degraded" /\ condStatus c = "True")
                \/ (condType c = "Available" /\ condStatus c = "False")
                \/ (condType c = "Progressing" /\ condStatus c = "True")).
Proof.
unfold Provisioning.isDegraded. rewrite existsb_exists.
split; intros (c & Hin & H); exists c; (split; [exact Hin|]).
- rewrite !orb_true_iff, !andb_true_iff, !String.eqb_eq in H. tauto.
- rewrite !orb_true_iff, !andb_true_iff, !String.eqb_eq. tauto.
Qed.

(** X6. The cluster-operator collector of the provisioning command lists
    the operators as JSON, counts an operator as degraded exactly when one of
    its conditions is [Degraded=True], [Available=False] or
    [Progressing=True], and describes the degraded operators, and only them,
    into [03-clusteroperator-describe-<name>.txt], in the order of the
    listing; it describes none when the listing does not decode. *)
Theorem collectClusterOperators_targets :
  forall (o : Options) (yellow green red : Color) (env : Env) (h : list Event) (fs : FS),
    let evs := emitted (Provisioning.collectClusterOperators o yellow green red env h fs) in
    (forall conditions, Provisioning.isDegraded conditions = true <->
       exists c, In c conditions
                 /\ ((condType c = "Degraded" /\ condStatus c = "True")
                     \/ (condType c = "Available" /\ condStatus c = "False")
                     \/ (condType c = "Progressing" /\ condStatus c = "True")))
    /\ exists (listing : string) (err : error),
         In (EvProc "oc" ["get"; "clusteroperators"; "-o"; "json"] Captured listing err) evs
         /\ openedWith "03-clusteroperator-describe-" evs =
            map (fun name => "03-clusteroperator-describe-" ++ name ++ ".txt")
              (map fst (filter (fun co => Provisioning.isDegraded (snd co))
                          match decodeConditions (json env) listing with
                          | Some items => items
                          | None => []
                          end)).
Proof.
intros o yellow green red env h fs evs. split; [exact isDegraded_iff|].
assert (E : evs = emitted (Provisioning.collectClusterOperators o yellow green red env h fs))
  by reflexivity.
clearbody evs.
unfold Provisioning.collectClusterOperators, runOCCommandWithOutput, defaultCommandRunner in E.
do 6 step_bind_in E. cbn [ask runProcess println emit ret val emitted] in E.
set (listing := fst (proc env h3 _ _)) in E.
exists listing, (snd (proc env h3 "oc" ["get"; "clusteroperators"; "-o"; "json"])).
split.
- subst evs. do 4 (apply in_or_app; right). apply in_or_app; left. left. reflexivity.
- subst evs. rewrite !openedWith_app, !openedWith_collectTo.
  rewrite (openedWith_forEach "03-clusteroperator-describe-" _
             (fun name => ["03-clusteroperator-describe-" ++ name ++ ".txt"]))
    by (intros; rewrite openedWith_collectTo, HasPrefix_append; reflexivity).
  rewrite flat_map_singleton.
  change (HasPrefix "02-clusteroperators.txt" "03-clusteroperator-describe-") with false.
  change (HasPrefix "02-clusteroperators.yaml" "03-clusteroperator-describe-") with false.
  cbn [openedWith flat_map List.app]. rewrite ?app_nil_r.
  destruct (decodeConditions (json env) listing); reflexivity.
Qed.

Lemma isReady_false_iff conditions :
  Provisioning.isReady conditions = false <->
  forall c, In c conditions -> ~ (condType c = "Ready" /\ condStatus c = "True").
Proof.
unfold Provisioning.isReady. split.
- intros H c Hin [Ht Hs].
  assert (X : existsb (fun c => (condType c =? "Ready") && (condStatus c =? "True")) conditions = true).
  { apply existsb_exists. exists c. split; [exact Hin|]. rewrite Ht, Hs. reflexivity. }
  rewrite X in H. discriminate.
- intros H. destruct (existsb _ conditions) eqn:X; [|reflexivity].
  apply existsb_exists in X. destruct X as (c & Hin & Hc).
  apply andb_true_iff in Hc. rewrite !String.eqb_eq in Hc. exfalso. exact (H c Hin Hc).
Qed.

(** X7. The node collector of the provisioning command lists the nodes as
    JSON, counts a node as not ready exactly when none of its conditions is
    [Ready=True], and describes the nodes that are not ready, and only them,
    into [07-node-describe-<name>.txt], in the order of the listing. *)
Theorem collectNodes_targets :
  forall (o : Options) (yellow green red : Color) (env : Env) (h : list Event) (fs : FS),
    let evs := emitted (Provisioning.collectNodes o yellow green red env h fs) in
    (forall conditions, Provisioning.isReady conditions = false <->
       forall c, In c conditions -> ~ (condType c = "Ready" /\ condStatus c = "True"))
    /\ exists (listing : string) (err : error),
         In (EvProc "oc" ["get"; "nodes"; "-o"; "json"] Captured listing err) evs
         /\ openedWith "07-node-describe-" evs =
            map (fun name => "07-node-describe-" ++ name ++ ".txt")
              (map fst (filter (fun node => negb (Provisioning.isReady (snd node)))
                          match decodeConditions (json env) listing with
                          | Some items => items
                          | None => []
                          end)).
Proof.
intros o yellow green red env h fs evs. split; [exact isReady_false_iff|].
assert (E : evs = emitted (Provisioning.collectNodes o yellow green red env h fs))
  by reflexivity.
clearbody evs.
unfold Provisioning.collectNodes, runOCCommandWithOutput, defaultCommandRunner in E.
do 5 step_bind_in E. cbn [ask runProcess println emit ret val emitted] in E.
set (listing := fst (proc env h2 _ _)) in E.
exists listing, (snd (proc env h2 "oc" ["get"; "nodes"; "-o"; "json"])).
split.
- subst evs. do 3 (apply in_or_app; right). apply in_or_app; left. left. reflexivity.
- subst evs. rewrite !openedWith_app, !openedWith_collectTo.
  rewrite (openedWith_forEach "07-node-describe-" _
             (fun name => ["07-node-describe-" ++ name ++ ".txt"]))
    by (intros; rewrite openedWith_collectTo, HasPrefix_append; reflexivity).
  rewrite flat_map_singleton.
  change (HasPrefix "06-nodes.txt" "07-node-describe-") with false.
  change (HasPrefix "06-nodes.yaml" "07-node-describe-") with false.
  cbn [openedWith flat_map List.app]. rewrite ?app_nil_r.
  destruct (decodeConditions (json env) listing); reflexivity.
Qed.

(** X8. The pod collector of the dynatrace command lists the pods of the
    [dynatrace] namespace as JSON and describes the pods whose phase is
    neither [Succeeded] nor [Running], and only them, into
    [05-pod-describe-<pod>.txt]; unlike the pruning command it describes no
    pod when none is failing. *)
Theorem dynatrace_collectPods_targets :
  forall (o : Options) (yellow green red : Color) (env : Env) (h : list Event) (fs : FS),
    let evs := emitted (DynatraceCmd.collectPods o yellow green red env h fs) in
    exists (listing : string) (err : error),
      In (EvProc "oc" ["get"; "pod"; "-n"; "dynatrace"; "-o"; "json"] Captured listing err) evs
      /\ openedWith "05-pod-describe-" evs =
         map (fun pod => "05-pod-describe-" ++ pod ++ ".txt")
           (map podName (filter isFailing
                           match decodePods (json env) listing with
                           | Some items => items
                           | None => []
                           end)).
Proof.
intros o yellow green red env h fs evs.
assert (E : evs = emitted (DynatraceCmd.collectPods o yellow green red env h fs))
  by reflexivity.
clearbody evs.
unfold DynatraceCmd.collectPods, runOCCommandWithOutput, defaultCommandRunner in E.
do 5 step_bind_in E. cbn [ask runProcess println emit ret val emitted] in E.
set (listing := fst (proc env h2 _ _)) in E.
exists listing, (snd (proc env h2 "oc" ["get"; "pod"; "-n"; "dynatrace"; "-o"; "json"])).
split.
- subst evs. do 3 (apply in_or_app; right). apply in_or_app; left. left. reflexivity.
- subst evs. rewrite !openedWith_app, !openedWith_collectTo.
  rewrite (openedWith_forEach "05-pod-describe-" _
             (fun name => ["05-pod-describe-" ++ name ++ ".txt"]))
    by (intros; rewrite openedWith_collectTo, HasPrefix_append; reflexivity).
  rewrite flat_map_singleton.
  change (HasPrefix "04-pods.txt" "05-pod-describe-") with false.
  change (HasPrefix "04-pods.yaml" "05-pod-describe-") with false.
  cbn [openedWith flat_map List.app]. rewrite ?app_nil_r.
  unfold failingPods. destruct (decodePods (json env) listing); reflexivity.
Qed.

(** Proves [Returns R m] when every path of [m] ends in a [ret] whose value
    has [R] by computation. *)
Ltac returns_always :=
  repeat first
  [ progress cbv beta zeta
  | match goal with
    | |- Returns _ (ret _) => apply Returns_ret; reflexivity
    | |- Returns _ (bind _ _) => apply (Returns_bind (fun _ => True)); [ apply Returns_any | intros ? _ ]
    | |- Returns _ (match ?x with _ => _ end) => destruct x
    end
  | match goal with |- Returns _ ?m => let hd := head_of m in progress unfold hd end ].

(** X9. No collector that asks the cluster ever returns an error: whatever
    [oc], the decoders, the file system and Dynatrace answer, each of the 37
    returns [nil], so a failed collection step cannot end the run. *)
Theorem clusterCollectors_never_fail :
  forall (o : Options) (yellow green red : Color),
    Forall (Returns (fun e => e = None)) (clusterCollectors o yellow green red).
Proof.
intros o yellow green red. unfold clusterCollectors.
repeat (apply Forall_cons || apply Forall_nil).
all: returns_always.
Qed.

Lemma Silent_extracts o : Forall (fun m : M (string * error) => Silent m) (allExtracts o).
Proof.
unfold allExtracts. repeat (apply Forall_cons || apply Forall_nil).
all: match goal with |- Silent ?m => let hd := head_of m in unfold hd end;
     repeat (apply Silent_bind; [auto with silent | intro]); apply Silent_ret.
Qed.

Lemma monitoring_content o env h fs :
  val (Monitoring.extractAndReadDiagnostics o env h fs) =
  (sectionsOf env h fs whole Monitoring.priorityFiles
   ++ sectionsOf env h fs (fun _ => truncated 15000) Monitoring.yamlFiles,
   None).
Proof.
unfold Monitoring.extractAndReadDiagnostics.
repeat (rewrite bind_silent_val by auto with silent).
rewrite !readSections_val. reflexivity.
Qed.

Lemma dynatrace_content o env h fs :
  val (DynatraceCmd.extractAndReadDiagnostics o env h fs) =
  (sectionsOf env h fs whole DynatraceCmd.priorityFiles
   ++ sectionsOf env h fs (fun _ => truncated 15000) DynatraceCmd.yamlFiles
   ++ sectionsOf env h fs whole (firstFive (globbed env h fs "05-pod-describe-" ".txt"))
   ++ sectionsOf env h fs (fun _ => truncated 10000) DynatraceCmd.logFiles,
   None).
Proof.
unfold DynatraceCmd.extractAndReadDiagnostics.
repeat (rewrite bind_silent_val by auto with silent).
rewrite !readSections_val, !Glob_val. reflexivity.
Qed.


End Targets.

(* ================================================================== *)
(** ** The component logs of the dynatrace command *)
(* ================================================================== *)

Module ComponentLogs.
Import GoStr GoStrFacts Sys Cmd Llm TraceFacts Props MoreProps Pods Files.

Lemma fallback_no_dynatrace o yellow green red :
  Emits (Forall (fun e => dynatraceEvent e = false))
        (DynatraceCmd.collectComponentLogsWithOC o yellow green red).
Proof. emits_forall. Qed.

Lemma getClusterID_no_logs :
  Emits (Forall (fun e => ocLogsEvent e = false /\ dynatraceEvent e = false)) DynatraceCmd.getClusterID.
Proof.
intros env h fs. unfold DynatraceCmd.getClusterID, getClusterID', defaultCommandRunner.
rewrite bind_emitted. cbn [runProcess val emitted].
apply Forall_app_intro; [constructor; [split; reflexivity | constructor]|].
destruct (snd _); [constructor|]. destruct (_ =? _); constructor.
Qed.

Lemma fallback_files o yellow green red env h fs :
  openedWith "07-logs-" (emitted (DynatraceCmd.collectComponentLogsWithOC o yellow green red env h fs)) =
  map (fun c => "07-logs-" ++ c ++ ".txt") DynatraceCmd.dtComponents.
Proof.
unfold DynatraceCmd.collectComponentLogsWithOC. rewrite bind_emitted, openedWith_app.
rewrite (openedWith_forEach "07-logs-" _ (fun comp => ["07-logs-" ++ snd comp ++ ".txt"]))
  by (intros; cbv zeta; rewrite openedWith_collectTo, HasPrefix_append; reflexivity).
reflexivity.
Qed.


(** X12. One component fetched from Dynatrace, in a bundle whose file names
    are distinct: only [07-logs-<component>.txt] changes; when the download
    fails the file just created is removed again (the removal itself is
    taken to succeed), no [Saved] line is printed and the bundle has no such
    file afterwards, even if it had one before; when the download succeeds
    nothing is removed and the file holds exactly what was fetched. *)
Theorem failed_download_is_removed :
  forall (env : Env) (url token mc : string) (green red : Color) (comp : string)
         (h : list Event) (fs : FS),
    NoDup (map fst fs) ->
    let logFile := "07-logs-" ++ comp ++ ".txt" in
    let r := DynatraceCmd.fetchComponentLogs env url token mc green red comp env h fs in
    (forall other, other <> logFile -> lookupFile other (files r) = lookupFile other fs)
    /\ (forall msg, In (EvDtLogs url logFile (Some msg)) (emitted r) ->
          In (EvRemove logFile) (emitted r)
          /\ ~ In (EvPrint green (savedLine logFile)) (emitted r)
          /\ lookupFile logFile (files r) = None)
    /\ (In (EvDtLogs url logFile None) (emitted r) ->
          ~ In (EvRemove logFile) (emitted r)
          /\ exists hh requestToken,
               lookupFile logFile (files r) = Some (fst (GetLogs (dt env) hh url token requestToken))).
Proof.
intros env url token mc green red comp h fs ND logFile r. subst r.
unfold DynatraceCmd.fetchComponentLogs. fold logFile.
destruct (SortQuery (dt env) _ "desc") as [built|msg].
2:{ cbn [printf emit emitted files]. split; [reflexivity|].
    split; [intros ? [H|[]]; discriminate H | intros [H|[]]; discriminate H]. }
rewrite !bind_emitted, !bind_files, ?bind_val.
unfold DtQueryExecution. cbn [val emitted files].
destruct (GetDTQueryExecution (dt env) h url token built) as [requestToken|msg].
2:{ cbn [printf emit emitted files List.app]. split; [reflexivity|].
    split; [intros ? [H|[H|[]]]; discriminate H | intros [H|[H|[]]]; discriminate H]. }
rewrite !bind_emitted, !bind_files, ?bind_val.
unfold Create. 
destruct (fault env _ (OpOpen logFile)) as [msg|]; cbn [val emitted files].
{ cbn [printf emit emitted files List.app]. split; [reflexivity|].
  split; [intros ? [H|[H|[H|[]]]]; discriminate H | intros [H|[H|[H|[]]]]; discriminate H]. }
rewrite !bind_emitted, !bind_files, ?bind_val.
unfold DtGetLogs. cbn [val emitted files].
set (got := GetLogs (dt env) _ url token requestToken).
destruct (snd got) as [msg|] eqn:G.
- rewrite !bind_emitted, !bind_files. cbn [printf emit Remove val emitted files List.app].
  split; [|split].
  + intros other Ho.
    rewrite lookupFile_removeFile_other, lookupFile_appendFile_other, lookupFile_storeFile_other
      by exact Ho. reflexivity.
  + intros msg' _. split; [do 4 right; left; reflexivity|]. split.
    * intros X. cbn [In] in X.
      repeat (destruct X as [X|X]; [discriminate X|]). exact X.
    * apply lookupFile_removeFile, appendFile_NoDup, storeFile_NoDup, ND.
  + intros X. cbn [In] in X. exfalso.
    repeat (destruct X as [X|X]; [discriminate X|]). exact X.
- cbn [printf emit val emitted files List.app]. split; [|split].
  + intros other Ho.
    rewrite lookupFile_appendFile_other, lookupFile_storeFile_other by exact Ho. reflexivity.
  + intros msg' X. cbn [In] in X. exfalso.
    repeat (destruct X as [X|X]; [discriminate X|]). exact X.
  + intros _. split.
    * intros X. cbn [In] in X.
      repeat (destruct X as [X|X]; [discriminate X|]). exact X.
    * eexists; exists requestToken.
      rewrite lookupFile_appendFile, lookupFile_storeFile. reflexivity.
Qed.

(** A download that fails over an older log file of the component. *)
Lemma failed_download_is_removed_witness :
  NoDup (map fst ([("07-logs-operator.txt", "old")] : FS))
  /\ (In (EvRemove "07-logs-operator.txt")
        (emitted (DynatraceCmd.fetchComponentLogs (withoutLogs Demo.env) "https://dt.example" "token"
                    "hive-mc" Green Red "operator" (withoutLogs Demo.env) []
                    [("07-logs-operator.txt", "old")]))
      /\ lookupFile "07-logs-operator.txt"
           (files (DynatraceCmd.fetchComponentLogs (withoutLogs Demo.env) "https://dt.example" "token"
                     "hive-mc" Green Red "operator" (withoutLogs Demo.env) []
                     [("07-logs-operator.txt", "old")])) = None).
Proof.
assert (N : NoDup (map fst ([("07-logs-operator.txt", "old")] : FS)))
  by (constructor; [intros [] | constructor]).
split; [exact N|].
destruct (failed_download_is_removed (withoutLogs Demo.env) "https://dt.example" "token" "hive-mc"
            Green Red "operator" [] [("07-logs-operator.txt", "old")] N) as (_ & F & _).
destruct (F "connection reset") as (R & _ & L).
- vm_compute. do 2 right. left. reflexivity.
- split; [exact R | exact L].
Defined.

End ComponentLogs.

(* ================================================================== *)
(** ** Runs that do not reach the cluster *)
(* ================================================================== *)

Module Runs.
Import GoStr GoStrFacts Sys Cmd Llm TraceFacts Props MoreProps.

(** X13. The provisioning command never starts [oc]: neither [complete]
    nor a whole run, with or without analysis and follow-up, since the
    cluster that failed to install is reached through OCM only. *)
Theorem provisioning_never_starts_oc :
  forall o : Options,
    Emits (Forall (fun e => startsOc e = false)) (Provisioning.run o)
    /\ Emits (Forall (fun e => startsOc e = false)) (Provisioning.complete o).
Proof.
intros o. split; emits_run.
Qed.

(** X14. A run that skips collection, as [--analyze-existing] makes it,
    starts no process and touches no file but its analysis file: all it does
    is print, post to the endpoint, and open, write and append to
    [<nn>-llm-analysis.txt]. *)
Theorem analyze_existing_is_offline :
  forall o : Options,
    skipCollection o = true ->
    Forall (Emits (Forall (fun e => offlineEvent e = true))) (laterRuns o).
Proof.
intros o Hs. unfold laterRuns. repeat (apply Forall_cons || apply Forall_nil).
all: match goal with |- Emits _ ?m => let hd := head_of m in unfold hd end; rewrite Hs.
all: emits_run.
Qed.

(** The options after [--analyze-existing bundle]. *)
Lemma analyze_existing_is_offline_witness :
  Forall (Emits (Forall (fun e => offlineEvent e = true)))
    (laterRuns (setExisting (Demo.options "bundle" ""))).
Proof.
exact (analyze_existing_is_offline (setExisting (Demo.options "bundle" "")) eq_refl).
Defined.

Lemma Glob_all_suffix suf env h fs :
  fault env h OpList = None ->
  val (Glob "" suf env h fs) = filter (fun name => HasSuffix name suf) (map fst fs).
Proof.
intros Hf. unfold Glob. rewrite Hf. cbn [val].
apply filter_ext. intros name. unfold matchStar, HasPrefix, HasSuffix.
rewrite prefix_empty. change (len "" + len suf) with (len suf). cbn [andb].
destruct (Nat.leb (len suf) (len name));
  rewrite ?andb_true_r, ?andb_false_r; reflexivity.
Qed.

Lemma filter_nil_iff {A} (f : A -> bool) l : filter f l = [] <-> forall x, In x l -> f x = false.
Proof.
induction l as [|a l IH]; cbn [filter In]; [tauto|].
destruct (f a) eqn:E; split.
- discriminate.
- intros H. specialize (H a (or_introl eq_refl)). congruence.
- intros H x [<-|Hx]; [exact E | apply IH; assumption].
- intros H. apply IH. intros x Hx. apply H. right; exact Hx.
Qed.



Lemma check_stops (m k : M error) env h fs msg :
  val (m env h fs) = Some msg ->
  val (check m k env h fs) = Some msg /\ emitted (check m k env h fs) = emitted (m env h fs).
Proof.
intros H. unfold check. rewrite bind_val, bind_emitted, H. cbn [ret val emitted].
split; [reflexivity | apply app_nil_r].
Qed.

Lemma login_spec env h fs :
  val (defaultCommandExecutor "cluster-info" [] DevNull env h fs) =
    snd (proc env h "oc" ["cluster-info"])
  /\ emitted (defaultCommandExecutor "cluster-info" [] DevNull env h fs) =
      [EvProc "oc" ["cluster-info"] Discarded
         (fst (proc env h "oc" ["cluster-info"])) (snd (proc env h "oc" ["cluster-info"]))].
Proof. split; reflexivity. Qed.

Lemma collection_unreachable alert hint o getID collectors summary env h fs :
  lookPath env "oc" <> None \/ (forall h', snd (proc env h' "oc" ["cluster-info"]) <> None) ->
  val (collection alert hint o getID collectors summary env h fs) <> None
  /\ Forall (fun e => preflightEvent e = true)
       (emitted (collection alert hint o getID collectors summary env h fs)).
Proof.
intros H. unfold collection.
rewrite ?bind_val, ?bind_emitted. cbn [println printf emit MkdirAll val emitted files].
destruct (mkdirAll env _) as [m|].
{ cbn [ret val emitted List.app errorf]. split; [discriminate | repeat constructor]. }
rewrite ?bind_val, ?bind_emitted. cbn [LookPath val emitted files].
destruct (lookPath env "oc") as [l|] eqn:El.
{ rewrite ?bind_val, ?bind_emitted. cbn [println emit ret val emitted List.app].
  split; [discriminate | repeat constructor]. }
destruct H as [H|H]; [contradiction|].
rewrite ?bind_val, ?bind_emitted.
match goal with |- context [defaultCommandExecutor "cluster-info" [] DevNull env ?hh ?ff] =>
  destruct (login_spec env hh ff) as [Lv Le]; rewrite ?Lv, ?Le; specialize (H hh);
  destruct (snd (proc env hh "oc" ["cluster-info"])) as [e|]
end; [|contradiction].
rewrite ?bind_val, ?bind_emitted. cbn [println emit ret val emitted List.app].
split; [discriminate | repeat constructor].
Qed.

(** X16. When [oc] is not on the path, or [oc cluster-info] fails whenever
    it is run, a collecting run of the pruning (both revisions), monitoring
    and dynatrace commands returns an error, and all it has done by then is
    print, make the bundle directory, look for [oc] and run [oc cluster-info]
    with its output discarded: no collector ran, no file was written, no
    archive made and no request posted. *)
Theorem unreachable_cluster_writes_nothing :
  forall (o : Options) (env : Env) (h : list Event) (fs : FS),
    skipCollection o = false ->
    lookPath env "oc" <> None \/ (forall h', snd (proc env h' "oc" ["cluster-info"]) <> None) ->
    Forall (fun run : M error =>
              val (run env h fs) <> None
              /\ Forall (fun e => preflightEvent e = true) (emitted (run env h fs)))
      (clusterRuns o).
Proof.
intros o env h fs Hs H.
assert (C : forall alert hint getID collectors summary k,
          val (check (collection alert hint o getID collectors summary) k env h fs) <> None
          /\ Forall (fun e => preflightEvent e = true)
               (emitted (check (collection alert hint o getID collectors summary) k env h fs))).
{ intros. destruct (collection_unreachable alert hint o getID collectors summary env h fs H) as [Hv Ht].
  destruct (val (collection alert hint o getID collectors summary env h fs)) as [msg|] eqn:Ev;
    [|contradiction].
  destruct (check_stops _ k env h fs msg Ev) as [Cv Ce].
  rewrite Cv, Ce. split; [discriminate | exact Ht]. }
unfold clusterRuns. repeat (apply Forall_cons || apply Forall_nil).
- unfold Pruning.run. apply C.
- unfold Pruning.run'. rewrite Hs. apply C.
- unfold Monitoring.run. rewrite Hs. apply C.
- unfold DynatraceCmd.run. rewrite Hs. apply C.
Qed.

(** A machine without [oc]. *)
Lemma unreachable_cluster_writes_nothing_witness :
  Forall (fun run : M error =>
            val (run (withoutOc Demo.env) [] []) <> None
            /\ Forall (fun e => preflightEvent e = true) (emitted (run (withoutOc Demo.env) [] [])))
    (clusterRuns (Demo.options "bundle" "")).
Proof.
apply (unreachable_cluster_writes_nothing (Demo.options "bundle" "") (withoutOc Demo.env) [] []);
  [reflexivity | left; discriminate].
Defined.

(** X17. Without [--cluster] a collecting run of the provisioning command
    returns an error after it has made the bundle directory and printed the
    usage: it starts no process and leaves the files as they are. *)
Theorem provisioning_requires_cluster :
  forall (o : Options) (env : Env) (h : list Event) (fs : FS),
    skipCollection o = false ->
    clusterID o = "" ->
    val (Provisioning.run o env h fs) <> None
    /\ Forall (fun e => preflightEvent e = true) (emitted (Provisioning.run o env h fs))
    /\ files (Provisioning.run o env h fs) = fs.
Proof.
intros o env h fs Hs Hc. unfold Provisioning.run. rewrite Hs.
assert (C : val (Provisioning.collection o env h fs) <> None
            /\ Forall (fun e => preflightEvent e = true) (emitted (Provisioning.collection o env h fs))
            /\ files (Provisioning.collection o env h fs) = fs).
{ unfold Provisioning.collection.
  rewrite ?bind_val, ?bind_emitted, ?bind_files. cbn [println printf emit MkdirAll val emitted files].
  destruct (mkdirAll env _) as [m|].
  { cbn [ret val emitted files List.app errorf]. split; [discriminate | split; [repeat constructor | reflexivity]]. }
  rewrite ?bind_val, ?bind_emitted, ?bind_files. cbn [println printf emit val emitted files].
  rewrite Hc. cbn [String.eqb].
  rewrite ?bind_val, ?bind_emitted, ?bind_files. cbn [println printf emit ret val emitted files List.app errorf].
  split; [discriminate | split; [repeat constructor | reflexivity]]. }
destruct C as (Cv & Ct & Cf).
destruct (val (Provisioning.collection o env h fs)) as [msg|] eqn:Ev; [|contradiction].
destruct (check_stops _ ((if enableLLMAnalysis o then announceLLM o ;; Provisioning.analysis o else ret tt) ;;
                          Provisioning.finishRun o ;; ret None) env h fs msg Ev) as [Xv Xe].
rewrite Xv, Xe. split; [discriminate | split; [exact Ct|]].
unfold check. rewrite bind_files, Ev. cbn [ret files]. exact Cf.
Qed.

(** The options of [Demo.options] carry no cluster. *)
Lemma provisioning_requires_cluster_witness :
  val (Provisioning.run (Demo.options "bundle" "") Demo.env [] []) <> None
  /\ Forall (fun e => preflightEvent e = true)
       (emitted (Provisioning.run (Demo.options "bundle" "") Demo.env [] []))
  /\ files (Provisioning.run (Demo.options "bundle" "") Demo.env [] []) = [].
Proof.
exact (provisioning_requires_cluster (Demo.options "bundle" "") Demo.env [] [] eq_refl eq_refl).
Defined.

End Runs.

(* ================================================================== *)
(** ** The options [complete] accepts *)
(* ================================================================== *)

Module Completion.
Import GoStr GoStrFacts Sys Cmd Llm TraceFacts Props MoreProps.

Lemma completeLLM_ready o : Returns ready (completeLLM o).
Proof.
unfold completeLLM.
destruct (enableLLMAnalysis o) eqn:En.
2:{ apply Returns_ret. intros _ H. cbn [fst] in H. congruence. }
apply (Returns_bind (fun _ => True)); [apply Returns_any | intros env _].
apply (Returns_bind (fun _ => True)); [apply Returns_any | intros o1 _].
apply (Returns_bind (fun o2 => llmBaseURL o2 <> "")).
{ destruct (llmBaseURL o1 =? "") eqn:U.
  - apply (Returns_bind (fun _ => True)); [apply Returns_any | intros configURL _].
    destruct (configURL =? "") eqn:C; cbn [negb].
    + destruct (firstEnv env baseURLVars) as [envURL|].
      * destruct (envURL =? "") eqn:V; apply Returns_ret; cbn [setBaseURL llmBaseURL].
        -- discriminate.
        -- apply String.eqb_neq. exact V.
      * apply Returns_ret. cbn [setBaseURL llmBaseURL]. discriminate.
    + apply Returns_ret. cbn [setBaseURL llmBaseURL]. apply String.eqb_neq. exact C.
  - apply Returns_ret. apply String.eqb_neq. exact U. }
intros o2 U2.
apply (Returns_bind (fun o3 => llmBaseURL o3 <> "")).
{ destruct (negb (flagChanged env "llm-model")).
  - apply (Returns_bind (fun _ => True)); [apply Returns_any | intros configModel _].
    destruct (negb (configModel =? "")); [apply Returns_ret; exact U2|].
    destruct (firstEnv env modelVars); apply Returns_ret; exact U2.
  - apply Returns_ret; exact U2. }
intros o3 U3.
destruct (llmAPIKey o3 =? "").
{ destruct (filter _ _); apply Returns_ret; intros H; discriminate H. }
destruct (validateAPIKey (llmAPIKey o3)) eqn:V; apply Returns_ret.
- intros H; discriminate H.
- intros _ _. cbn [fst]. split; [exact V | exact U3].
Qed.

Lemma complete_ready prefix o : Returns ready (Llm.complete prefix o).
Proof.
unfold Llm.complete.
apply (Returns_bind (fun _ => True)); [apply Returns_any | intros r _].
destruct (snd r); [apply Returns_ret; intros H; discriminate H | apply completeLLM_ready].
Qed.

(** X18. [complete] of the four commands that take [--analyze-existing]:
    when it gives no error and the analysis is enabled in the options it
    leaves (by [--analyze] or by [--analyze-existing]), the API key of those
    options passes [validateAPIKey] and their base URL is not empty, wherever
    key and URL came from (flag, configuration file, environment or
    default). *)
Theorem completed_key_is_valid :
  forall (o : Options) (c : M (Options * error)) (env : Env) (h : list Event) (fs : FS),
    In c (laterCompletes o) ->
    snd (val (c env h fs)) = None ->
    enableLLMAnalysis (fst (val (c env h fs))) = true ->
    validateAPIKey (llmAPIKey (fst (val (c env h fs)))) = None
    /\ llmBaseURL (fst (val (c env h fs))) <> "".
Proof.
intros o c env h fs Hin.
assert (R : Returns ready c).
{ unfold laterCompletes in Hin. cbn [In] in Hin.
  destruct Hin as [<-|[<-|[<-|[<-|[]]]]]; try apply complete_ready.
  unfold Provisioning.complete.
  apply (Returns_bind (fun _ => True)); [apply Returns_any | intros r _].
  destruct (snd r); [apply Returns_ret; intros H; discriminate H|].
  cbv zeta.
  apply (Returns_bind (fun _ => True)); [apply Returns_any | intros o2 _].
  apply completeLLM_ready. }
exact (R env h fs).
Qed.

(** The provisioning command with [--analyze --llm-api-key sk-0123456789]
    and no base URL. *)
Lemma completed_key_is_valid_witness :
  validateAPIKey
    (llmAPIKey (fst (val (Provisioning.complete (Demo.options "" "") Demo.env [] [])))) = None
  /\ llmBaseURL (fst (val (Provisioning.complete (Demo.options "" "") Demo.env [] []))) <> "".
Proof.
apply (completed_key_is_valid (Demo.options "" "")).
- right; right; left; reflexivity.
- vm_compute; reflexivity.
- vm_compute; reflexivity.
Defined.

(** X19. [complete] of those commands fails only over the existing
    directory or the analysis settings: without [--analyze-existing] and
    without [--analyze] it returns no error; in particular the provisioning
    command goes on when [ocm] cannot resolve the internal ID. *)
Theorem complete_fails_only_for_analysis :
  forall (o : Options),
    Forall (Returns (fun r : Options * error =>
                       snd r <> None -> existingDir o <> "" \/ enableLLMAnalysis o = true))
           (laterCompletes o).
Proof.
intros o.
assert (L : forall o', enableLLMAnalysis o' = enableLLMAnalysis o -> existingDir o' = existingDir o ->
            Returns (fun r : Options * error =>
                       snd r <> None -> existingDir o <> "" \/ enableLLMAnalysis o = true)
                    (completeLLM o')).
{ intros o' En _. unfold completeLLM. rewrite En.
  destruct (enableLLMAnalysis o).
  - intros env h fs _. right. reflexivity.
  - apply Returns_ret. intros H. exfalso. apply H. reflexivity. }
assert (D : forall prefix,
            Returns (fun r : Options * error =>
                       (snd r <> None -> existingDir o <> "")
                       /\ (existingDir o = "" ->
                           enableLLMAnalysis (fst r) = enableLLMAnalysis o
                           /\ existingDir (fst r) = existingDir o))
                    (completeOutputDir prefix o)).
{ intros prefix. unfold completeOutputDir.
  apply (Returns_bind (fun _ => True)); [apply Returns_any | intros env _].
  destruct (existingDir o =? "") eqn:Ex; cbn [negb].
  - destruct (outputDir o =? "").
    + apply (Returns_bind (fun _ => True)); [apply Returns_any | intros t _].
      apply Returns_ret. split; [intros H; exfalso; apply H; reflexivity|].
      intros _. split; reflexivity.
    + apply Returns_ret. split; [intros H; exfalso; apply H; reflexivity|].
      intros _. split; reflexivity.
  - apply String.eqb_neq in Ex.
    destruct (stat env (existingDir o)); apply Returns_ret; split; try (intros _; exact Ex);
      intros H; contradiction. }
assert (C : forall prefix,
            Returns (fun r : Options * error =>
                       snd r <> None -> existingDir o <> "" \/ enableLLMAnalysis o = true)
                    (Llm.complete prefix o)).
{ intros prefix. unfold Llm.complete.
  eapply Returns_bind; [apply D|]. intros r [Hr1 Hr2].
  destruct (snd r) eqn:S.
  - apply Returns_ret. intros _. left. apply Hr1. discriminate.
  - destruct (String.string_dec (existingDir o) "") as [Ex|Ex].
    + destruct (Hr2 Ex). apply L; assumption.
    + intros env h fs _. left. exact Ex. }
unfold laterCompletes. repeat (apply Forall_cons || apply Forall_nil); try apply C.
unfold Provisioning.complete.
eapply Returns_bind; [apply D|]. intros r [Hr1 Hr2].
destruct (snd r) eqn:S.
- apply Returns_ret. intros _. left. apply Hr1. discriminate.
- cbv zeta. destruct (String.string_dec (existingDir o) "") as [Ex|Ex].
  + destruct (Hr2 Ex) as [En Ed].
    apply (Returns_bind (fun o2 => enableLLMAnalysis o2 = enableLLMAnalysis o
                                   /\ existingDir o2 = existingDir o)).
    * destruct (negb _); [|apply Returns_ret; split; assumption].
      apply (Returns_bind (fun _ => True)); [apply Returns_any | intros i _].
      destruct (snd i).
      -- apply (Returns_bind (fun _ => True)); [apply Returns_any | intros ? _].
         apply (Returns_bind (fun _ => True)); [apply Returns_any | intros ? _].
         apply Returns_ret; split; assumption.
      -- apply Returns_ret; split; assumption.
    * intros o2 [? ?]. apply L; assumption.
  + intros env h fs _. left. exact Ex.
Qed.

End Completion.

(* ================================================================== *)
(** ** The questions of a follow-up session *)
(* ================================================================== *)

Module Questions.
Import GoStr GoStrFacts Sys Cmd Llm TraceFacts Props MoreProps Analysis FollowUp.

Lemma askFollowUpQuestion_posts o hist q env h fs :
  map lastMessage (posts (emitted (askFollowUpQuestion o hist q env h fs))) =
  match newRequest env (endpointURL (llmBaseURL o)) with
  | Some _ => []
  | None => [mkMessage "user" q]
  end.
Proof.
unfold askFollowUpQuestion. cbv zeta.
rewrite !bind_emitted, ?bind_val. cbn [ask val emitted files List.app].
destruct (newRequest env _); [reflexivity|].
rewrite !bind_emitted, ?bind_val. unfold Do at 1. cbn [val emitted files List.app].
match goal with |- context [posts (?e :: ?l)] =>
  assert (P : posts l = []); [| change (posts (e :: l)) with (posts [e] ++ posts l)%list ] end.
{ unfold Do. cbn [val].
  destruct (http env _ _) as [msg|status body]; [reflexivity|].
  destruct (negb _).
  - rewrite bind_emitted, followUpStatusError_silent. reflexivity.
  - rewrite bind_emitted, ?bind_val.
    match goal with |- context [firstChoice body env ?hh ?ff] =>
      destruct (firstChoice_spec body env hh ff) as (Hc & Hce) end.
    rewrite Hc, Hce.
    destruct (decodeChoices (json env) body) as [[|c l]|m]; reflexivity. }
rewrite P. cbn [posts flat_map map List.app]. unfold lastMessage. cbn [fst].
unfold chatRequest. cbn [reqMessages]. rewrite last_last. reflexivity.
Qed.

Ltac close_loop IH :=
  match goal with
  | |- context [followUpLoop ?o ?f ?g ?y ?rest ?hist ?env ?h ?fs] =>
      let I1 := fresh "I" in
      let I2 := fresh "I" in
      destruct (IH hist env h fs) as [I1 I2]; cbv zeta in I1, I2; rewrite I1;
      split; [destruct (newRequest env _); reflexivity | exact I2]
  end.

Lemma followUpLoop_questions o file green yellow lines :
  forall hist env h fs,
    let r := followUpLoop o file green yellow lines hist env h fs in
    map lastMessage (posts (emitted r)) =
    match newRequest env (endpointURL (llmBaseURL o)) with
    | Some _ => []
    | None => map (mkMessage "user") (questions env lines)
    end
    /\ (val r = None
        \/ exists m, stdinErr env = Some m /\ val r = Some ("error reading input: " ++ m)).
Proof.
induction lines as [|line rest IH]; intros hist env h fs; cbv zeta; cbn [followUpLoop questions].
- rewrite !bind_emitted, !bind_val. cbn [printf emit ask val emitted files].
  cbn [List.app posts flat_map map].
  destruct (stdinErr env) as [m|]; cbn [ret val emitted posts flat_map map].
  + split; [destruct (newRequest env _); reflexivity|]. right. exists m. split; reflexivity.
  + split; [destruct (newRequest env _); reflexivity|]. left. reflexivity.
- rewrite !bind_emitted, !bind_val. cbn [printf emit ask val emitted files].
  rewrite !posts_app. cbn [posts flat_map List.app]. cbv zeta.
  destruct (TrimSpace line =? ""); [apply IH|].
  destruct (isExit env (TrimSpace line)).
  { rewrite !bind_emitted, !bind_val. cbn [println emit ret val emitted posts flat_map List.app map].
    split; [destruct (newRequest env _); reflexivity | left; reflexivity]. }
  rewrite !bind_emitted, !bind_val. cbn [println emit val emitted files].
  rewrite !posts_app, !map_app. cbn [posts flat_map List.app map].
  rewrite askFollowUpQuestion_posts.
  match goal with |- context [askFollowUpQuestion o hist (TrimSpace line) env ?hh ?ff] =>
    set (r := askFollowUpQuestion o hist (TrimSpace line) env hh ff) in *
  end.
  destruct (snd (val r)) as [msg|].
  + rewrite !bind_emitted, !bind_val, !posts_app.
    cbn [printf emit val emitted files posts flat_map List.app].
    close_loop IH.
  + rewrite !bind_emitted, !bind_val, !posts_app, ?posts_appendToFile.
    cbn [printf println emit val emitted files posts flat_map List.app].
    match goal with |- context [emitted (match ?e with _ => _ end ?x ?y ?z)] =>
      destruct e; cbn [printf emit ret val emitted files posts flat_map List.app] end; close_loop IH.
Qed.

(** X20. What a follow-up session sends: when requests can be built, one
    request per line that is not blank, in the order read and up to the first
    line that says [exit], [quit] or [q], each ending with that line, trimmed,
    as a [user] message; blank lines, the exit line and every line after it
    send nothing, and a question that fails does not end the session. When
    no request can be built nothing is sent. The session returns an error
    only when reading the input fails. *)
Theorem followUp_asks_each_question :
  forall (o : Options) (file : string) (hist : list Message) (green yellow : Color)
         (env : Env) (h : list Event) (fs : FS),
    let r := interactiveFollowUp o file hist green yellow env h fs in
    map lastMessage (posts (emitted r)) =
    match newRequest env (endpointURL (llmBaseURL o)) with
    | Some _ => []
    | None => map (mkMessage "user") (questions env (stdin env))
    end
    /\ (val r = None
        \/ exists m, stdinErr env = Some m /\ val r = Some ("error reading input: " ++ m)).
Proof.
intros o file hist green yellow env h fs. cbv zeta.
unfold interactiveFollowUp. rewrite !bind_emitted, !bind_val.
cbn [println emit ask val emitted files]. rewrite !posts_app. cbn [posts flat_map List.app].
apply followUpLoop_questions.
Qed.

End Questions.
(* ================================================================== *)
(** ** Collectors only read the cluster *)
(* ================================================================== *)

Module ReadOnly.
Import GoStr Sys Cmd TraceFacts Props.


End ReadOnly.

(* ================================================================== *)
(** ** The names of the bundle and of its files *)
(* ================================================================== *)

Module BundleNames.
Import GoStr Sys Cmd TraceFacts Props Bundle.

(** C6, as the claim reads: every file a run writes into the bundle has a name
    that begins with two digits. This fails: after the login check [run]
    writes [cluster-info.txt], and sends the output of [oc cluster-info] to
    the same file. *)
Lemma run_writes_cluster_info :
  ~ (forall o, Forall (Emits (Forall (fun e => numberedEvent e = true))) (allRuns o)).
Proof.
intros H. specialize (H (Demo.options "bundle" "")).
apply Forall_inv in H. specialize (H Demo.env [] []).
rewrite Forall_forall in H.
assert (F : forallb numberedEvent (emitted (Pruning.run (Demo.options "bundle" "") Demo.env [] [])) = true)
  by (apply forallb_forall; exact H).
vm_compute in F. discriminate F.
Qed.

(** C6, amended. When neither [--output-dir] nor [--analyze-existing] is
    given, [complete] of every command sets the output directory to the
    prefix of the command, [-diagnostics-] and the current time in the layout
    [20060102-150405]; and every file a run of any command creates, opens,
    writes, appends to or hands to a process has a name that begins with two
    digits, or is [cluster-info.txt]. *)
Theorem bundle_names :
  forall (o : Options) (env : Env) (h : list Event) (fs : FS),
    outputDir o = "" -> existingDir o = "" ->
    Forall (fun c => outputDir (fst (val (snd c o env h fs))) =
                     fst c ++ "-diagnostics-" ++ formatTimestamp (now env h)) allCompletes
    /\ forall o', Forall (Emits (Forall (fun e => bundleEvent e = true))) (allRuns o').
Proof.
intros o env h fs Ho He. split.
- unfold allCompletes. repeat (apply Forall_cons || apply Forall_nil); cbn [fst snd].
  + apply pruning_complete_default; assumption.
  + apply complete_default; assumption.
  + apply complete_default; assumption.
  + apply provisioning_complete_default; assumption.
  + apply complete_default; assumption.
- intros o'. unfold allRuns. repeat (apply Forall_cons || apply Forall_nil).
  all: emits_run.
Qed.

(** The directory names of the five commands for a run at 2026-11-02
    08:42:07 UTC. *)
Lemma bundle_names_witness :
  Forall (fun c => outputDir (fst (val (snd c (Demo.options "" "") Demo.env [] []))) =
                   fst c ++ "-diagnostics-20261102-084207") allCompletes.
Proof.
exact (proj1 (bundle_names (Demo.options "" "") Demo.env [] [] eq_refl eq_refl)).
Defined.

End BundleNames.

(* ================================================================== *)
(** ** Failures that do not end a run *)
(* ================================================================== *)

Module NonFatal.
Import GoStr GoStrFacts Sys Cmd TraceFacts Props.

Lemma followedBy_app bad good a b :
  followedBy bad good a = true -> followedBy bad good b = true ->
  followedBy bad good (a ++ b) = true.
Proof.
intros Ha Hb. induction a as [|e a IH]; [exact Hb|].
cbn [app followedBy] in *. apply andb_true_iff in Ha as [H1 H2].
apply andb_true_iff; split; [|apply IH; exact H2].
destruct (bad e); [|reflexivity]. destruct a; [discriminate|exact H1].
Qed.

Lemma Followed_app bad good a b :
  Followed bad good a -> Followed bad good b -> Followed bad good (a ++ b).
Proof. apply followedBy_app. Qed.

Lemma Emits_collectTo_marked y g r title sub args file failed saved :
  HasPrefix failed ("  " ++ cross ++ " Failed to ") = true ->
  Emits (Followed failedToFile failureMarker)
    (collectTo y g r title sub args file failed saved).
Proof.
intros Hf env h fs. unfold Followed, collectTo, println, printf, runOCCommand, defaultCommandExecutor, OpenAppend, runProcess.
cbn [bind emit ret emitted val files app].
destruct (fault env _ _); cbn [bind emit ret emitted val files app followedBy failedToFile andb].
- reflexivity.
- destruct (snd (proc env _ _ _)) eqn:E; cbn [bind emit ret emitted val files app followedBy failedToFile failureMarker andb].
  + cbn. rewrite andb_true_r. exact Hf.
  + reflexivity.
Qed.

Lemma Followed_nil bad good : Followed bad good [].
Proof. reflexivity. Qed.

Ltac quiet :=
  intros; repeat match goal with e : error |- _ => destruct e end; reflexivity.

Ltac emits_marked :=
  emits_gen (Followed_nil failedToFile failureMarker) (Followed_app failedToFile failureMarker)
    ltac:(quiet)
    ltac:(idtac;
          match goal with
          | |- Emits _ (collectTo _ _ _ _ _ _ _ _ _) =>
              apply Emits_collectTo_marked; reflexivity
          end).

Lemma collectors_marked o y g r :
  Forall (Emits (Followed failedToFile failureMarker)) (allCollectors o y g r).
Proof.
unfold allCollectors. repeat (apply Forall_cons || apply Forall_nil).
all: emits_marked.
Qed.

Lemma Emits_createTarball_warned {B} o (k : error -> M B) :
  (forall e, Emits (Followed failedArchive archiveWarning) (k e)) ->
  (forall msg env h fs,
     match emitted (k (Some msg) env h fs) with
     | m :: _ => archiveWarning m = true
     | [] => False
     end) ->
  Emits (Followed failedArchive archiveWarning) (bind (createTarball o) k).
Proof.
intros Hk Hw env h fs. rewrite bind_emitted.
remember (files (createTarball o env h fs)) as fs' eqn:Ef. clear Ef.
unfold createTarball. rewrite !bind_val, !bind_emitted.
cbn [runProcess ret val emitted files].
destruct (snd (proc env h "tar" _)) as [msg|] eqn:E.
- match goal with |- Followed _ _ (_ ++ emitted (k _ _ ?hh _)) =>
    specialize (Hw msg env hh fs'); specialize (Hk (Some msg) env hh fs')
  end.
  unfold Followed in *. cbn [List.app followedBy failedArchive String.eqb Ascii.eqb Bool.eqb].
  destruct (emitted _) as [|m rest]; [contradiction|].
  rewrite Hw. exact Hk.
- unfold Followed. cbn [List.app followedBy failedArchive andb]. apply Hk.
Qed.

Ltac emits_warned :=
  emits_run_gen (Followed_nil failedArchive archiveWarning) (Followed_app failedArchive archiveWarning)
    ltac:(quiet)
    ltac:(idtac;
          match goal with
          | |- Emits _ (bind (createTarball _) _) =>
              apply Emits_createTarball_warned; [ intro | intros; cbn; apply prefix_empty ]
          end).

Lemma runs_warned o :
  Forall (Emits (Followed failedArchive archiveWarning)) (allRuns o).
Proof.
unfold allRuns. repeat (apply Forall_cons || apply Forall_nil).
all: emits_warned.
Qed.

Lemma Blames_ret_None : Blames (ret None).
Proof. intros env h fs; left; reflexivity. Qed.

Lemma Blames_bind {A} (m : M A) (k : A -> M error) :
  (forall a, Blames (k a)) -> Blames (bind m k).
Proof.
intros Hk env h fs. rewrite bind_val, bind_emitted.
destruct (Hk (val (m env h fs)) env (h ++ emitted (m env h fs))%list (files (m env h fs))) as [H|H].
- left; exact H.
- right. apply Exists_app. right; exact H.
Qed.

Lemma Blames_guard (m : M error) (k : error -> M error) :
  Blames m -> Blames (k None) -> Blames (bind m k).
Proof.
intros Hm Hk env h fs. rewrite bind_val, bind_emitted.
destruct (Hm env h fs) as [H|H].
- rewrite H.
  destruct (Hk env (h ++ emitted (m env h fs))%list (files (m env h fs))) as [H'|H'].
  + left; exact H'.
  + right. apply Exists_app. right; exact H'.
- right. apply Exists_app. left; exact H.
Qed.

Lemma Blames_check (m k : M error) : Blames m -> Blames k -> Blames (check m k).
Proof. intros Hm Hk. unfold check. apply Blames_guard; assumption. Qed.

Lemma Blames_checkAll (steps : list (M error)) (k : M error) :
  Forall Blames steps -> Blames k -> Blames (checkAll steps k).
Proof.
intros Hs Hk; induction Hs as [|m steps Hm _ IH]; simpl; [exact Hk|].
apply Blames_check; assumption.
Qed.

Lemma Blames_MkdirAll : Blames MkdirAll.
Proof.
intros env h fs. unfold MkdirAll. cbn [val emitted].
destruct (mkdirAll env h); [right; constructor; reflexivity | left; reflexivity].
Qed.

Lemma Blames_LookPath : Blames (LookPath "oc").
Proof.
intros env h fs. unfold LookPath. cbn [val emitted].
destruct (lookPath env _); [right; constructor; reflexivity | left; reflexivity].
Qed.

Lemma Blames_login : Blames (defaultCommandExecutor "cluster-info" [] DevNull).
Proof.
intros env h fs. unfold defaultCommandExecutor. rewrite bind_val, bind_emitted.
cbn [runProcess ret val emitted files app].
destruct (snd (proc env h "oc" ["cluster-info"])) eqn:E;
  [right; constructor; cbn [fatalEvent]; reflexivity | left; reflexivity].
Qed.

Lemma Blames_writeFile name content :
  (name =? "cluster-info.txt") || (name =? "00-SUMMARY.txt") = true ->
  Blames (writeFile name content).
Proof.
intros Hn env h fs. unfold writeFile, WriteFile.
destruct (fault env h _); cbn [val emitted];
  [right; constructor; exact Hn | left; reflexivity].
Qed.

Ltac blames :=
  repeat first
  [ progress cbv beta zeta
  | assumption
  | match goal with
    | |- Blames (ret None) => apply Blames_ret_None
    | |- Blames (check _ _) => apply Blames_check
    | |- Blames (checkAll _ _) =>
        apply Blames_checkAll; [ repeat (apply Forall_cons || apply Forall_nil) | ]
    | |- Blames (bind MkdirAll _) => apply Blames_guard; [ apply Blames_MkdirAll | ]
    | |- Blames (bind (LookPath _) _) => apply Blames_guard; [ apply Blames_LookPath | ]
    | |- Blames (bind (defaultCommandExecutor _ _ DevNull) _) =>
        apply Blames_guard; [ apply Blames_login | ]
    | |- Blames (bind (writeFile _ _) _) =>
        apply Blames_guard; [ apply Blames_writeFile; reflexivity | ]
    | |- Blames (writeFile _ _) => apply Blames_writeFile; reflexivity
    | |- Blames (bind _ _) => apply Blames_bind; intro
    | |- Blames (match ?x with _ => _ end) => destruct x
    end
  | match goal with |- Blames ?m => let hd := head_of m in progress unfold hd end ].

(** Without [--analyze-existing], a run that only logs in to the cluster
    returns an error only after a fatal event. *)
Lemma runs_blame o :
  skipCollection o = false ->
  Forall Blames [Pruning.run o; Pruning.run' o; Monitoring.run o; DynatraceCmd.run o].
Proof.
intros Hs. repeat (apply Forall_cons || apply Forall_nil).
all: unfold Pruning.run, Pruning.run', Monitoring.run, DynatraceCmd.run; rewrite ?Hs.
all: blames.
Qed.

Lemma provisioning_blames o :
  skipCollection o = false -> clusterID o <> "" -> Blames (Provisioning.run o).
Proof.
intros Hs Hc. apply String.eqb_neq in Hc.
unfold Provisioning.run, Provisioning.collection; rewrite ?Hs, ?Hc.
blames.
Qed.




End NonFatal.
